(** * Bonding-curve pricing engine: power-law curve and virtual-reserve hook

    Shallow embedding of
    - [app/src/lib/bonding-curve.ts] (class [BondingCurve], the power-law
      curve), and
    - the [useBondingCurve] hook (the constant-product curve over virtual
      reserves, with its simulated [executeBuy] / [executeSell]).

    Numbers.  A TypeScript [number] is modelled as a real number with exact
    arithmetic: rounding, NaN and the infinities of IEEE doubles are outside
    the model.  Every statement below that divides, takes a logarithm or a
    power says under which conditions on its inputs it is read. *)

From Stdlib Require Import Reals Lra String List Bool.
Local Open Scope R_scope.

(** ** JavaScript primitives used by the two files *)

Module Js.

(** A call either returns a value or throws [new Error(msg)]. *)
Inductive outcome (A : Type) : Type :=
  | Ok (a : A)
  | Throw (msg : string).
Arguments Ok {A} a.
Arguments Throw {A} msg.

Definition bind {A B : Type} (c : outcome A) (f : A -> outcome B) : outcome B :=
  match c with
  | Ok a => f a
  | Throw msg => Throw msg
  end.

Definition returns {A : Type} (c : outcome A) : Prop := exists a, c = Ok a.
Definition throws {A : Type} (c : outcome A) : Prop := exists msg, c = Throw msg.

(** Comparisons of numbers, as booleans. *)
Definition leb (x y : R) : bool := if Rle_dec x y then true else false.
Definition ltb (x y : R) : bool := if Rlt_dec x y then true else false.
Definition geb (x y : R) : bool := leb y x.
Definition gtb (x y : R) : bool := ltb y x.
(** [x === y] on numbers. *)
Definition eqb (x y : R) : bool := if Req_dec_T x y then true else false.

(** [Math.pow(x, y)].  [pow(x, 0)] is 1 for every [x]; a positive base is
  the real power; [pow(0, y)] is 0 for [y > 0].  The remaining cases
  (zero base with a negative exponent, negative base) give an infinity,
  NaN or a signed power in JavaScript: they lie outside the model and
  are given the value 0 here.  Every statement below that depends on the
  value of a power takes a base that is positive, or zero with a positive
  exponent. *)
Definition Math_pow (x y : R) : R :=
  if eqb y 0 then 1
  else if ltb 0 x then Rpower x y
  else 0.

(** [Math.log(x)], read for [x > 0]. *)
Definition Math_log (x : R) : R := ln x.

Definition Math_abs (x : R) : R := Rabs x.
Definition Math_max (x y : R) : R := Rmax x y.

End Js.

Import Js.

Notation "x <- c ;; f" := (bind c (fun x => f))
  (at level 61, c at next level, right associativity).

(** ** [bonding-curve.ts]: the power-law curve *)

Module PowerLaw.

Record BondingCurveConfig : Type := {
  initialPrice : R;
  k : R;
  maxSupply : R;
  reserveRatio : R
  }.

Record TradeCalculation : Type := {
  inputAmount : R;
  outputAmount : R;
  priceAfter : R;
  priceImpact : R;
  slippage : R;
  fee : R;
  netAmount : R
  }.

(** The two private fields of the class. *)
Record BondingCurve : Type := {
  config : BondingCurveConfig;
  feeRate : R
  }.

(** [constructor(config, feeRate = 0.01)] *)
Definition new_BondingCurve (cfg : BondingCurveConfig) (fr : option R) : BondingCurve :=
  {| config := cfg; feeRate := match fr with Some f => f | None => 0.01 end |}.

Definition DEFAULT_BONDING_CURVE_CONFIG : BondingCurveConfig :=
  {| initialPrice := 0.0001; k := 2; maxSupply := 1000000000; reserveRatio := 0.1 |}.

Definition validateBondingCurveConfig (c : BondingCurveConfig) : bool :=
  gtb (initialPrice c) 0 && gtb (k c) 0 && gtb (maxSupply c) 0
  && gtb (reserveRatio c) 0 && leb (reserveRatio c) 1.

(** [TokenMetrics]; its field [priceImpact] shares its name with the one
    of [TradeCalculation], hence the module. *)
Module TokenMetrics.
Record t : Type := {
  currentSupply : R;
  currentPrice : R;
  marketCap : R;
  totalReserve : R;
  priceImpact : R
  }.
End TokenMetrics.

Section Methods.
Variable this : BondingCurve.

Definition getMaxPrice : R :=
  initialPrice (config this) * Math_pow 1 (k (config this)).

Definition calculatePrice (supply : R) : R :=
  if leb supply 0 then initialPrice (config this)
  else if geb supply (maxSupply (config this)) then getMaxPrice
  else initialPrice (config this)
       * Math_pow (supply / maxSupply (config this)) (k (config this)).

(** The second parameter is never read by the body. *)
Definition calculateIntegral (supply solAmount : R) : R :=
  if eqb (k (config this)) 1 then
    initialPrice (config this) * supply
    * Math_log (supply / maxSupply (config this) + 1)
  else
    let exponent := k (config this) + 1 in
    (initialPrice (config this) * maxSupply (config this) / exponent)
    * Math_pow (supply / maxSupply (config this)) exponent.

Definition tolerance : R := 1e-10.

(** How the [for] loop of [solveForSupply] is left: by the [return mid]
    inside it, or by running out of iterations with the bracket
    [low, high]. *)
Inductive bisect_exit : Type :=
  | Converged (mid : R)
  | CapReached (low high : R).

(** The loop body, [iters] iterations left.  With [iters] below 100 this
    is the loop cut short: [CapReached low high] then says that none of the
    first [iters] iterations returned and gives the bracket they left.

    The midpoint is computed here over the reals, where halving never
    closes a bracket.  In double arithmetic the bracket shrinks to two
    neighbouring numbers after some fifty iterations and the midpoint is
    then one of its ends, so that the loop can return [maxSupply] or
    [currentSupply] itself.  What is stated of the loop below therefore
    rests on the order of [low], [mid] and [high] and on the outcome of the
    two comparisons, which are the same in both readings, and never on the
    width of a bracket.  One property belongs to the reals alone: a bracket
    with [low < high] does not return its ends.  It is used only to say
    that a buy below [maxSupply] is quoted a positive number of tokens, and
    for the buy at supply zero. *)
Fixpoint bisect (currentSupply targetIntegral : R) (iters : nat)
         (low high : R) : bisect_exit :=
  match iters with
  | O => CapReached low high
  | S rest =>
      let mid := (low + high) / 2 in
      let integral :=
        calculateIntegral mid 0 - calculateIntegral currentSupply 0 in
      if ltb (Math_abs (integral - targetIntegral)) tolerance then
        Converged mid
      else if ltb integral targetIntegral then
        bisect currentSupply targetIntegral rest mid high
      else
        bisect currentSupply targetIntegral rest low mid
  end.

Definition solveForSupply (currentSupply targetIntegral : R) : outcome R :=
  match bisect currentSupply targetIntegral 100
               currentSupply (maxSupply (config this)) with
  | Converged mid => Ok mid
  | CapReached low high => Ok ((low + high) / 2)
  end.

Definition calculateBuyAmount (solAmount currentSupply : R)
  : outcome TradeCalculation :=
  let fee := solAmount * feeRate this in
  let netSolAmount := solAmount - fee in
  let currentPrice := calculatePrice currentSupply in
  let integral := calculateIntegral currentSupply netSolAmount in
  newSupply <- solveForSupply currentSupply integral ;;
  let tokensOut := newSupply - currentSupply in
  let newPrice := calculatePrice newSupply in
  let priceImpact := ((newPrice - currentPrice) / currentPrice) * 100 in
  let avgPrice := netSolAmount / tokensOut in
  let slippage := ((avgPrice - currentPrice) / currentPrice) * 100 in
  Ok {| inputAmount := solAmount;
        outputAmount := tokensOut;
        priceAfter := newPrice;
        priceImpact := priceImpact;
        slippage := slippage;
        fee := fee;
        netAmount := tokensOut |}.

Definition calculateSellAmount (tokenAmount currentSupply : R)
  : outcome TradeCalculation :=
  if geb tokenAmount currentSupply then
    Throw "Cannot sell more tokens than current supply"
  else
    let currentPrice := calculatePrice currentSupply in
    let newSupply := currentSupply - tokenAmount in
    let newPrice := calculatePrice newSupply in
    let integral :=
      calculateIntegral newSupply 0 - calculateIntegral currentSupply 0 in
    let solOut := Math_abs integral in
    let fee := solOut * feeRate this in
    let netSolOut := solOut - fee in
    let priceImpact := ((currentPrice - newPrice) / currentPrice) * 100 in
    let avgPrice := solOut / tokenAmount in
    let slippage := ((currentPrice - avgPrice) / currentPrice) * 100 in
    Ok {| inputAmount := tokenAmount;
          outputAmount := netSolOut;
          priceAfter := newPrice;
          priceImpact := priceImpact;
          slippage := slippage;
          fee := fee;
          netAmount := netSolOut |}.

Definition validateTrade (amount : R) (isBuy : bool) (currentSupply : R)
  : outcome bool :=
  if leb amount 0 then Ok false
  else if isBuy then
    calculation <- calculateBuyAmount amount currentSupply ;;
    Ok (gtb (outputAmount calculation) 0
        && leb (currentSupply + outputAmount calculation)
               (maxSupply (config this)))
  else Ok (leb amount currentSupply).

Definition calculateSupplyFromPrice (price : R) : R :=
  if leb price (initialPrice (config this)) then 0
  else
    let ratio := price / initialPrice (config this) in
    maxSupply (config this) * Math_pow ratio (1 / k (config this)).

Definition getTokenMetrics (currentSupply : R) : TokenMetrics.t :=
  let currentPrice := calculatePrice currentSupply in
  let marketCap := currentSupply * currentPrice in
  let totalReserve := calculateIntegral currentSupply 0 in
  {| TokenMetrics.currentSupply := currentSupply;
     TokenMetrics.currentPrice := currentPrice;
     TokenMetrics.marketCap := marketCap;
     TokenMetrics.totalReserve := totalReserve;
     TokenMetrics.priceImpact := 0 |}.

Definition calculateMinimumOutput (solAmount currentSupply slippageTolerance : R)
  : outcome R :=
  calculation <- calculateBuyAmount solAmount currentSupply ;;
  Ok (outputAmount calculation * (1 - slippageTolerance / 100)).

Definition calculateMaximumInput (tokenAmount currentSupply slippageTolerance : R)
  : outcome R :=
  calculation <- calculateSellAmount tokenAmount currentSupply ;;
  Ok (outputAmount calculation * (1 + slippageTolerance / 100)).

End Methods.

(** [createBondingCurve(config?)], with no override. *)
Definition createBondingCurve : BondingCurve :=
  new_BondingCurve DEFAULT_BONDING_CURVE_CONFIG None.

End PowerLaw.

(** ** The [useBondingCurve] hook: constant product over virtual reserves *)

Module Hook.

Record BondingCurveState : Type := {
  virtualSolReserves : R;
  virtualTokenReserves : R;
  realSolReserves : R;
  realTokenReserves : R;
  totalSupply : R;
  marketCap : R;
  progress : R;
  isComplete : bool
  }.

Record BondingCurveCalculation : Type := {
  outputAmount : R;
  priceImpact : R;
  newPrice : R;
  slippage : R;
  fee : R
  }.

(** [BONDING_CURVE_CONSTANTS] *)
Definition VIRTUAL_SOL_RESERVES : R := 30.
Definition VIRTUAL_TOKEN_RESERVES : R := 1073000000.
Definition REAL_SOL_RESERVES_TARGET : R := 85.
Definition TOTAL_SUPPLY : R := 1000000000.
Definition FEE_RATE : R := 0.01.
Definition SLIPPAGE_TOLERANCE : R := 0.05.

(** What the hook reads from its surroundings: the wallet and the
    [tokenMint] argument.  Only their presence matters. *)
Record Wallet : Type := {
  publicKey : option string;
  signTransaction : bool;
  tokenMint : option string
  }.

Definition connected (w : Wallet) : bool :=
  match publicKey w, tokenMint w with
  | Some _, Some _ => signTransaction w
  | _, _ => false
  end.

(** The strings passed to [setError]; the second one embeds
    [slippage.toFixed(2)], kept here as the number itself. *)
Inductive ErrorMessage : Type :=
  | WalletNotConnected
  | SlippageTooHigh (slippage : R).

(** The three [useState] cells. *)
Record HookState : Type := {
  state : BondingCurveState;
  loading : bool;
  error : option ErrorMessage
  }.

(** The initial value given to [useState]. *)
Definition initialState : BondingCurveState :=
  {| virtualSolReserves := VIRTUAL_SOL_RESERVES;
     virtualTokenReserves := VIRTUAL_TOKEN_RESERVES;
     realSolReserves := 0;
     realTokenReserves := 0;
     totalSupply := TOTAL_SUPPLY;
     marketCap := 0;
     progress := 0;
     isComplete := false |}.

Definition initialHook : HookState :=
  {| state := initialState; loading := false; error := None |}.

Definition getCurrentPrice (st : BondingCurveState) : R :=
  virtualSolReserves st / virtualTokenReserves st.

Definition getMarketCap (st : BondingCurveState) : R :=
  getCurrentPrice st * totalSupply st.

Definition calculateBuy (st : BondingCurveState) (solAmount : R)
  : BondingCurveCalculation :=
  let fee := solAmount * FEE_RATE in
  let netSolAmount := solAmount - fee in
  let k := virtualSolReserves st * virtualTokenReserves st in
  let newSolReserves := virtualSolReserves st + netSolAmount in
  let newTokenReserves := k / newSolReserves in
  let outputAmount := virtualTokenReserves st - newTokenReserves in
  let oldPrice := getCurrentPrice st in
  let newPrice := newSolReserves / newTokenReserves in
  let priceImpact := ((newPrice - oldPrice) / oldPrice) * 100 in
  let slippage := Math_abs priceImpact in
  {| outputAmount := outputAmount;
     priceImpact := priceImpact;
     newPrice := newPrice;
     slippage := slippage;
     fee := fee |}.

Definition calculateSell (st : BondingCurveState) (tokenAmount : R)
  : BondingCurveCalculation :=
  let k := virtualSolReserves st * virtualTokenReserves st in
  let newTokenReserves := virtualTokenReserves st + tokenAmount in
  let newSolReserves := k / newTokenReserves in
  let grossSolAmount := virtualSolReserves st - newSolReserves in
  let fee := grossSolAmount * FEE_RATE in
  let outputAmount := grossSolAmount - fee in
  let oldPrice := getCurrentPrice st in
  let newPrice := newSolReserves / newTokenReserves in
  let priceImpact := ((newPrice - oldPrice) / oldPrice) * 100 in
  let slippage := Math_abs priceImpact in
  {| outputAmount := outputAmount;
     priceImpact := priceImpact;
     newPrice := newPrice;
     slippage := slippage;
     fee := fee |}.

(** The object given to [setState] after a buy: the spread copies every
    other field of [prevState]. *)
Definition stateAfterBuy (prevState : BondingCurveState) (solAmount : R)
           (calculation : BondingCurveCalculation) : BondingCurveState :=
  {| virtualSolReserves :=
       virtualSolReserves prevState + (solAmount - fee calculation);
     virtualTokenReserves :=
       virtualTokenReserves prevState - outputAmount calculation;
     realSolReserves :=
       realSolReserves prevState + (solAmount - fee calculation);
     realTokenReserves := realTokenReserves prevState;
     totalSupply := totalSupply prevState;
     marketCap := marketCap prevState;
     progress := progress prevState;
     isComplete := isComplete prevState |}.

Definition stateAfterSell (prevState : BondingCurveState) (tokenAmount : R)
           (calculation : BondingCurveCalculation) : BondingCurveState :=
  {| virtualSolReserves :=
       virtualSolReserves prevState - outputAmount calculation;
     virtualTokenReserves := virtualTokenReserves prevState + tokenAmount;
     realSolReserves :=
       Math_max 0 (realSolReserves prevState - outputAmount calculation);
     realTokenReserves := realTokenReserves prevState;
     totalSupply := totalSupply prevState;
     marketCap := marketCap prevState;
     progress := progress prevState;
     isComplete := isComplete prevState |}.

(** [executeBuy] and [executeSell] are callbacks created by a render.  The
    quote is computed by the [calculateBuy] (or [calculateSell]) of that
    render, from the state the render captured: [rendered].  The update
    given to [setState] is applied, after the simulated delay, to whatever
    the state is by then: the [prevState] of the update, which is
    [state h].  Nothing in the source makes the two coincide; they do when
    the call is made through the callbacks of the latest render and no other
    update comes in between, which is written [executeBuy w (state h) h a].
    The result is the hook after the call and the resolved value of the
    promise ([None] for [null]). *)
Definition executeBuy (w : Wallet) (rendered : BondingCurveState)
           (h : HookState) (solAmount : R)
  : HookState * option string :=
  if negb (connected w) then
    ({| state := state h; loading := loading h;
        error := Some WalletNotConnected |}, None)
  else
    let calculation := calculateBuy rendered solAmount in
    if gtb (slippage calculation) (SLIPPAGE_TOLERANCE * 100) then
      ({| state := state h; loading := false;
          error := Some (SlippageTooHigh (slippage calculation)) |}, None)
    else
      ({| state := stateAfterBuy (state h) solAmount calculation;
          loading := false; error := None |},
       Some "mock_transaction_signature"%string).

Definition executeSell (w : Wallet) (rendered : BondingCurveState)
           (h : HookState) (tokenAmount : R)
  : HookState * option string :=
  if negb (connected w) then
    ({| state := state h; loading := loading h;
        error := Some WalletNotConnected |}, None)
  else
    let calculation := calculateSell rendered tokenAmount in
    if gtb (slippage calculation) (SLIPPAGE_TOLERANCE * 100) then
      ({| state := state h; loading := false;
          error := Some (SlippageTooHigh (slippage calculation)) |}, None)
    else
      ({| state := stateAfterSell (state h) tokenAmount calculation;
          loading := false; error := None |},
       Some "mock_transaction_signature"%string).

(** The four results of [Math.random()], each in [0, 1), in call order. *)
Record Draws : Type := { r1 : R; r2 : R; r3 : R; r4 : R }.

Definition valid_draws (d : Draws) : Prop :=
  0 <= r1 d < 1 /\ 0 <= r2 d < 1 /\ 0 <= r3 d < 1 /\ 0 <= r4 d < 1.

Definition mockState (d : Draws) : BondingCurveState :=
  let vs := VIRTUAL_SOL_RESERVES + r1 d * 10 in
  let vt := VIRTUAL_TOKEN_RESERVES - r2 d * 100000000 in
  let rs := r3 d * 50 in
  let pr := (rs / REAL_SOL_RESERVES_TARGET) * 100 in
  {| virtualSolReserves := vs;
     virtualTokenReserves := vt;
     realSolReserves := rs;
     realTokenReserves := r4 d * 500000000;
     totalSupply := TOTAL_SUPPLY;
     marketCap := (vs / vt) * TOTAL_SUPPLY;
     progress := pr;
     isComplete := geb pr 100 |}.

Definition refreshState (w : Wallet) (h : HookState) (d : Draws) : HookState :=
  match tokenMint w with
  | None => h
  | Some _ => {| state := mockState d; loading := false; error := None |}
  end.

(** The calls a client can make on the hook, and a run of them by a client
    that takes the callbacks of the latest render before every call. *)
Inductive Call : Type :=
  | Buy (solAmount : R)
  | Sell (tokenAmount : R)
  | Refresh (d : Draws).

Definition step (w : Wallet) (h : HookState) (c : Call) : HookState :=
  match c with
  | Buy a => fst (executeBuy w (state h) h a)
  | Sell a => fst (executeSell w (state h) h a)
  | Refresh d => refreshState w h d
  end.

Definition run (w : Wallet) (h : HookState) (cs : list Call) : HookState :=
  fold_left (step w) cs h.

(** [n] sells of the same amount, one after the other, all made through
    the [executeSell] of one render: a client that keeps the callback it
    was given. *)
Fixpoint sellsThrough (w : Wallet) (rendered : BondingCurveState)
         (h : HookState) (tokenAmount : R) (n : nat) : HookState :=
  match n with
  | O => h
  | S rest =>
      sellsThrough w rendered (fst (executeSell w rendered h tokenAmount))
                   tokenAmount rest
  end.


(** Positive virtual reserves, real SOL reserves that are not negative, and
    the total supply of the constants. *)
Definition reserves_sound (s : BondingCurveState) : Prop :=
  0 < virtualSolReserves s /\ 0 < virtualTokenReserves s
  /\ 0 <= realSolReserves s /\ totalSupply s = TOTAL_SUPPLY.

(** A call with a non-negative amount, or a refresh with results of
    [Math.random()]. *)
Definition nonneg_call (c : Call) : Prop :=
  match c with
  | Buy a => 0 <= a
  | Sell b => 0 <= b
  | Refresh d => valid_draws d
  end.

Definition succeeded (r : HookState * option string) : Prop :=
  snd r = Some "mock_transaction_signature"%string.

End Hook.

(** ** Sample configurations used by the examples *)

Module Samples.

(** The curve of the spec's scenario B: [initialPrice = 1], exponent 1,
    [maxSupply = 100], with the constructor's default fee rate. *)
Definition scenarioB : PowerLaw.BondingCurve :=
  PowerLaw.new_BondingCurve
    {| PowerLaw.initialPrice := 1; PowerLaw.k := 1;
       PowerLaw.maxSupply := 100; PowerLaw.reserveRatio := 0.1 |} None.

(** The same curve with exponent 2. *)
Definition quadratic : PowerLaw.BondingCurve :=
  PowerLaw.new_BondingCurve
    {| PowerLaw.initialPrice := 1; PowerLaw.k := 2;
       PowerLaw.maxSupply := 100; PowerLaw.reserveRatio := 0.1 |} None.

(** A wallet that is connected, with a token mint given to the hook. *)
Definition wallet : Hook.Wallet :=
  {| Hook.publicKey := Some "owner"%string;
     Hook.signTransaction := true;
     Hook.tokenMint := Some "mint"%string |}.

(** Four results of [Math.random()]. *)
Definition draws : Hook.Draws :=
  {| Hook.r1 := 0.5; Hook.r2 := 0.25; Hook.r3 := 0.75; Hook.r4 := 0.5 |}.

(** A hook whose state carries [isComplete = true] and 90 SOL of real
    reserves, with the virtual reserves of the initial state. *)
Definition completedHook : Hook.HookState :=
  {| Hook.state :=
       {| Hook.virtualSolReserves := Hook.VIRTUAL_SOL_RESERVES;
          Hook.virtualTokenReserves := Hook.VIRTUAL_TOKEN_RESERVES;
          Hook.realSolReserves := 90;
          Hook.realTokenReserves := 0;
          Hook.totalSupply := Hook.TOTAL_SUPPLY;
          Hook.marketCap := 0;
          Hook.progress := 100;
          Hook.isComplete := true |};
     Hook.loading := false;
     Hook.error := None |}.


End Samples.

(** * Properties *)

(** ** Comparisons and [Math.pow] *)

Lemma leb_true (x y : R) : leb x y = true <-> x <= y.
Proof. unfold leb; destruct (Rle_dec x y); split; intros; try easy. Qed.

Lemma leb_false (x y : R) : leb x y = false <-> y < x.
Proof. unfold leb; destruct (Rle_dec x y); split; intros; try easy; lra. Qed.

Lemma ltb_true (x y : R) : ltb x y = true <-> x < y.
Proof. unfold ltb; destruct (Rlt_dec x y); split; intros; try easy. Qed.

Lemma ltb_false (x y : R) : ltb x y = false <-> y <= x.
Proof. unfold ltb; destruct (Rlt_dec x y); split; intros; try easy; lra. Qed.

Lemma eqb_true (x y : R) : eqb x y = true <-> x = y.
Proof. unfold eqb; destruct (Req_dec_T x y); split; intros; try easy. Qed.

Lemma eqb_false (x y : R) : eqb x y = false <-> x <> y.
Proof. unfold eqb; destruct (Req_dec_T x y); split; intros; try easy. Qed.

(** Decide every comparison in the goal and drop the impossible branches. *)
Ltac cmp :=
  unfold geb, gtb, leb, ltb, eqb in *;
  repeat match goal with
    | |- context [Rle_dec ?a ?b] => destruct (Rle_dec a b); try lra
    | |- context [Rlt_dec ?a ?b] => destruct (Rlt_dec a b); try lra
    | |- context [Req_dec_T ?a ?b] => destruct (Req_dec_T a b); try lra
    end.

Lemma Math_pow_pos_base (x y : R) : 0 < x -> Math_pow x y = Rpower x y.
Proof.
  intros Hx. unfold Math_pow. cmp.
  subst y. now rewrite Rpower_O.
Qed.

Lemma Math_pow_one (y : R) : Math_pow 1 y = 1.
Proof.
  rewrite Math_pow_pos_base by lra.
  unfold Rpower. now rewrite ln_1, Rmult_0_r, exp_0.
Qed.

Lemma Math_pow_zero (y : R) : 0 < y -> Math_pow 0 y = 0.
Proof. intros Hy. unfold Math_pow. cmp. Qed.

Lemma Math_pow_nonneg (x y : R) : 0 <= x -> 0 <= Math_pow x y.
Proof.
  intros Hx. unfold Math_pow. cmp.
  unfold Rpower. left. apply exp_pos.
Qed.

Lemma Math_pow_le_one (x y : R) : 0 < x <= 1 -> 0 <= y -> Math_pow x y <= 1.
Proof.
  intros Hx Hy. rewrite <- (Math_pow_one y).
  rewrite !Math_pow_pos_base by lra.
  apply Rle_Rpower_l; lra.
Qed.

Lemma Math_pow_lt_one (x y : R) : 0 < x < 1 -> 0 < y -> Math_pow x y < 1.
Proof.
  intros Hx Hy. rewrite <- (Math_pow_one y).
  rewrite !Math_pow_pos_base by lra.
  apply Rlt_Rpower_l; lra.
Qed.

(** [Math.pow] is non-decreasing in a non-negative base, for a positive
    exponent. *)
Lemma Math_pow_mono (x x' y : R) :
  0 <= x <= x' -> 0 < y -> Math_pow x y <= Math_pow x' y.
Proof.
  intros [H0 Hle] Hy.
  destruct (Req_dec_T x 0) as [->|Hx].
  - rewrite Math_pow_zero by assumption. apply Math_pow_nonneg. lra.
  - rewrite !Math_pow_pos_base by lra.
    apply Rle_Rpower_l; lra.
Qed.

Lemma Math_pow_strict_mono (x x' y : R) :
  0 <= x < x' -> 0 < y -> Math_pow x y < Math_pow x' y.
Proof.
  intros [H0 Hlt] Hy.
  destruct (Req_dec_T x 0) as [->|Hx].
  - rewrite Math_pow_zero by assumption.
    rewrite Math_pow_pos_base by lra. apply exp_pos.
  - rewrite !Math_pow_pos_base by lra.
    apply Rlt_Rpower_l; lra.
Qed.

Lemma Math_pow_nat (x : R) (n : nat) :
  0 < x -> Math_pow x (INR n) = x ^ n.
Proof.
  intros Hx. rewrite Math_pow_pos_base by assumption.
  now apply Rpower_pow.
Qed.

(** ** The power-law price *)

Section PowerLawPrice.
Import PowerLaw.
Variable this : BondingCurve.

Lemma getMaxPrice_eq : getMaxPrice this = initialPrice (config this).
Proof. unfold getMaxPrice. rewrite Math_pow_one. lra. Qed.

Lemma calculatePrice_nonpos (s : R) :
    s <= 0 -> calculatePrice this s = initialPrice (config this).
Proof. intros Hs. unfold calculatePrice. cmp. Qed.

Lemma calculatePrice_above (s : R) :
    maxSupply (config this) <= s -> calculatePrice this s = initialPrice (config this).
Proof.
    intros Hs. unfold calculatePrice. cmp; now rewrite getMaxPrice_eq.
Qed.

Lemma calculatePrice_inside (s : R) :
    0 < s < maxSupply (config this) ->
    calculatePrice this s
    = initialPrice (config this)
      * Rpower (s / maxSupply (config this)) (k (config this)).
Proof.
    intros Hs. unfold calculatePrice. cmp.
    rewrite Math_pow_pos_base; [reflexivity|].
    apply Rdiv_lt_0_compat; lra.
Qed.

Hypothesis initialPrice_pos : 0 < initialPrice (config this).
Hypothesis k_pos : 0 < k (config this).
Hypothesis maxSupply_pos : 0 < maxSupply (config this).

Lemma ratio_inside (s : R) :
    0 < s < maxSupply (config this) -> 0 < s / maxSupply (config this) < 1.
Proof.
    intros Hs. split.
    - apply Rdiv_lt_0_compat; lra.
    - apply Rmult_lt_reg_r with (maxSupply (config this)); [assumption|].
      unfold Rdiv. rewrite Rmult_assoc, Rinv_l by lra. lra.
Qed.

Lemma calculatePrice_le_initial (s : R) :
    calculatePrice this s <= initialPrice (config this).
Proof.
    destruct (Rle_dec s 0) as [Hs|Hs].
    { rewrite calculatePrice_nonpos by assumption. lra. }
    destruct (Rle_dec (maxSupply (config this)) s) as [Hm|Hm].
    { rewrite calculatePrice_above by assumption. lra. }
    rewrite calculatePrice_inside by lra.
    assert (H := ratio_inside s ltac:(lra)).
    assert (Hp : Rpower (s / maxSupply (config this)) (k (config this)) <= 1).
    { rewrite <- Math_pow_pos_base by lra. apply Math_pow_le_one; lra. }
    nra.
Qed.

Lemma calculatePrice_lt_initial (s : R) :
    0 < s < maxSupply (config this) ->
    calculatePrice this s < initialPrice (config this).
Proof.
    intros Hs. rewrite calculatePrice_inside by lra.
    assert (H := ratio_inside s Hs).
    assert (Hp : Rpower (s / maxSupply (config this)) (k (config this)) < 1).
    { rewrite <- Math_pow_pos_base by lra. apply Math_pow_lt_one; lra. }
    nra.
Qed.

(** Above zero the price does not decrease with the supply. *)
Lemma calculatePrice_mono_pos (s s' : R) :
    0 < s -> s <= s' -> calculatePrice this s <= calculatePrice this s'.
Proof.
    intros Hs Hle.
    destruct (Rle_dec (maxSupply (config this)) s') as [Hm|Hm].
    { rewrite (calculatePrice_above s') by assumption.
      apply calculatePrice_le_initial. }
    rewrite !calculatePrice_inside by lra.
    apply Rmult_le_compat_l; [lra|].
    apply Rle_Rpower_l; [lra|].
    split; [apply ratio_inside; lra|].
    apply Rmult_le_compat_r; [|assumption].
    left. apply Rinv_0_lt_compat. assumption.
Qed.

End PowerLawPrice.

(** Scenario B of the spec: [price(50) = 0.5], and [price(0)] is the clamp
    value 1. *)
Example scenarioB_price_50 : PowerLaw.calculatePrice Samples.scenarioB 50 = 1 / 2.
Proof.
  rewrite calculatePrice_inside by (cbn; lra). cbn.
  replace (50 / 100) with (1 / 2) by lra.
  rewrite Rpower_1 by lra. lra.
Qed.

Example scenarioB_price_0 : PowerLaw.calculatePrice Samples.scenarioB 0 = 1.
Proof. rewrite calculatePrice_nonpos by lra. reflexivity. Qed.

(** ** The constant-product curve of the hook *)

Section HookCurve.
Import Hook.
Variable st : BondingCurveState.
Hypothesis sol_pos : 0 < virtualSolReserves st.
Hypothesis token_pos : 0 < virtualTokenReserves st.

Lemma FEE_RATE_val : FEE_RATE = 1 / 100.
Proof. unfold FEE_RATE. lra. Qed.

Lemma buy_fee (a : R) : fee (calculateBuy st a) = a * FEE_RATE.
Proof. reflexivity. Qed.

(** The virtual SOL reserve a buy of [a] moves to. *)
Lemma buy_newSol_pos (a : R) :
    0 <= a -> 0 < virtualSolReserves st + (a - a * FEE_RATE).
Proof. intros Ha. rewrite FEE_RATE_val. lra. Qed.

Lemma buy_newPrice (a : R) :
    0 <= a ->
    newPrice (calculateBuy st a)
    = (virtualSolReserves st + (a - a * FEE_RATE))
      * (virtualSolReserves st + (a - a * FEE_RATE))
      / (virtualSolReserves st * virtualTokenReserves st).
Proof.
    intros Ha. assert (Hn := buy_newSol_pos a Ha).
    cbn. field. repeat split; lra.
Qed.

Lemma buy_outputAmount (a : R) :
    0 <= a ->
    outputAmount (calculateBuy st a)
    = virtualTokenReserves st * (a - a * FEE_RATE)
      / (virtualSolReserves st + (a - a * FEE_RATE)).
Proof.
    intros Ha. assert (Hn := buy_newSol_pos a Ha).
    cbn. field. lra.
Qed.

Lemma buy_priceImpact (a : R) :
    0 <= a ->
    priceImpact (calculateBuy st a)
    = ((a - a * FEE_RATE) * (2 * virtualSolReserves st + (a - a * FEE_RATE))
       / (virtualSolReserves st * virtualSolReserves st)) * 100.
Proof.
    intros Ha. assert (Hn := buy_newSol_pos a Ha).
    cbn. unfold getCurrentPrice. field. repeat split; lra.
Qed.

Lemma buy_priceImpact_nonneg (a : R) :
    0 <= a -> 0 <= priceImpact (calculateBuy st a).
Proof.
    intros Ha. rewrite buy_priceImpact by assumption.
    assert (Hn : 0 <= a - a * FEE_RATE) by (rewrite FEE_RATE_val; lra).
    apply Rmult_le_pos; [|lra].
    apply Rmult_le_pos; [nra|].
    left. apply Rinv_0_lt_compat. nra.
Qed.

Lemma stateAfterBuy_sol (a : R) :
    virtualSolReserves (stateAfterBuy st a (calculateBuy st a))
    = virtualSolReserves st + (a - a * FEE_RATE).
Proof. reflexivity. Qed.

Lemma stateAfterBuy_token (a : R) :
    0 <= a ->
    virtualTokenReserves (stateAfterBuy st a (calculateBuy st a))
    = virtualSolReserves st * virtualTokenReserves st
      / (virtualSolReserves st + (a - a * FEE_RATE)).
Proof. intros Ha. cbn. lra. Qed.

Lemma stateAfterBuy_price (a : R) :
    0 <= a ->
    getCurrentPrice (stateAfterBuy st a (calculateBuy st a))
    = newPrice (calculateBuy st a).
Proof.
    intros Ha. unfold getCurrentPrice.
    rewrite stateAfterBuy_sol, stateAfterBuy_token by assumption.
    reflexivity.
Qed.

Lemma buy_newPrice_mono (a1 a2 : R) :
    0 <= a1 <= a2 ->
    newPrice (calculateBuy st a1) <= newPrice (calculateBuy st a2).
Proof.
    intros [H1 H2]. rewrite !buy_newPrice by lra.
    assert (Hn1 := buy_newSol_pos a1 H1).
    assert (Hle : virtualSolReserves st + (a1 - a1 * FEE_RATE)
                  <= virtualSolReserves st + (a2 - a2 * FEE_RATE))
      by (rewrite FEE_RATE_val; lra).
    apply Rmult_le_compat_r.
    - left. apply Rinv_0_lt_compat. nra.
    - nra.
Qed.

Lemma buy_price_not_below (a : R) :
    0 <= a -> getCurrentPrice st <= newPrice (calculateBuy st a).
Proof.
    intros Ha.
    replace (getCurrentPrice st) with (newPrice (calculateBuy st 0)).
    - apply buy_newPrice_mono. lra.
    - rewrite buy_newPrice by lra. unfold getCurrentPrice. field. lra.
Qed.

End HookCurve.

(** ** C1 and C10 *)

(** C1, as stated, fails: with the default configuration the price at
    supply 0 is the clamp value [initialPrice], and the price at supply
    500000000 (half of [maxSupply]) is strictly below it. *)
Lemma price_drops_after_zero :
  let c := PowerLaw.createBondingCurve in
  0 <= 0 <= PowerLaw.maxSupply (PowerLaw.config c) /\ 500000000 > 0 /\
  ~ (PowerLaw.calculatePrice c (0 + 500000000) >= PowerLaw.calculatePrice c 0).
Proof.
  cbv zeta. split; [cbn; lra|]. split; [lra|].
  rewrite (calculatePrice_nonpos _ 0) by lra.
  assert (H : PowerLaw.calculatePrice PowerLaw.createBondingCurve (0 + 500000000)
              < PowerLaw.initialPrice (PowerLaw.config PowerLaw.createBondingCurve)).
  { apply calculatePrice_lt_initial; cbn; lra. }
  lra.
Qed.

(** C1 (amended): in the power-law variant the price is non-decreasing from
    every supply [s > 0] (at [s <= 0] the price is clamped to
    [initialPrice], the top of the curve); in the constant-product variant
    the price quoted for a buy is non-decreasing in the amount bought, it is
    never below the current price, and it is the current price of the state
    the buy leads to. *)
Theorem price_monotone_above_zero
  (this : PowerLaw.BondingCurve) (s ds : R)
  (st : Hook.BondingCurveState) (a1 a2 : R) :
  0 < PowerLaw.initialPrice (PowerLaw.config this) ->
  0 < PowerLaw.k (PowerLaw.config this) ->
  0 < PowerLaw.maxSupply (PowerLaw.config this) ->
  0 < s -> ds > 0 ->
  0 < Hook.virtualSolReserves st -> 0 < Hook.virtualTokenReserves st ->
  0 <= a1 <= a2 ->
  PowerLaw.calculatePrice this (s + ds) >= PowerLaw.calculatePrice this s
  /\ Hook.newPrice (Hook.calculateBuy st a2) >= Hook.newPrice (Hook.calculateBuy st a1)
  /\ Hook.newPrice (Hook.calculateBuy st a1) >= Hook.getCurrentPrice st
  /\ Hook.getCurrentPrice (Hook.stateAfterBuy st a1 (Hook.calculateBuy st a1))
     = Hook.newPrice (Hook.calculateBuy st a1).
Proof.
  intros HP Hk HM Hs Hds HvS HvT Ha.
  split; [|split; [|split]].
  - apply Rle_ge. apply calculatePrice_mono_pos; lra.
  - apply Rle_ge. now apply buy_newPrice_mono.
  - apply Rle_ge. apply buy_price_not_below; lra.
  - apply stateAfterBuy_price; lra.
Qed.

Lemma price_monotone_above_zero_witness :
  let c := PowerLaw.createBondingCurve in
  let st := Hook.initialState in
  PowerLaw.calculatePrice c (1000 + 500) >= PowerLaw.calculatePrice c 1000
  /\ Hook.newPrice (Hook.calculateBuy st 2) >= Hook.newPrice (Hook.calculateBuy st 1)
  /\ Hook.newPrice (Hook.calculateBuy st 1) >= Hook.getCurrentPrice st
  /\ Hook.getCurrentPrice (Hook.stateAfterBuy st 1 (Hook.calculateBuy st 1))
     = Hook.newPrice (Hook.calculateBuy st 1).
Proof.
  apply (price_monotone_above_zero PowerLaw.createBondingCurve 1000 500
           Hook.initialState 1 2); cbn; unfold Hook.VIRTUAL_SOL_RESERVES,
    Hook.VIRTUAL_TOKEN_RESERVES; lra.
Defined.

(** C10: with positive [initialPrice], [k] and [maxSupply], the price never
    exceeds [initialPrice], and the clamp value [getMaxPrice] used from
    [maxSupply] on is [initialPrice] itself. *)
Theorem price_bounded_by_initialPrice (this : PowerLaw.BondingCurve) (s : R) :
  0 < PowerLaw.initialPrice (PowerLaw.config this) ->
  0 < PowerLaw.k (PowerLaw.config this) ->
  0 < PowerLaw.maxSupply (PowerLaw.config this) ->
  PowerLaw.calculatePrice this s <= PowerLaw.initialPrice (PowerLaw.config this)
  /\ PowerLaw.getMaxPrice this = PowerLaw.initialPrice (PowerLaw.config this)
  /\ (PowerLaw.maxSupply (PowerLaw.config this) <= s ->
      PowerLaw.calculatePrice this s = PowerLaw.getMaxPrice this).
Proof.
  intros HP Hk HM. split; [|split].
  - now apply calculatePrice_le_initial.
  - apply getMaxPrice_eq.
  - intros Hs. rewrite getMaxPrice_eq. now apply calculatePrice_above.
Qed.

Lemma price_bounded_by_initialPrice_witness :
  let c := PowerLaw.createBondingCurve in
  PowerLaw.calculatePrice c 250000000 <= PowerLaw.initialPrice (PowerLaw.config c)
  /\ PowerLaw.getMaxPrice c = PowerLaw.initialPrice (PowerLaw.config c)
  /\ (PowerLaw.maxSupply (PowerLaw.config c) <= 250000000 ->
      PowerLaw.calculatePrice c 250000000 = PowerLaw.getMaxPrice c).
Proof.
  apply (price_bounded_by_initialPrice PowerLaw.createBondingCurve 250000000);
    cbn; lra.
Defined.

(** ** The integral routine and the inverse by bisection *)

Section PowerLawIntegral.
Import PowerLaw.
Variable this : BondingCurve.

(** The second argument of [calculateIntegral] has no effect. *)
Lemma calculateIntegral_ignores_solAmount (s x y : R) :
  calculateIntegral this s x = calculateIntegral this s y.
Proof. reflexivity. Qed.

Lemma calculateIntegral_log_branch (s x : R) :
  k (config this) = 1 ->
  calculateIntegral this s x
  = initialPrice (config this) * s * ln (s / maxSupply (config this) + 1).
Proof. intros Hk. unfold calculateIntegral, Math_log. cmp. Qed.

Lemma calculateIntegral_power_branch (s x : R) :
  k (config this) <> 1 ->
  calculateIntegral this s x
  = (initialPrice (config this) * maxSupply (config this) / (k (config this) + 1))
    * Math_pow (s / maxSupply (config this)) (k (config this) + 1).
Proof. intros Hk. unfold calculateIntegral. cmp. Qed.

End PowerLawIntegral.

Lemma scenarioB_log_cost :
  let c := Samples.scenarioB in
  PowerLaw.calculateIntegral c 50 0 - PowerLaw.calculateIntegral c 0 0
  = 50 * ln (3 / 2).
Proof.
  cbv zeta. rewrite !calculateIntegral_log_branch by reflexivity. cbn.
  replace (50 / 100 + 1) with (3 / 2) by lra. lra.
Qed.

(** C5, as stated, fails: on the curve [initialPrice = 1], [k = 1],
    [maxSupply = 100], moving the supply from 0 to 50 costs [50 * ln (3/2)]
    by the exponent-1 branch, not [1 * 100 * ln ((50 + 100) / (0 + 100))]. *)
Lemma log_branch_is_not_maxSupply_log :
  let c := Samples.scenarioB in
  PowerLaw.k (PowerLaw.config c) = 1 /\
  PowerLaw.calculateIntegral c 50 0 - PowerLaw.calculateIntegral c 0 0
  <> PowerLaw.initialPrice (PowerLaw.config c) * PowerLaw.maxSupply (PowerLaw.config c)
     * ln ((50 + PowerLaw.maxSupply (PowerLaw.config c))
           / (0 + PowerLaw.maxSupply (PowerLaw.config c))).
Proof.
  cbv zeta. split; [reflexivity|].
  rewrite !calculateIntegral_log_branch by reflexivity. cbn.
  replace (50 / 100 + 1) with (3 / 2) by lra.
  replace ((50 + 100) / (0 + 100)) with (3 / 2) by lra.
  assert (H : 0 < ln (3 / 2)).
  { rewrite <- ln_1. apply ln_increasing; lra. }
  lra.
Qed.

(** C5 (amended): with exponent 1 the integral routine returns
    [initialPrice * supply * ln (supply / maxSupply + 1)], so the cost of
    moving the supply from [s0] to [s1] is
    [initialPrice * (s1 * ln ((s1 + maxSupply) / maxSupply)
                     - s0 * ln ((s0 + maxSupply) / maxSupply))]: each
    logarithm is weighted by its own supply, not by [maxSupply]. *)
Theorem log_branch_cost (this : PowerLaw.BondingCurve) (s0 s1 : R) :
  PowerLaw.k (PowerLaw.config this) = 1 ->
  0 < PowerLaw.maxSupply (PowerLaw.config this) ->
  PowerLaw.calculateIntegral this s1 0 - PowerLaw.calculateIntegral this s0 0
  = PowerLaw.initialPrice (PowerLaw.config this)
    * (s1 * ln ((s1 + PowerLaw.maxSupply (PowerLaw.config this))
                / PowerLaw.maxSupply (PowerLaw.config this))
       - s0 * ln ((s0 + PowerLaw.maxSupply (PowerLaw.config this))
                  / PowerLaw.maxSupply (PowerLaw.config this))).
Proof.
  intros Hk HM.
  rewrite !calculateIntegral_log_branch by assumption.
  replace (s1 / PowerLaw.maxSupply (PowerLaw.config this) + 1)
    with ((s1 + PowerLaw.maxSupply (PowerLaw.config this))
          / PowerLaw.maxSupply (PowerLaw.config this)) by (field; lra).
  replace (s0 / PowerLaw.maxSupply (PowerLaw.config this) + 1)
    with ((s0 + PowerLaw.maxSupply (PowerLaw.config this))
          / PowerLaw.maxSupply (PowerLaw.config this)) by (field; lra).
  ring.
Qed.

Lemma log_branch_cost_witness :
  let c := Samples.scenarioB in
  PowerLaw.calculateIntegral c 50 0 - PowerLaw.calculateIntegral c 10 0
  = 1 * (50 * ln ((50 + 100) / 100) - 10 * ln ((10 + 100) / 100)).
Proof.
  cbv zeta.
  apply (log_branch_cost
           Samples.scenarioB
           10 50); cbn; lra.
Defined.

Section Bisection.
Import PowerLaw.
Variable this : BondingCurve.
Variables currentSupply targetIntegral : R.

Lemma tolerance_pos : 0 < tolerance.
Proof. unfold tolerance. lra. Qed.

(** Leaving the loop through [return mid] means the tolerance was met. *)
Lemma bisect_converged (n : nat) :
  forall low high mid,
    bisect this currentSupply targetIntegral n low high = Converged mid ->
    Rabs (calculateIntegral this mid 0 - calculateIntegral this currentSupply 0
          - targetIntegral) < tolerance.
Proof.
  induction n as [|n IH]; intros low high mid; simpl.
  - discriminate.
  - destruct (ltb _ tolerance) eqn:Htol.
    + intros [= <-]. now apply ltb_true in Htol.
    + destruct (ltb _ targetIntegral); apply IH.
Qed.

(** The loop never leaves its starting bracket. *)
Lemma bisect_bracket (n : nat) :
  forall low high,
    low <= high ->
    match bisect this currentSupply targetIntegral n low high with
    | Converged mid => low <= mid <= high
    | CapReached l h => low <= l /\ l <= h /\ h <= high
    end.
Proof.
  induction n as [|n IH]; intros low high Hle; simpl.
  - lra.
  - destruct (ltb _ tolerance); [lra|].
    destruct (ltb _ targetIntegral).
    + specialize (IH ((low + high) / 2) high ltac:(lra)).
      destruct (bisect _ _ _ n _ _); lra.
    + specialize (IH low ((low + high) / 2) ltac:(lra)).
      destruct (bisect _ _ _ n _ _); lra.
Qed.

(** Started with [low] at or above [high], the loop stays between them. *)
Lemma bisect_bracket_reversed (n : nat) :
  forall low high,
    high <= low ->
    match bisect this currentSupply targetIntegral n low high with
    | Converged mid => high <= mid <= low
    | CapReached l h => high <= h /\ h <= l /\ l <= low
    end.
Proof.
  induction n as [|n IH]; intros low high Hle; cbn [bisect].
  - lra.
  - destruct (ltb _ tolerance); [lra|].
    destruct (ltb _ targetIntegral).
    + specialize (IH ((low + high) / 2) high ltac:(lra)).
      destruct (bisect _ _ _ n _ _); lra.
    + specialize (IH low ((low + high) / 2) ltac:(lra)).
      destruct (bisect _ _ _ n _ _); lra.
Qed.

(** Over the reals the midpoint of a bracket with [low < high] is strictly
    inside it, so the ends of the starting bracket are never returned. *)
Lemma bisect_interior (n : nat) :
  forall low high,
    low < high ->
    match bisect this currentSupply targetIntegral n low high with
    | Converged mid => low < mid < high
    | CapReached l h => low <= l /\ l < h /\ h <= high
    end.
Proof.
  induction n as [|n IH]; intros low high Hlt; simpl.
  - lra.
  - destruct (ltb _ tolerance); [lra|].
    destruct (ltb _ targetIntegral).
    + specialize (IH ((low + high) / 2) high ltac:(lra)).
      destruct (bisect _ _ _ n _ _); lra.
    + specialize (IH low ((low + high) / 2) ltac:(lra)).
      destruct (bisect _ _ _ n _ _); lra.
Qed.

(** One more iteration is the last one: the loop cut after [S n]
    iterations is the loop cut after [n], followed by one iteration on the
    bracket it left. *)
Lemma bisect_snoc (n : nat) :
  forall low high,
    bisect this currentSupply targetIntegral (S n) low high
    = match bisect this currentSupply targetIntegral n low high with
      | Converged mid => Converged mid
      | CapReached l h => bisect this currentSupply targetIntegral 1 l h
      end.
Proof.
  induction n as [|n IH]; intros low high.
  - reflexivity.
  - change (bisect this currentSupply targetIntegral (S (S n)) low high)
      with (let mid := (low + high) / 2 in
            let integral :=
              calculateIntegral this mid 0
              - calculateIntegral this currentSupply 0 in
            if ltb (Math_abs (integral - targetIntegral)) tolerance then
              Converged mid
            else if ltb integral targetIntegral then
              bisect this currentSupply targetIntegral (S n) mid high
            else
              bisect this currentSupply targetIntegral (S n) low mid).
    change (bisect this currentSupply targetIntegral (S n) low high)
      with (let mid := (low + high) / 2 in
            let integral :=
              calculateIntegral this mid 0
              - calculateIntegral this currentSupply 0 in
            if ltb (Math_abs (integral - targetIntegral)) tolerance then
              Converged mid
            else if ltb integral targetIntegral then
              bisect this currentSupply targetIntegral n mid high
            else
              bisect this currentSupply targetIntegral n low mid).
    cbv zeta.
    destruct (ltb _ tolerance); [reflexivity|].
    destruct (ltb _ targetIntegral); apply IH.
Qed.

(** A single iteration returns the midpoint exactly when its cost is within
    the tolerance of the target. *)
Lemma bisect_one_converged (low high mid : R) :
  bisect this currentSupply targetIntegral 1 low high = Converged mid ->
  mid = (low + high) / 2
  /\ Rabs (calculateIntegral this ((low + high) / 2) 0
           - calculateIntegral this currentSupply 0 - targetIntegral)
     < tolerance.
Proof.
  cbn [bisect]. destruct (ltb _ tolerance) eqn:Htol.
  - intros [= <-]. split; [reflexivity|]. now apply ltb_true in Htol.
  - destruct (ltb _ targetIntegral); discriminate.
Qed.

Lemma bisect_one_continued (low high l h : R) :
  bisect this currentSupply targetIntegral 1 low high = CapReached l h ->
  ~ Rabs (calculateIntegral this ((low + high) / 2) 0
          - calculateIntegral this currentSupply 0 - targetIntegral)
    < tolerance.
Proof.
  cbn [bisect]. destruct (ltb _ tolerance) eqn:Htol; [discriminate|].
  intros _. apply ltb_false in Htol. unfold Math_abs in Htol. lra.
Qed.

(** If the loop has not returned within [n] iterations, then at each of
    them it held a bracket whose midpoint missed the tolerance. *)
Lemma bisect_not_yet (n : nat) :
  forall l h,
    bisect this currentSupply targetIntegral n
           currentSupply (maxSupply (config this)) = CapReached l h ->
    forall m, (m < n)%nat ->
      exists l' h',
        bisect this currentSupply targetIntegral m
               currentSupply (maxSupply (config this)) = CapReached l' h'
        /\ ~ Rabs (calculateIntegral this ((l' + h') / 2) 0
                   - calculateIntegral this currentSupply 0 - targetIntegral)
             < tolerance.
Proof.
  induction n as [|n IH]; intros l h Hb m Hm; [inversion Hm|].
  rewrite bisect_snoc in Hb.
  destruct (bisect this currentSupply targetIntegral n currentSupply
                   (maxSupply (config this))) as [mid|l0 h0] eqn:Hn;
    [discriminate|].
  apply PeanoNat.lt_n_Sm_le in Hm.
  apply PeanoNat.Nat.le_lteq in Hm. destruct Hm as [Hm|Hm].
  - exact (IH l0 h0 eq_refl m Hm).
  - subst m. exists l0, h0. split; [assumption|].
    exact (bisect_one_continued _ _ _ _ Hb).
Qed.

(** If the loop returns from inside, it is at the first iteration whose
    midpoint is within the tolerance. *)
Lemma bisect_first_hit (n : nat) :
  forall v,
    bisect this currentSupply targetIntegral n
           currentSupply (maxSupply (config this)) = Converged v ->
    exists m l h,
      (m < n)%nat
      /\ bisect this currentSupply targetIntegral m
                currentSupply (maxSupply (config this)) = CapReached l h
      /\ v = (l + h) / 2
      /\ Rabs (calculateIntegral this ((l + h) / 2) 0
               - calculateIntegral this currentSupply 0 - targetIntegral)
         < tolerance.
Proof.
  induction n as [|n IH]; intros v Hb; [discriminate|].
  rewrite bisect_snoc in Hb.
  destruct (bisect this currentSupply targetIntegral n currentSupply
                   (maxSupply (config this))) as [mid|l0 h0] eqn:Hn.
  - destruct (IH v Hb) as (m & l & h & Hm & Hbm & Hv & Htol).
    exists m, l, h. split; [now apply PeanoNat.Nat.lt_lt_succ_r|].
    now repeat split.
  - exists n, l0, h0. split; [apply PeanoNat.Nat.lt_succ_diag_r|].
    split; [exact Hn|]. exact (bisect_one_converged _ _ _ Hb).
Qed.

(** When the target lies above every cost the bracket can reach, no
    iteration meets the tolerance and [low] moves to [mid] every time:
    [high] stays where it was. *)
Lemma bisect_target_out_of_reach (n : nat) :
  forall low high,
    low <= high ->
    (forall x, low <= x <= high ->
       calculateIntegral this x 0 - calculateIntegral this currentSupply 0
       <= targetIntegral - tolerance) ->
    exists l,
      bisect this currentSupply targetIntegral n low high = CapReached l high
      /\ low <= l <= high.
Proof.
  assert (Ht := tolerance_pos).
  induction n as [|n IH]; intros low high Hle Hout; simpl.
  - exists low. split; [reflexivity|lra].
  - assert (Hmid := Hout ((low + high) / 2) ltac:(lra)).
    destruct (ltb _ tolerance) eqn:Htol.
    { apply ltb_true in Htol. unfold Math_abs in Htol.
      apply Rabs_def2 in Htol. lra. }
    destruct (ltb _ targetIntegral) eqn:Hlt.
    + destruct (IH ((low + high) / 2) high ltac:(lra)
                  ltac:(intros x Hx; apply Hout; lra)) as (l & Hb & Hl).
      exists l. split; [assumption|lra].
    + apply ltb_false in Hlt. lra.
Qed.

(** In that case the bracket left lies in the upper half of the first. *)
Lemma bisect_target_out_of_reach_upper (n : nat) (low high : R) :
  low <= high ->
  (forall x, low <= x <= high ->
     calculateIntegral this x 0 - calculateIntegral this currentSupply 0
     <= targetIntegral - tolerance) ->
  exists l,
    bisect this currentSupply targetIntegral (S n) low high = CapReached l high
    /\ (low + high) / 2 <= l <= high.
Proof.
  intros Hle Hout. assert (Ht := tolerance_pos). cbn [bisect].
  assert (Hmid := Hout ((low + high) / 2) ltac:(lra)).
  destruct (ltb _ tolerance) eqn:Htol.
  { apply ltb_true in Htol. unfold Math_abs in Htol.
    apply Rabs_def2 in Htol. lra. }
  destruct (ltb _ targetIntegral) eqn:Hlt.
  - apply bisect_target_out_of_reach; [lra|].
    intros x Hx. apply Hout. lra.
  - apply ltb_false in Hlt. lra.
Qed.

Lemma solveForSupply_shape :
  (exists mid,
      bisect this currentSupply targetIntegral 100
             currentSupply (maxSupply (config this)) = Converged mid
      /\ solveForSupply this currentSupply targetIntegral = Ok mid
      /\ Rabs (calculateIntegral this mid 0
               - calculateIntegral this currentSupply 0 - targetIntegral)
         < tolerance)
  \/ (exists low high,
      bisect this currentSupply targetIntegral 100
             currentSupply (maxSupply (config this)) = CapReached low high
      /\ solveForSupply this currentSupply targetIntegral
         = Ok ((low + high) / 2)).
Proof.
  unfold solveForSupply.
  destruct (bisect this currentSupply targetIntegral 100 currentSupply
                   (maxSupply (config this))) as [mid|low high] eqn:Hb.
  - left. exists mid. repeat split.
    exact (bisect_converged _ _ _ _ Hb).
  - right. exists low, high. now split.
Qed.

Lemma solveForSupply_returns :
  returns (solveForSupply this currentSupply targetIntegral).
Proof.
  destruct solveForSupply_shape as [(mid & _ & H & _)|(l & h & _ & H)];
    rewrite H; eexists; reflexivity.
Qed.

(** The supply found lies in the starting bracket. *)
Lemma solveForSupply_within (v : R) :
  currentSupply <= maxSupply (config this) ->
  solveForSupply this currentSupply targetIntegral = Ok v ->
  currentSupply <= v <= maxSupply (config this).
Proof.
  intros Hle. unfold solveForSupply.
  assert (Hb := bisect_bracket 100 _ _ Hle).
  destruct (bisect this currentSupply targetIntegral 100 currentSupply
                   (maxSupply (config this))); intros [= <-]; lra.
Qed.

Lemma solveForSupply_at_or_above_max (v : R) :
  maxSupply (config this) <= currentSupply ->
  solveForSupply this currentSupply targetIntegral = Ok v ->
  maxSupply (config this) <= v <= currentSupply.
Proof.
  intros Hle. unfold solveForSupply.
  assert (Hb := bisect_bracket_reversed 100 _ _ Hle).
  destruct (bisect this currentSupply targetIntegral 100 currentSupply
                   (maxSupply (config this))); intros [= <-]; lra.
Qed.

(** Over the reals, and below [maxSupply], it differs from both ends. *)
Lemma solveForSupply_inside (v : R) :
  currentSupply < maxSupply (config this) ->
  solveForSupply this currentSupply targetIntegral = Ok v ->
  currentSupply < v < maxSupply (config this).
Proof.
  intros Hlt. unfold solveForSupply.
  assert (Hb := bisect_interior 100 _ _ Hlt).
  destruct (bisect this currentSupply targetIntegral 100 currentSupply
                   (maxSupply (config this))); intros [= <-]; lra.
Qed.

End Bisection.

Section PowerBranch.
Import PowerLaw.
Variable this : BondingCurve.
Hypothesis initialPrice_pos : 0 < initialPrice (config this).
Hypothesis k_pos : 0 < k (config this).
Hypothesis k_not_1 : k (config this) <> 1.
Hypothesis maxSupply_pos : 0 < maxSupply (config this).

Lemma ratio_nonneg (s : R) : 0 <= s -> 0 <= s / maxSupply (config this).
Proof.
  intros Hs. apply Rmult_le_pos; [assumption|].
  left. now apply Rinv_0_lt_compat.
Qed.

Lemma ratio_mono (s s' : R) :
  s <= s' -> s / maxSupply (config this) <= s' / maxSupply (config this).
Proof.
  intros Hle. apply Rmult_le_compat_r; [|assumption].
  left. now apply Rinv_0_lt_compat.
Qed.

Lemma ratio_strict_mono (s s' : R) :
  s < s' -> s / maxSupply (config this) < s' / maxSupply (config this).
Proof.
  intros Hlt. apply Rmult_lt_compat_r; [|assumption].
  now apply Rinv_0_lt_compat.
Qed.

Lemma integral_scale_pos :
  0 < initialPrice (config this) * maxSupply (config this) / (k (config this) + 1).
Proof.
  apply Rdiv_lt_0_compat; [|lra].
  now apply Rmult_lt_0_compat.
Qed.

Lemma calculateIntegral_at_zero (x : R) : calculateIntegral this 0 x = 0.
Proof.
  rewrite calculateIntegral_power_branch by assumption.
  replace (0 / maxSupply (config this)) with 0 by (unfold Rdiv; ring).
  rewrite Math_pow_zero by lra. ring.
Qed.

Lemma calculateIntegral_nonneg (s x : R) :
  0 <= s -> 0 <= calculateIntegral this s x.
Proof.
  intros Hs. rewrite calculateIntegral_power_branch by assumption.
  apply Rmult_le_pos; [left; apply integral_scale_pos|].
  apply Math_pow_nonneg. now apply ratio_nonneg.
Qed.

Lemma calculateIntegral_mono (s s' x y : R) :
  0 <= s <= s' -> calculateIntegral this s x <= calculateIntegral this s' y.
Proof.
  intros [H0 Hle].
  rewrite !calculateIntegral_power_branch by assumption.
  apply Rmult_le_compat_l; [left; apply integral_scale_pos|].
  apply Math_pow_mono; [|lra].
  split; [now apply ratio_nonneg|now apply ratio_mono].
Qed.

Lemma calculateIntegral_strict_mono (s s' x y : R) :
  0 <= s < s' -> calculateIntegral this s x < calculateIntegral this s' y.
Proof.
  intros [H0 Hlt].
  rewrite !calculateIntegral_power_branch by assumption.
  apply Rmult_lt_compat_l; [apply integral_scale_pos|].
  apply Math_pow_strict_mono; [|lra].
  split; [now apply ratio_nonneg|now apply ratio_strict_mono].
Qed.

(** The whole curve, from 0 to [maxSupply], costs
    [initialPrice * maxSupply / (k + 1)]. *)
Lemma calculateIntegral_at_maxSupply (x : R) :
  calculateIntegral this (maxSupply (config this)) x
  = initialPrice (config this) * maxSupply (config this) / (k (config this) + 1).
Proof.
  rewrite calculateIntegral_power_branch by assumption.
  replace (maxSupply (config this) / maxSupply (config this)) with 1
    by (field; lra).
  rewrite Math_pow_one. ring.
Qed.

Lemma calculateIntegral_le_total (s x : R) :
  0 <= s <= maxSupply (config this) ->
  calculateIntegral this s x
  <= initialPrice (config this) * maxSupply (config this) / (k (config this) + 1).
Proof.
  intros Hs. rewrite <- (calculateIntegral_at_maxSupply x).
  now apply calculateIntegral_mono.
Qed.

End PowerBranch.

(** ** C3 *)

(** C3, as stated, fails: on the default curve the whole curve costs about
    33333.3, so a target of 40000 from supply 0 is never met within the
    tolerance.  The loop runs its 100 iterations, moving [low] up every
    time, and [solveForSupply] then returns the midpoint of the bracket it
    is left with, a supply in the upper quarter of the curve, instead of
    failing. *)
Lemma bisection_cap_returns_supply :
  let c := PowerLaw.createBondingCurve in
  exists low,
    PowerLaw.bisect c 0 40000 100 0 (PowerLaw.maxSupply (PowerLaw.config c))
    = PowerLaw.CapReached low 1000000000
    /\ 500000000 <= low <= 1000000000
    /\ PowerLaw.solveForSupply c 0 40000 = Ok ((low + 1000000000) / 2)
    /\ 750000000 <= (low + 1000000000) / 2 <= 1000000000.
Proof.
  cbv zeta.
  destruct (bisect_target_out_of_reach_upper PowerLaw.createBondingCurve
              0 40000 99 0
              (PowerLaw.maxSupply (PowerLaw.config PowerLaw.createBondingCurve)))
    as (low & Hb & Hlow).
  - cbn. lra.
  - intros x Hx.
    assert (Hle := calculateIntegral_le_total PowerLaw.createBondingCurve
                     ltac:(cbn; lra) ltac:(cbn; lra) ltac:(cbn; lra)
                     ltac:(cbn; lra) x 0 Hx).
    assert (H0 := calculateIntegral_nonneg PowerLaw.createBondingCurve
                     ltac:(cbn; lra) ltac:(cbn; lra) ltac:(cbn; lra)
                     ltac:(cbn; lra) 0 0 ltac:(lra)).
    cbn in Hle. unfold PowerLaw.tolerance. lra.
  - change (PowerLaw.maxSupply (PowerLaw.config PowerLaw.createBondingCurve))
      with 1000000000 in *.
    exists low. split; [exact Hb|]. split; [lra|].
    split; [|lra].
    unfold PowerLaw.solveForSupply.
    change (PowerLaw.maxSupply (PowerLaw.config PowerLaw.createBondingCurve))
      with 1000000000.
    rewrite Hb. reflexivity.
Qed.

(** C3 (amended): the inverse computation never fails.  It returns the
    first midpoint whose cost is within the tolerance [1e-10] of the
    target, when one of the 100 iterations has such a midpoint: the
    iterations before it each held a bracket whose midpoint missed the
    tolerance.  Otherwise, when all 100 midpoints miss the tolerance, it
    returns the midpoint of the bracket left by the last iteration.  In
    both cases the supply returned lies between [currentSupply] and
    [maxSupply]. *)
Theorem bisection_always_returns
  (this : PowerLaw.BondingCurve) (currentSupply targetIntegral : R) :
  let bracket n :=
    PowerLaw.bisect this currentSupply targetIntegral n currentSupply
      (PowerLaw.maxSupply (PowerLaw.config this)) in
  let met mid :=
    Rabs (PowerLaw.calculateIntegral this mid 0
          - PowerLaw.calculateIntegral this currentSupply 0
          - targetIntegral) < PowerLaw.tolerance in
  exists v,
    PowerLaw.solveForSupply this currentSupply targetIntegral = Ok v
    /\ ((exists n low high,
           (n < 100)%nat
           /\ bracket n = PowerLaw.CapReached low high
           /\ met ((low + high) / 2)
           /\ v = (low + high) / 2
           /\ forall m, (m < n)%nat ->
                exists l h,
                  bracket m = PowerLaw.CapReached l h /\ ~ met ((l + h) / 2))
        \/ (exists low high,
              bracket 100%nat = PowerLaw.CapReached low high
              /\ v = (low + high) / 2
              /\ forall m, (m < 100)%nat ->
                   exists l h,
                     bracket m = PowerLaw.CapReached l h
                     /\ ~ met ((l + h) / 2)))
    /\ Rmin currentSupply (PowerLaw.maxSupply (PowerLaw.config this)) <= v
       <= Rmax currentSupply (PowerLaw.maxSupply (PowerLaw.config this)).
Proof.
  intros bracket met.
  assert (Hin : forall v,
             PowerLaw.solveForSupply this currentSupply targetIntegral = Ok v ->
             Rmin currentSupply (PowerLaw.maxSupply (PowerLaw.config this)) <= v
             <= Rmax currentSupply (PowerLaw.maxSupply (PowerLaw.config this))).
  { intros v Hv.
    destruct (Rle_dec currentSupply (PowerLaw.maxSupply (PowerLaw.config this)))
      as [Hle|Hgt].
    - rewrite Rmin_left, Rmax_right by assumption.
      exact (solveForSupply_within this currentSupply targetIntegral v Hle Hv).
    - rewrite Rmin_right, Rmax_left by lra.
      apply (solveForSupply_at_or_above_max this currentSupply targetIntegral);
        [lra|assumption]. }
  destruct (solveForSupply_shape this currentSupply targetIntegral)
    as [(mid & Hb & Hs & Ht)|(low & high & Hb & Hs)].
  - exists mid. split; [assumption|]. split; [|now apply Hin].
    left.
    destruct (bisect_first_hit this currentSupply targetIntegral 100 mid Hb)
      as (n & l & h & Hn & Hbn & Hv & Hmet).
    exists n, l, h. split; [assumption|]. split; [assumption|].
    split; [assumption|]. split; [assumption|].
    exact (bisect_not_yet this currentSupply targetIntegral n l h Hbn).
  - exists ((low + high) / 2). split; [assumption|]. split; [|now apply Hin].
    right. exists low, high. split; [assumption|]. split; [reflexivity|].
    exact (bisect_not_yet this currentSupply targetIntegral 100 low high Hb).
Qed.

(** ** Quotes of the power-law curve *)

Section PowerLawQuotes.
Import PowerLaw.
Variable this : BondingCurve.

Lemma calculateSellAmount_throws (tokenAmount currentSupply : R) :
  currentSupply <= tokenAmount ->
  calculateSellAmount this tokenAmount currentSupply
  = Throw "Cannot sell more tokens than current supply".
Proof. intros H. unfold calculateSellAmount. cmp. reflexivity. Qed.

Lemma calculateSellAmount_returns (tokenAmount currentSupply : R) :
  tokenAmount < currentSupply ->
  returns (calculateSellAmount this tokenAmount currentSupply).
Proof.
  intros H. unfold calculateSellAmount. cmp. eexists; reflexivity.
Qed.

(** The quote of a buy, in terms of the supply found by the bisection. *)
Lemma calculateBuyAmount_unfold (solAmount currentSupply : R) :
  exists newSupply,
    solveForSupply this currentSupply (calculateIntegral this currentSupply 0)
    = Ok newSupply
    /\ calculateBuyAmount this solAmount currentSupply
       = Ok {| inputAmount := solAmount;
               outputAmount := newSupply - currentSupply;
               priceAfter := calculatePrice this newSupply;
               priceImpact :=
                 ((calculatePrice this newSupply
                   - calculatePrice this currentSupply)
                  / calculatePrice this currentSupply) * 100;
               slippage :=
                 (((solAmount - solAmount * feeRate this)
                   / (newSupply - currentSupply)
                   - calculatePrice this currentSupply)
                  / calculatePrice this currentSupply) * 100;
               fee := solAmount * feeRate this;
               netAmount := newSupply - currentSupply |}.
Proof.
  destruct (solveForSupply_returns this currentSupply
              (calculateIntegral this currentSupply 0)) as [v Hv].
  exists v. split; [assumption|].
  unfold calculateBuyAmount.
  rewrite (calculateIntegral_ignores_solAmount this currentSupply _ 0), Hv.
  reflexivity.
Qed.

(** The amount of tokens quoted for a buy does not depend on the amount of
    SOL offered. *)
Lemma calculateBuyAmount_output_fixed (a a' currentSupply : R) :
  exists q q',
    calculateBuyAmount this a currentSupply = Ok q
    /\ calculateBuyAmount this a' currentSupply = Ok q'
    /\ outputAmount q = outputAmount q'.
Proof.
  destruct (calculateBuyAmount_unfold a currentSupply) as (v & Hv & Hq).
  destruct (calculateBuyAmount_unfold a' currentSupply) as (v' & Hv' & Hq').
  rewrite Hv in Hv'. injection Hv' as <-.
  eexists; eexists. split; [exact Hq|]. split; [exact Hq'|]. reflexivity.
Qed.

End PowerLawQuotes.

(** ** C7 and C9 *)

(** C7: selling more than the current supply throws (and, [calculateSellAmount]
    being a function of its arguments, touches no state).  The guard is
    [tokenAmount >= currentSupply], so selling exactly the current supply
    throws as well, although the message speaks of selling more than the
    supply and [validateTrade] accepts that sale whenever the amount is
    positive. *)
Theorem sell_of_entire_supply_throws (this : PowerLaw.BondingCurve) (s : R) :
  PowerLaw.calculateSellAmount this s s
  = Throw "Cannot sell more tokens than current supply"
  /\ PowerLaw.validateTrade this s false s = Ok (gtb s 0)
  /\ (forall amount, amount > s ->
        PowerLaw.calculateSellAmount this amount s
        = Throw "Cannot sell more tokens than current supply").
Proof.
  split; [|split].
  - apply calculateSellAmount_throws. lra.
  - unfold PowerLaw.validateTrade. cmp; reflexivity.
  - intros amount Ha. apply calculateSellAmount_throws. lra.
Qed.

Lemma sell_of_entire_supply_throws_witness :
  PowerLaw.calculateSellAmount PowerLaw.createBondingCurve 1000 1000
  = Throw "Cannot sell more tokens than current supply"
  /\ PowerLaw.validateTrade PowerLaw.createBondingCurve 1000 false 1000 = Ok true
  /\ PowerLaw.calculateSellAmount PowerLaw.createBondingCurve 1001 1000
     = Throw "Cannot sell more tokens than current supply".
Proof.
  destruct (sell_of_entire_supply_throws PowerLaw.createBondingCurve 1000)
    as (H1 & H2 & H3).
  split; [exact H1|]. split.
  - rewrite H2. unfold gtb, ltb. destruct (Rlt_dec 0 1000); [reflexivity|lra].
  - apply H3. lra.
Defined.

(** C9, as stated, fails: on the default curve a buy of [-1] SOL at supply
    1000 returns a quote, whose fee is [-1 * 0.01]. *)
Lemma negative_buy_is_quoted :
  -1 <= 0 /\
  exists q,
    PowerLaw.calculateBuyAmount PowerLaw.createBondingCurve (-1) 1000 = Ok q
    /\ PowerLaw.inputAmount q = -1
    /\ PowerLaw.fee q = -1 * 0.01.
Proof.
  split; [lra|].
  destruct (calculateBuyAmount_unfold PowerLaw.createBondingCurve (-1) 1000)
    as (v & _ & Hq).
  eexists. split; [exact Hq|]. split; reflexivity.
Qed.

(** C9 (amended): [calculateBuyAmount] has no check on its amount and
    returns a quote for every input, with [fee = solAmount * feeRate], the
    net amount [solAmount - fee] being the numerator of the average price in
    the slippage; the rejection of a non-positive amount is what
    [validateTrade] answers, by [false]. *)
Theorem buy_quote_for_every_amount
  (this : PowerLaw.BondingCurve) (solAmount currentSupply : R) (isBuy : bool) :
  (exists q,
     PowerLaw.calculateBuyAmount this solAmount currentSupply = Ok q
     /\ PowerLaw.inputAmount q = solAmount
     /\ PowerLaw.fee q = solAmount * PowerLaw.feeRate this
     /\ PowerLaw.slippage q
        = (((solAmount - PowerLaw.fee q) / PowerLaw.outputAmount q
            - PowerLaw.calculatePrice this currentSupply)
           / PowerLaw.calculatePrice this currentSupply) * 100)
  /\ (solAmount <= 0 ->
      PowerLaw.validateTrade this solAmount isBuy currentSupply = Ok false).
Proof.
  split.
  - destruct (calculateBuyAmount_unfold this solAmount currentSupply)
      as (v & _ & Hq).
    eexists. split; [exact Hq|]. repeat split; reflexivity.
  - intros Hle. unfold PowerLaw.validateTrade. cmp. reflexivity.
Qed.

Lemma buy_quote_for_every_amount_witness :
  (exists q,
     PowerLaw.calculateBuyAmount PowerLaw.createBondingCurve 0 1000 = Ok q
     /\ PowerLaw.inputAmount q = 0
     /\ PowerLaw.fee q = 0 * PowerLaw.feeRate PowerLaw.createBondingCurve
     /\ PowerLaw.slippage q
        = (((0 - PowerLaw.fee q) / PowerLaw.outputAmount q
            - PowerLaw.calculatePrice PowerLaw.createBondingCurve 1000)
           / PowerLaw.calculatePrice PowerLaw.createBondingCurve 1000) * 100)
  /\ PowerLaw.validateTrade PowerLaw.createBondingCurve 0 true 1000 = Ok false.
Proof.
  destruct (buy_quote_for_every_amount PowerLaw.createBondingCurve 0 1000 true)
    as [Hq Hv].
  split; [exact Hq|]. apply Hv. lra.
Defined.

(** ** C8 *)

Section HookSlippage.
Import Hook.
Variable st : BondingCurveState.
Hypothesis sol_pos : 0 < virtualSolReserves st.
Hypothesis token_pos : 0 < virtualTokenReserves st.

(** What the hook reports as slippage is the size of the price impact. *)
Lemma buy_slippage (a : R) :
  0 <= a ->
  slippage (calculateBuy st a)
  = ((a - a * FEE_RATE) * (2 * virtualSolReserves st + (a - a * FEE_RATE))
     / (virtualSolReserves st * virtualSolReserves st)) * 100.
Proof.
  intros Ha.
  change (slippage (calculateBuy st a))
    with (Rabs (priceImpact (calculateBuy st a))).
  rewrite Rabs_pos_eq by now apply buy_priceImpact_nonneg.
  now apply buy_priceImpact.
Qed.

(** The slippage of the average execution price, for the same buy. *)
Lemma buy_execution_slippage (a : R) :
  0 < a ->
  (((a - fee (calculateBuy st a)) / outputAmount (calculateBuy st a)
    - getCurrentPrice st) / getCurrentPrice st) * 100
  = ((a - a * FEE_RATE) / virtualSolReserves st) * 100.
Proof.
  intros Ha. assert (Hn := buy_newSol_pos st sol_pos a ltac:(lra)).
  assert (Hnet : 0 < a - a * FEE_RATE) by (rewrite FEE_RATE_val; lra).
  rewrite buy_outputAmount, buy_fee by (assumption || lra).
  unfold getCurrentPrice. field. repeat split; lra.
Qed.

End HookSlippage.

(** C8, as stated, fails in the constant-product variant: for a buy of 1 SOL
    from the initial state the hook reports the size of the price impact,
    about 6.71, while the slippage of the average execution price is 3.3. *)
Lemma hook_slippage_is_price_impact :
  let q := Hook.calculateBuy Hook.initialState 1 in
  let netIn := 1 - Hook.fee q in
  Hook.slippage q
  <> ((netIn / Hook.outputAmount q - Hook.getCurrentPrice Hook.initialState)
      / Hook.getCurrentPrice Hook.initialState) * 100.
Proof.
  cbv zeta.
  assert (HS : 0 < Hook.virtualSolReserves Hook.initialState)
    by (cbn; unfold Hook.VIRTUAL_SOL_RESERVES; lra).
  assert (HT : 0 < Hook.virtualTokenReserves Hook.initialState)
    by (cbn; unfold Hook.VIRTUAL_TOKEN_RESERVES; lra).
  rewrite (buy_execution_slippage Hook.initialState HS HT 1) by lra.
  rewrite (buy_slippage Hook.initialState HS HT 1) by lra.
  cbn. unfold Hook.VIRTUAL_SOL_RESERVES, Hook.FEE_RATE. lra.
Qed.

(** C8 (amended): the power-law quote reports
    [((netIn / outputAmount) - priceBefore) / priceBefore * 100]; the
    constant-product quote reports the absolute value of its price impact,
    which for a buy is that quantity multiplied by
    [2 + netIn / virtualSolReserves]. *)
Theorem slippage_of_buy_quotes
  (this : PowerLaw.BondingCurve) (solAmount currentSupply : R)
  (st : Hook.BondingCurveState) (a : R) :
  0 < Hook.virtualSolReserves st -> 0 < Hook.virtualTokenReserves st ->
  0 < a ->
  (exists q,
     PowerLaw.calculateBuyAmount this solAmount currentSupply = Ok q
     /\ PowerLaw.slippage q
        = (((solAmount - solAmount * PowerLaw.feeRate this)
            / PowerLaw.outputAmount q
            - PowerLaw.calculatePrice this currentSupply)
           / PowerLaw.calculatePrice this currentSupply) * 100)
  /\ Hook.slippage (Hook.calculateBuy st a)
     = Math_abs (Hook.priceImpact (Hook.calculateBuy st a))
  /\ Hook.slippage (Hook.calculateBuy st a)
     = (2 + (a - a * Hook.FEE_RATE) / Hook.virtualSolReserves st)
       * ((((a - Hook.fee (Hook.calculateBuy st a))
            / Hook.outputAmount (Hook.calculateBuy st a)
            - Hook.getCurrentPrice st) / Hook.getCurrentPrice st) * 100).
Proof.
  intros HS HT Ha. split; [|split].
  - destruct (calculateBuyAmount_unfold this solAmount currentSupply)
      as (v & _ & Hq).
    eexists. split; [exact Hq|]. reflexivity.
  - reflexivity.
  - rewrite buy_execution_slippage, buy_slippage by (assumption || lra).
    field. lra.
Qed.

Lemma slippage_of_buy_quotes_witness :
  let st := Hook.initialState in
  (exists q,
     PowerLaw.calculateBuyAmount Samples.quadratic 1 90 = Ok q
     /\ PowerLaw.slippage q
        = (((1 - 1 * PowerLaw.feeRate Samples.quadratic)
            / PowerLaw.outputAmount q
            - PowerLaw.calculatePrice Samples.quadratic 90)
           / PowerLaw.calculatePrice Samples.quadratic 90) * 100)
  /\ Hook.slippage (Hook.calculateBuy st 1)
     = Math_abs (Hook.priceImpact (Hook.calculateBuy st 1))
  /\ Hook.slippage (Hook.calculateBuy st 1)
     = (2 + (1 - 1 * Hook.FEE_RATE) / Hook.virtualSolReserves st)
       * ((((1 - Hook.fee (Hook.calculateBuy st 1))
            / Hook.outputAmount (Hook.calculateBuy st 1)
            - Hook.getCurrentPrice st) / Hook.getCurrentPrice st) * 100).
Proof.
  apply (slippage_of_buy_quotes Samples.quadratic 1 90 Hook.initialState 1);
    cbn; unfold Hook.VIRTUAL_SOL_RESERVES, Hook.VIRTUAL_TOKEN_RESERVES; lra.
Defined.

(** ** Executing trades on the hook *)

Section HookExecute.
Import Hook.
Variable w : Wallet.
Variable rendered : BondingCurveState.
Variable h : HookState.

Lemma SLIPPAGE_LIMIT_val : SLIPPAGE_TOLERANCE * 100 = 5.
Proof. unfold SLIPPAGE_TOLERANCE. lra. Qed.

Lemma executeBuy_ok (a : R) :
  connected w = true ->
  slippage (calculateBuy rendered a) <= 5 ->
  executeBuy w rendered h a
  = ({| state := stateAfterBuy (state h) a (calculateBuy rendered a);
        loading := false; error := None |},
     Some "mock_transaction_signature"%string).
Proof.
  intros Hc Hs. unfold executeBuy. rewrite Hc, SLIPPAGE_LIMIT_val. cbn [negb].
  unfold gtb, ltb. destruct (Rlt_dec 5 _); [lra|reflexivity].
Qed.

Lemma executeSell_ok (b : R) :
  connected w = true ->
  slippage (calculateSell rendered b) <= 5 ->
  executeSell w rendered h b
  = ({| state := stateAfterSell (state h) b (calculateSell rendered b);
        loading := false; error := None |},
     Some "mock_transaction_signature"%string).
Proof.
  intros Hc Hs. unfold executeSell. rewrite Hc, SLIPPAGE_LIMIT_val. cbn [negb].
  unfold gtb, ltb. destruct (Rlt_dec 5 _); [lra|reflexivity].
Qed.

(** A call that resolves to a signature has applied the quote of its render
    to the state it found; any other call leaves the state as it was. *)
Lemma executeBuy_succeeded (a : R) :
  succeeded (executeBuy w rendered h a) ->
  state (fst (executeBuy w rendered h a))
  = stateAfterBuy (state h) a (calculateBuy rendered a).
Proof.
  unfold succeeded, executeBuy.
  destruct (negb (connected w)); [discriminate|].
  destruct (gtb _ _); [discriminate|reflexivity].
Qed.

Lemma executeSell_succeeded (b : R) :
  succeeded (executeSell w rendered h b) ->
  state (fst (executeSell w rendered h b))
  = stateAfterSell (state h) b (calculateSell rendered b).
Proof.
  unfold succeeded, executeSell.
  destruct (negb (connected w)); [discriminate|].
  destruct (gtb _ _); [discriminate|reflexivity].
Qed.

Lemma executeBuy_failed (a : R) :
  snd (executeBuy w rendered h a) = None ->
  state (fst (executeBuy w rendered h a)) = state h.
Proof.
  unfold executeBuy.
  destruct (negb (connected w)); [reflexivity|].
  destruct (gtb _ _); [reflexivity|discriminate].
Qed.

Lemma executeSell_failed (b : R) :
  snd (executeSell w rendered h b) = None ->
  state (fst (executeSell w rendered h b)) = state h.
Proof.
  unfold executeSell.
  destruct (negb (connected w)); [reflexivity|].
  destruct (gtb _ _); [reflexivity|discriminate].
Qed.

(** Whether a call executes is decided by the wallet and by the quote of
    its render, not by the state the update is applied to. *)
Lemma executeSell_succeeded_any (h' : HookState) (b : R) :
  succeeded (executeSell w rendered h b) ->
  succeeded (executeSell w rendered h' b).
Proof.
  unfold succeeded, executeSell.
  destruct (negb (connected w)); [discriminate|].
  destruct (gtb _ _); [discriminate|reflexivity].
Qed.



End HookExecute.

Section HookSell.
Import Hook.
Variable st : BondingCurveState.
Hypothesis sol_pos : 0 < virtualSolReserves st.
Hypothesis token_pos : 0 < virtualTokenReserves st.

Lemma sell_fee (b : R) :
  0 <= b ->
  fee (calculateSell st b)
  = FEE_RATE * (virtualSolReserves st * b / (virtualTokenReserves st + b)).
Proof. intros Hb. cbn. field. lra. Qed.

Lemma sell_fee_pos (b : R) : 0 < b -> 0 < fee (calculateSell st b).
Proof.
  intros Hb. rewrite sell_fee by lra. rewrite FEE_RATE_val.
  apply Rmult_lt_0_compat; [lra|].
  apply Rdiv_lt_0_compat; [nra|lra].
Qed.

Lemma sell_outputAmount (b : R) :
  0 <= b ->
  outputAmount (calculateSell st b)
  = (1 - FEE_RATE) * (virtualSolReserves st * b / (virtualTokenReserves st + b)).
Proof. intros Hb. cbn. field. lra. Qed.

Lemma sell_priceImpact (b : R) :
  0 <= b ->
  priceImpact (calculateSell st b)
  = (virtualTokenReserves st * virtualTokenReserves st
     / ((virtualTokenReserves st + b) * (virtualTokenReserves st + b)) - 1) * 100.
Proof. intros Hb. cbn. unfold getCurrentPrice. field. repeat split; lra. Qed.

(** After a sell the product of the virtual reserves has grown by the fee
    times the new token reserve: the SOL reserve is reduced by the amount
    paid out, and the fee stays in it. *)
Lemma stateAfterSell_product (b : R) :
  0 <= b ->
  virtualSolReserves (stateAfterSell st b (calculateSell st b))
  * virtualTokenReserves (stateAfterSell st b (calculateSell st b))
  = virtualSolReserves st * virtualTokenReserves st
    + fee (calculateSell st b) * (virtualTokenReserves st + b).
Proof. intros Hb. cbn. field. lra. Qed.

Lemma stateAfterBuy_product (a : R) :
  0 <= a ->
  virtualSolReserves (stateAfterBuy st a (calculateBuy st a))
  * virtualTokenReserves (stateAfterBuy st a (calculateBuy st a))
  = virtualSolReserves st * virtualTokenReserves st.
Proof.
  intros Ha. assert (Hn := buy_newSol_pos st sol_pos a Ha).
  cbn. field. lra.
Qed.

End HookSell.

(** ** C4 *)

Lemma initialState_sol : Hook.virtualSolReserves Hook.initialState = 30.
Proof. reflexivity. Qed.

Lemma initialState_token : Hook.virtualTokenReserves Hook.initialState = 1073000000.
Proof. reflexivity. Qed.

(** A sell of 1000000 tokens, made through the callback of the first render
    while the hook is in its initial state, moves the price by less than
    0.2 per cent and passes the slippage check. *)
Lemma initial_sell_executes :
  Hook.executeSell Samples.wallet Hook.initialState Hook.initialHook 1000000
  = ({| Hook.state :=
          Hook.stateAfterSell Hook.initialState 1000000
            (Hook.calculateSell Hook.initialState 1000000);
        Hook.loading := false; Hook.error := None |},
     Some "mock_transaction_signature"%string).
Proof.
  apply (executeSell_ok Samples.wallet Hook.initialState Hook.initialHook);
    [reflexivity|].
  change (Hook.slippage (Hook.calculateSell Hook.initialState 1000000))
    with (Rabs (Hook.priceImpact (Hook.calculateSell Hook.initialState 1000000))).
  rewrite sell_priceImpact by (rewrite ?initialState_sol, ?initialState_token; lra).
  rewrite initialState_token.
  apply Rabs_le. lra.
Qed.

(** The product of the virtual reserves after a trade made through the
    callback of the render that shows the state the trade is applied to: a
    buy leaves it unchanged, a sell adds the fee times the new token
    reserve. *)
Lemma product_after_executed_trades
  (w : Hook.Wallet) (h : Hook.HookState) (a b : R) :
  0 < Hook.virtualSolReserves (Hook.state h) ->
  0 < Hook.virtualTokenReserves (Hook.state h) ->
  a > 0 -> b > 0 ->
  Hook.succeeded (Hook.executeBuy w (Hook.state h) h a) ->
  Hook.succeeded (Hook.executeSell w (Hook.state h) h b) ->
  let k := Hook.virtualSolReserves (Hook.state h)
           * Hook.virtualTokenReserves (Hook.state h) in
  let afterBuy := Hook.state (fst (Hook.executeBuy w (Hook.state h) h a)) in
  let afterSell := Hook.state (fst (Hook.executeSell w (Hook.state h) h b)) in
  (Hook.virtualSolReserves afterBuy * Hook.virtualTokenReserves afterBuy = k
   /\ Hook.virtualTokenReserves afterBuy = k / Hook.virtualSolReserves afterBuy)
  /\ (Hook.virtualSolReserves afterSell * Hook.virtualTokenReserves afterSell
      = k + Hook.fee (Hook.calculateSell (Hook.state h) b)
            * (Hook.virtualTokenReserves (Hook.state h) + b)
      /\ Hook.virtualSolReserves afterSell * Hook.virtualTokenReserves afterSell
         > k).
Proof.
  intros HS HT Ha Hb Hbuy Hsell. cbv zeta.
  rewrite (executeBuy_succeeded w (Hook.state h) h a Hbuy),
    (executeSell_succeeded w (Hook.state h) h b Hsell).
  split; split.
  - apply stateAfterBuy_product; lra.
  - rewrite stateAfterBuy_token, stateAfterBuy_sol by lra. reflexivity.
  - apply stateAfterSell_product; lra.
  - rewrite stateAfterSell_product by lra.
    assert (Hf := sell_fee_pos (Hook.state h) HS HT b Hb). nra.
Qed.

(** ** Runs of buys *)

Section SmallBuys.
Import Hook.

(** From a SOL reserve of at least 30, a buy of 0.7 SOL moves the price by
    less than 5 per cent. *)
Lemma small_buy_passes (st : BondingCurveState) :
  30 <= virtualSolReserves st -> 0 < virtualTokenReserves st ->
  slippage (calculateBuy st 0.7) <= 5.
Proof.
  intros HS HT.
  rewrite buy_slippage by lra. rewrite FEE_RATE_val.
  set (v := virtualSolReserves st) in *.
  assert (Hd : (0.7 - 0.7 * (1 / 100)) * (2 * v + (0.7 - 0.7 * (1 / 100)))
               / (v * v) <= 5 / 100).
  { apply Rmult_le_reg_r with (v * v); [nra|].
    unfold Rdiv at 1. rewrite Rmult_assoc, Rinv_l by nra. nra. }
  lra.
Qed.

Lemma small_buy_executes (h : HookState) :
  30 <= virtualSolReserves (state h) -> 0 < virtualTokenReserves (state h) ->
  executeBuy Samples.wallet (state h) h 0.7
  = ({| state := stateAfterBuy (state h) 0.7 (calculateBuy (state h) 0.7);
        loading := false; error := None |},
     Some "mock_transaction_signature"%string).
Proof.
  intros HS HT. apply executeBuy_ok; [reflexivity|].
  now apply small_buy_passes.
Qed.


Lemma run_cons (w : Wallet) (h : HookState) (c : Call) (cs : list Call) :
  run w h (c :: cs) = run w (step w h c) cs.
Proof. reflexivity. Qed.


End SmallBuys.

(** C4: the sell path breaks the constant product.  On a freshly mounted
    hook with a connected wallet, [executeSell(1000000)] executes and leaves
    a product of the virtual reserves larger than [k] by the fee times the
    new token reserve, because it takes off the SOL reserve the amount paid
    out, net of the fee, instead of moving it to the quote's
    [newSolReserves = k / newTokenReserves], whose product with the new
    token reserve is [k]; [executeBuy(0.7)] from the same state keeps the
    product at [k]. *)
Theorem executed_sell_breaks_constant_product :
  let st := Hook.initialState in
  let k := Hook.virtualSolReserves st * Hook.virtualTokenReserves st in
  let q := Hook.calculateSell st 1000000 in
  let sold := Hook.executeSell Samples.wallet st Hook.initialHook 1000000 in
  let bought := Hook.executeBuy Samples.wallet st Hook.initialHook 0.7 in
  Hook.state Hook.initialHook = st
  /\ Hook.succeeded sold
  /\ Hook.virtualSolReserves (Hook.state (fst sold))
     * Hook.virtualTokenReserves (Hook.state (fst sold))
     = k + Hook.fee q * (Hook.virtualTokenReserves st + 1000000)
  /\ Hook.virtualSolReserves (Hook.state (fst sold))
     * Hook.virtualTokenReserves (Hook.state (fst sold)) > k
  /\ Hook.virtualTokenReserves (Hook.state (fst sold))
     = Hook.virtualTokenReserves st + 1000000
  /\ Hook.newPrice q
     * (Hook.virtualTokenReserves (Hook.state (fst sold))
        * Hook.virtualTokenReserves (Hook.state (fst sold))) = k
  /\ Hook.succeeded bought
  /\ Hook.virtualSolReserves (Hook.state (fst bought))
     * Hook.virtualTokenReserves (Hook.state (fst bought)) = k.
Proof.
  cbv zeta.
  assert (HS : 0 < Hook.virtualSolReserves Hook.initialState)
    by (rewrite initialState_sol; lra).
  assert (HT : 0 < Hook.virtualTokenReserves Hook.initialState)
    by (rewrite initialState_token; lra).
  assert (HS30 : 30 <= Hook.virtualSolReserves (Hook.state Hook.initialHook))
    by (change (Hook.state Hook.initialHook) with Hook.initialState;
        rewrite initialState_sol; lra).
  assert (Hbuy := small_buy_executes Hook.initialHook HS30 HT).
  change (Hook.state Hook.initialHook) with Hook.initialState in Hbuy.
  rewrite initial_sell_executes, Hbuy. cbn [fst snd Hook.state].
  assert (Hf := sell_fee_pos Hook.initialState HS HT 1000000 ltac:(lra)).
  split; [reflexivity|]. split; [reflexivity|].
  split; [apply stateAfterSell_product; lra|].
  split.
  { rewrite stateAfterSell_product by lra. rewrite initialState_token. nra. }
  split; [reflexivity|].
  split.
  { change (Hook.virtualTokenReserves
              (Hook.stateAfterSell Hook.initialState 1000000
                 (Hook.calculateSell Hook.initialState 1000000)))
      with (Hook.virtualTokenReserves Hook.initialState + 1000000).
    cbn [Hook.newPrice Hook.calculateSell]. field. lra. }
  split; [reflexivity|].
  apply stateAfterBuy_product; lra.
Qed.

(** ** C2 *)

Section Graduation.
Import Hook.
Variable w : Wallet.

(** The state fetched by [refreshState] holds at most 50 SOL of real
    reserves, below the target of 85, so its [isComplete] is [false]. *)
Lemma mockState_not_complete (d : Draws) :
  valid_draws d -> isComplete (mockState d) = false.
Proof.
  intros (_ & _ & H3 & _). cbn [mockState isComplete].
  apply leb_false. unfold REAL_SOL_RESERVES_TARGET. lra.
Qed.




End Graduation.




(** On a hook already marked complete, with 90 SOL of real reserves, a buy
    of 0.7 SOL executes. *)
Lemma buy_on_completed_hook_executes :
  Hook.isComplete (Hook.state Samples.completedHook) = true
  /\ Hook.succeeded
       (Hook.executeBuy Samples.wallet (Hook.state Samples.completedHook)
          Samples.completedHook 0.7).
Proof.
  split; [reflexivity|].
  unfold Hook.succeeded. rewrite small_buy_executes; [reflexivity| |];
    cbn; unfold Hook.VIRTUAL_SOL_RESERVES, Hook.VIRTUAL_TOKEN_RESERVES; lra.
Qed.

(** ** C6 *)

Section HookRoundTrip.
Import Hook.
Variable st : BondingCurveState.
Hypothesis sol_pos : 0 < virtualSolReserves st.
Hypothesis token_pos : 0 < virtualTokenReserves st.
Hypothesis real_nonneg : 0 <= realSolReserves st.

(** On the hook, buying with [a] SOL and selling the tokens obtained brings
    the token reserve back to where it was, pays out [a] minus the two fees,
    and leaves the sell fee in the SOL reserves. *)
Lemma hook_round_trip (a : R) :
  0 < a ->
  let q := calculateBuy st a in
  let st1 := stateAfterBuy st a q in
  let r := calculateSell st1 (outputAmount q) in
  let st2 := stateAfterSell st1 (outputAmount q) r in
  outputAmount r = a - fee q - fee r
  /\ 0 < fee q /\ 0 < fee r
  /\ virtualTokenReserves st2 = virtualTokenReserves st
  /\ virtualSolReserves st2 = virtualSolReserves st + fee r
  /\ realSolReserves st2 = realSolReserves st + fee r
  /\ totalSupply st2 = totalSupply st.
Proof.
  intros Ha q st1 r st2.
  assert (Hn := buy_newSol_pos st sol_pos a ltac:(lra)).
  assert (Hnet : 0 < a - a * FEE_RATE) by (rewrite FEE_RATE_val; lra).
  assert (Hfr : fee r = (a - a * FEE_RATE) * FEE_RATE).
  { subst r st1 q. cbn. field. repeat split; try lra.
    intros Hz. nra. }
  assert (Hor : outputAmount r = (a - a * FEE_RATE) - fee r).
  { rewrite Hfr. subst r st1 q. cbn. field. repeat split; try lra.
    intros Hz. nra. }
  assert (Hfq : fee q = a * FEE_RATE) by reflexivity.
  split; [rewrite Hor, Hfq; lra|].
  split; [rewrite Hfq, FEE_RATE_val; lra|].
  split; [rewrite Hfr, FEE_RATE_val in *; nra|].
  split; [subst st2 r st1 q; cbn; field; lra|].
  split.
  - change (virtualSolReserves st2)
      with (virtualSolReserves st1 - outputAmount r).
    rewrite Hor. subst st1 q. rewrite stateAfterBuy_sol. lra.
  - split; [|reflexivity].
    change (realSolReserves st2)
      with (Rmax 0 (realSolReserves st1 - outputAmount r)).
    rewrite Hor.
    change (realSolReserves st1)
      with (realSolReserves st + (a - fee q)).
    rewrite Hfq.
    assert (Hpos : 0 < fee r) by (rewrite Hfr, FEE_RATE_val in *; nra).
    rewrite Rmax_right; lra.
Qed.

(** The same sale quoted from the state before the buy pays strictly
    less. *)
Lemma sell_quoted_before_buy_pays_less (a : R) :
  0 < a ->
  let q := calculateBuy st a in
  outputAmount (calculateSell st (outputAmount q))
  < outputAmount (calculateSell (stateAfterBuy st a q) (outputAmount q)).
Proof.
  intros Ha q.
  assert (Hnet : 0 < a - a * FEE_RATE) by (rewrite FEE_RATE_val; lra).
  assert (Hb : outputAmount q
               = virtualTokenReserves st * (a - a * FEE_RATE)
                 / (virtualSolReserves st + (a - a * FEE_RATE)))
    by (apply buy_outputAmount; assumption || lra).
  assert (HT1 : virtualTokenReserves (stateAfterBuy st a q)
                = virtualTokenReserves st - outputAmount q) by reflexivity.
  assert (HS1 : virtualSolReserves (stateAfterBuy st a q)
                = virtualSolReserves st + (a - a * FEE_RATE)) by reflexivity.
  set (b := outputAmount q) in *.
  set (s := virtualSolReserves st) in *.
  set (t := virtualTokenReserves st) in *.
  set (n := a - a * FEE_RATE) in *.
  assert (Hbpos : 0 < b).
  { rewrite Hb. apply Rdiv_lt_0_compat; nra. }
  assert (Hblt : b < t).
  { rewrite Hb. apply Rmult_lt_reg_r with (s + n); [lra|].
    unfold Rdiv. rewrite Rmult_assoc, Rinv_l by lra. nra. }
  rewrite (sell_outputAmount st token_pos b) by lra.
  rewrite (sell_outputAmount (stateAfterBuy st a q)) by (rewrite ?HT1; lra).
  rewrite HT1, HS1. fold s t. rewrite FEE_RATE_val.
  replace (t - b + b) with t by ring.
  apply Rmult_lt_compat_l; [lra|].
  assert (E : (s + n) * b / t - s * b / (t + b)
              = b * (n * t + (s + n) * b) / (t * (t + b))) by (field; lra).
  assert (Hpos : 0 < b * (n * t + (s + n) * b) / (t * (t + b))).
  { apply Rdiv_lt_0_compat; [|nra].
    apply Rmult_lt_0_compat; [assumption|nra]. }
  lra.
Qed.

End HookRoundTrip.

Section RoundTripOnCurve.
Import PowerLaw.
Variable this : BondingCurve.

(** When the cost up to the first midpoint is short of the target, the
    supply found lies in the upper half of the bracket. *)
Lemma bisect_upper_half (currentSupply targetIntegral : R) (n : nat)
      (low high : R) :
  low <= high ->
  calculateIntegral this ((low + high) / 2) 0
  - calculateIntegral this currentSupply 0 <= targetIntegral - tolerance ->
  match bisect this currentSupply targetIntegral (S n) low high with
  | Converged mid => (low + high) / 2 <= mid <= high
  | CapReached l h => (low + high) / 2 <= l /\ l <= h /\ h <= high
  end.
Proof.
  intros Hle Hshort. assert (Ht := tolerance_pos). cbn [bisect].
  destruct (ltb _ tolerance) eqn:Htol.
  { apply ltb_true in Htol. unfold Math_abs in Htol.
    apply Rabs_def2 in Htol. lra. }
  destruct (ltb _ targetIntegral) eqn:Hcmp.
  - apply bisect_bracket. lra.
  - apply ltb_false in Hcmp. lra.
Qed.

Lemma solveForSupply_upper_half (currentSupply targetIntegral v : R) :
  currentSupply <= maxSupply (config this) ->
  calculateIntegral this ((currentSupply + maxSupply (config this)) / 2) 0
  - calculateIntegral this currentSupply 0 <= targetIntegral - tolerance ->
  solveForSupply this currentSupply targetIntegral = Ok v ->
  (currentSupply + maxSupply (config this)) / 2 <= v <= maxSupply (config this).
Proof.
  intros Hle Hshort. unfold solveForSupply.
  assert (Hb := bisect_upper_half currentSupply targetIntegral 99
                  currentSupply (maxSupply (config this)) Hle Hshort).
  destruct (bisect this currentSupply targetIntegral 100 currentSupply
                   (maxSupply (config this))); intros [= <-]; lra.
Qed.

(** The quote of a sell of less than the supply. *)
Lemma calculateSellAmount_unfold (tokenAmount currentSupply : R) :
  tokenAmount < currentSupply ->
  calculateSellAmount this tokenAmount currentSupply
  = Ok {| inputAmount := tokenAmount;
          outputAmount :=
            Rabs (calculateIntegral this (currentSupply - tokenAmount) 0
                  - calculateIntegral this currentSupply 0)
            - Rabs (calculateIntegral this (currentSupply - tokenAmount) 0
                    - calculateIntegral this currentSupply 0) * feeRate this;
          priceAfter := calculatePrice this (currentSupply - tokenAmount);
          priceImpact :=
            ((calculatePrice this currentSupply
              - calculatePrice this (currentSupply - tokenAmount))
             / calculatePrice this currentSupply) * 100;
          slippage :=
            ((calculatePrice this currentSupply
              - Rabs (calculateIntegral this (currentSupply - tokenAmount) 0
                      - calculateIntegral this currentSupply 0) / tokenAmount)
             / calculatePrice this currentSupply) * 100;
          fee :=
            Rabs (calculateIntegral this (currentSupply - tokenAmount) 0
                  - calculateIntegral this currentSupply 0) * feeRate this;
          netAmount :=
            Rabs (calculateIntegral this (currentSupply - tokenAmount) 0
                  - calculateIntegral this currentSupply 0)
            - Rabs (calculateIntegral this (currentSupply - tokenAmount) 0
                    - calculateIntegral this currentSupply 0) * feeRate this |}.
Proof.
  intros Hlt. unfold calculateSellAmount. cmp. reflexivity.
Qed.

End RoundTripOnCurve.

(** The cost function of the curve [initialPrice = 1], [k = 2],
    [maxSupply = 100]. *)
Lemma quadratic_integral (x : R) :
  0 < x ->
  PowerLaw.calculateIntegral Samples.quadratic x 0
  = (100 / 3) * ((x / 100) * (x / 100) * (x / 100)).
Proof.
  intros Hx.
  rewrite calculateIntegral_power_branch by (cbn; lra).
  cbn [PowerLaw.config PowerLaw.initialPrice PowerLaw.k PowerLaw.maxSupply
       Samples.quadratic PowerLaw.new_BondingCurve].
  replace (2 + 1) with (INR 3) by (cbn [INR]; lra).
  rewrite Math_pow_nat by lra.
  cbn [pow INR]. field.
Qed.

Lemma quadratic_params :
  0 < PowerLaw.initialPrice (PowerLaw.config Samples.quadratic)
  /\ 0 < PowerLaw.k (PowerLaw.config Samples.quadratic)
  /\ PowerLaw.k (PowerLaw.config Samples.quadratic) <> 1
  /\ PowerLaw.maxSupply (PowerLaw.config Samples.quadratic) = 100
  /\ PowerLaw.feeRate Samples.quadratic = 1 / 100.
Proof. cbn. repeat split; lra. Qed.

(** On that curve, at supply 90, the bisection started by a buy ends in
    the upper half of [90, 100]. *)
Lemma quadratic_buy_supply (v : R) :
  PowerLaw.solveForSupply Samples.quadratic 90
    (PowerLaw.calculateIntegral Samples.quadratic 90 0) = Ok v ->
  95 <= v <= 100.
Proof.
  intros Hv.
  destruct quadratic_params as (_ & _ & _ & HM & _).
  assert (H := solveForSupply_upper_half Samples.quadratic 90
                 (PowerLaw.calculateIntegral Samples.quadratic 90 0) v).
  rewrite HM in H.
  replace ((90 + 100) / 2) with 95 in H by lra.
  apply H; [lra| |exact Hv].
  rewrite !quadratic_integral by lra.
  unfold PowerLaw.tolerance. lra.
Qed.

(** C6 fails on the power-law curve.  On the curve [initialPrice = 1],
    [k = 2], [maxSupply = 100] at supply 90, a buy of 1 SOL (fee 0.01) is
    quoted between 5 and 10 tokens; selling these tokens at once brings the
    supply back to 90 and is quoted more than 4 SOL after the fee: the pair
    of trades returns more than four times what was paid in. *)
Theorem power_law_round_trip_pays_out_more :
  exists b r,
    PowerLaw.calculateBuyAmount Samples.quadratic 1 90 = Ok b
    /\ PowerLaw.inputAmount b = 1
    /\ PowerLaw.fee b = 1 / 100
    /\ 5 <= PowerLaw.outputAmount b <= 10
    /\ PowerLaw.calculateSellAmount Samples.quadratic
         (PowerLaw.outputAmount b) (90 + PowerLaw.outputAmount b) = Ok r
    /\ 90 + PowerLaw.outputAmount b - PowerLaw.inputAmount r = 90
    /\ PowerLaw.outputAmount r > 4.
Proof.
  destruct (calculateBuyAmount_unfold Samples.quadratic 1 90) as (v & Hv & Hq).
  apply quadratic_buy_supply in Hv.
  destruct quadratic_params as (HP & Hk & Hk1 & HM & Hfee).
  eexists. eexists. split; [exact Hq|].
  cbn [PowerLaw.inputAmount PowerLaw.fee PowerLaw.outputAmount].
  split; [reflexivity|]. split; [rewrite Hfee; lra|]. split; [lra|].
  split; [apply calculateSellAmount_unfold; lra|].
  cbn [PowerLaw.inputAmount PowerLaw.outputAmount].
  split; [lra|].
  replace (90 + (v - 90) - (v - 90)) with 90 by lra.
  replace (90 + (v - 90)) with v by lra.
  assert (Hmono : PowerLaw.calculateIntegral Samples.quadratic 95 0
                  <= PowerLaw.calculateIntegral Samples.quadratic v 0).
  { apply calculateIntegral_mono; try assumption; [rewrite HM|]; lra. }
  rewrite (quadratic_integral 95) in Hmono by lra.
  rewrite (quadratic_integral 90) by lra.
  rewrite Hfee.
  rewrite Rabs_left1 by lra. lra.
Qed.

(** * Further properties of the power-law curve *)

Lemma andb_true_5 (a b c d e : bool) :
  a && b && c && d && e = true ->
  a = true /\ b = true /\ c = true /\ d = true /\ e = true.
Proof. destruct a, b, c, d, e; intros H; try discriminate; repeat split. Qed.

(** What [validateBondingCurveConfig] accepts. *)
Lemma validateBondingCurveConfig_true (c : PowerLaw.BondingCurveConfig) :
  PowerLaw.validateBondingCurveConfig c = true ->
  0 < PowerLaw.initialPrice c /\ 0 < PowerLaw.k c /\ 0 < PowerLaw.maxSupply c
  /\ 0 < PowerLaw.reserveRatio c <= 1.
Proof.
  unfold PowerLaw.validateBondingCurveConfig. intros H.
  apply andb_true_5 in H. destruct H as (H1 & H2 & H3 & H4 & H5).
  unfold gtb in *. apply ltb_true in H1, H2, H3, H4. apply leb_true in H5.
  repeat split; assumption.
Qed.

Lemma default_config_valid :
  PowerLaw.validateBondingCurveConfig
    (PowerLaw.config PowerLaw.createBondingCurve) = true.
Proof.
  unfold PowerLaw.validateBondingCurveConfig. cbn.
  unfold gtb. rewrite !(proj2 (ltb_true _ _)) by lra.
  rewrite (proj2 (leb_true _ _)) by lra. reflexivity.
Qed.

Lemma quadratic_config_valid :
  PowerLaw.validateBondingCurveConfig (PowerLaw.config Samples.quadratic) = true.
Proof.
  unfold PowerLaw.validateBondingCurveConfig. cbn.
  unfold gtb. rewrite !(proj2 (ltb_true _ _)) by lra.
  rewrite (proj2 (leb_true _ _)) by lra. reflexivity.
Qed.

Lemma scenarioB_config_valid :
  PowerLaw.validateBondingCurveConfig (PowerLaw.config Samples.scenarioB) = true.
Proof.
  unfold PowerLaw.validateBondingCurveConfig. cbn.
  unfold gtb. rewrite !(proj2 (ltb_true _ _)) by lra.
  rewrite (proj2 (leb_true _ _)) by lra. reflexivity.
Qed.

Section InverseOfPrice.
Import PowerLaw.
Variable this : BondingCurve.
Hypothesis valid : validateBondingCurveConfig (config this) = true.

(** X1: on a validated configuration [calculateSupplyFromPrice] answers 0
    for every price that [calculatePrice] can return: it never recovers the
    supply a price was computed from. *)
Theorem supply_from_curve_price_is_zero (s : R) :
  calculateSupplyFromPrice this (calculatePrice this s) = 0.
Proof.
  destruct (validateBondingCurveConfig_true _ valid) as (HP & Hk & HM & _).
  assert (H := calculatePrice_le_initial this HP Hk HM s).
  unfold calculateSupplyFromPrice. cmp.
Qed.

(** X2: for a price above [initialPrice] the supply returned lies beyond
    [maxSupply], and it is the supply at which the power formula
    [initialPrice * (supply / maxSupply) ^ k], without the clamp, gives that
    price. *)
Theorem supply_from_price_above_curve (price : R) :
  initialPrice (config this) < price ->
  maxSupply (config this) < calculateSupplyFromPrice this price
  /\ initialPrice (config this)
     * Math_pow (calculateSupplyFromPrice this price / maxSupply (config this))
                (k (config this))
     = price
  /\ calculatePrice this (calculateSupplyFromPrice this price)
     = initialPrice (config this).
Proof.
  intros Hp.
  destruct (validateBondingCurveConfig_true _ valid) as (HP & Hk & HM & _).
  set (ratio := price / initialPrice (config this)).
  assert (Hratio : 1 < ratio).
  { unfold ratio. apply Rmult_lt_reg_r with (initialPrice (config this));
      [assumption|].
    unfold Rdiv. rewrite Rmult_assoc, Rinv_l by lra. lra. }
  assert (Hinv : 0 < 1 / k (config this)).
  { apply Rdiv_lt_0_compat; lra. }
  assert (Hroot : 1 < Rpower ratio (1 / k (config this))).
  { assert (H1 : Rpower 1 (1 / k (config this)) = 1).
    { rewrite <- Math_pow_pos_base by lra. apply Math_pow_one. }
    apply Rle_lt_trans with (Rpower 1 (1 / k (config this)));
      [rewrite H1; lra|apply Rlt_Rpower_l; lra]. }
  assert (Hval : calculateSupplyFromPrice this price
                 = maxSupply (config this) * Rpower ratio (1 / k (config this))).
  { unfold calculateSupplyFromPrice. cmp. fold ratio.
    rewrite Math_pow_pos_base by lra. reflexivity. }
  assert (Hbeyond : maxSupply (config this) < calculateSupplyFromPrice this price).
  { rewrite Hval. nra. }
  split; [exact Hbeyond|]. split.
  - rewrite Hval.
    replace (maxSupply (config this) * Rpower ratio (1 / k (config this))
             / maxSupply (config this))
      with (Rpower ratio (1 / k (config this))) by (field; lra).
    rewrite Math_pow_pos_base by lra.
    rewrite Rpower_mult.
    replace (1 / k (config this) * k (config this)) with 1 by (field; lra).
    rewrite Rpower_1 by lra. unfold ratio. field. lra.
  - apply calculatePrice_above. lra.
Qed.

End InverseOfPrice.

Lemma supply_from_price_above_curve_witness :
  let c := PowerLaw.createBondingCurve in
  PowerLaw.maxSupply (PowerLaw.config c) < PowerLaw.calculateSupplyFromPrice c 1
  /\ PowerLaw.initialPrice (PowerLaw.config c)
     * Math_pow (PowerLaw.calculateSupplyFromPrice c 1
                 / PowerLaw.maxSupply (PowerLaw.config c))
                (PowerLaw.k (PowerLaw.config c))
     = 1
  /\ PowerLaw.calculatePrice c (PowerLaw.calculateSupplyFromPrice c 1)
     = PowerLaw.initialPrice (PowerLaw.config c).
Proof.
  apply (supply_from_price_above_curve PowerLaw.createBondingCurve
           default_config_valid 1).
  cbn. lra.
Defined.

Lemma supply_from_curve_price_is_zero_witness :
  PowerLaw.calculateSupplyFromPrice PowerLaw.createBondingCurve
    (PowerLaw.calculatePrice PowerLaw.createBondingCurve 500000000) = 0.
Proof.
  apply (supply_from_curve_price_is_zero PowerLaw.createBondingCurve
           default_config_valid 500000000).
Defined.

Section BisectionMore.
Import PowerLaw.
Variable this : BondingCurve.
Variables currentSupply targetIntegral : R.

(** The loop keeps the target between the costs of its two ends. *)
Lemma bisect_keeps_target_bracketed (n : nat) :
  forall low high l h,
    calculateIntegral this low 0 - calculateIntegral this currentSupply 0
    <= targetIntegral ->
    targetIntegral
    <= calculateIntegral this high 0 - calculateIntegral this currentSupply 0 ->
    bisect this currentSupply targetIntegral n low high = CapReached l h ->
    calculateIntegral this l 0 - calculateIntegral this currentSupply 0
    <= targetIntegral
    <= calculateIntegral this h 0 - calculateIntegral this currentSupply 0.
Proof.
  induction n as [|n IH]; intros low high l h Hlo Hhi; cbn [bisect].
  - intros [= <- <-]. lra.
  - destruct (ltb _ tolerance); [discriminate|].
    destruct (ltb _ targetIntegral) eqn:Hcmp.
    + apply ltb_true in Hcmp. apply IH; lra.
    + apply ltb_false in Hcmp. apply IH; lra.
Qed.

End BisectionMore.

(** X3: below [maxSupply], whatever amount of SOL is offered, the quote of a
    buy gives a positive number of tokens and does not take the supply
    beyond [maxSupply]. *)
Theorem buy_quote_stays_inside_curve
  (this : PowerLaw.BondingCurve) (solAmount currentSupply : R) :
  currentSupply < PowerLaw.maxSupply (PowerLaw.config this) ->
  exists q,
    PowerLaw.calculateBuyAmount this solAmount currentSupply = Ok q
    /\ 0 < PowerLaw.outputAmount q
    /\ currentSupply + PowerLaw.outputAmount q
       <= PowerLaw.maxSupply (PowerLaw.config this)
    /\ PowerLaw.netAmount q = PowerLaw.outputAmount q.
Proof.
  intros Hlt.
  destruct (calculateBuyAmount_unfold this solAmount currentSupply)
    as (v & Hv & Hq).
  apply solveForSupply_inside in Hv; [|assumption].
  eexists. split; [exact Hq|].
  cbn [PowerLaw.outputAmount PowerLaw.netAmount]. repeat split; lra.
Qed.

Lemma buy_quote_stays_inside_curve_witness :
  exists q,
    PowerLaw.calculateBuyAmount PowerLaw.createBondingCurve 1000000 1000 = Ok q
    /\ 0 < PowerLaw.outputAmount q
    /\ 1000 + PowerLaw.outputAmount q
       <= PowerLaw.maxSupply (PowerLaw.config PowerLaw.createBondingCurve)
    /\ PowerLaw.netAmount q = PowerLaw.outputAmount q.
Proof.
  apply (buy_quote_stays_inside_curve PowerLaw.createBondingCurve 1000000 1000).
  cbn. lra.
Defined.

(** X4: [validateTrade] accepts a buy exactly when the amount is positive
    and the supply is below [maxSupply], whatever the size of the amount,
    and accepts a sell exactly when the amount is positive and at most the
    supply; it never throws. *)
Theorem validateTrade_decides
  (this : PowerLaw.BondingCurve) (amount currentSupply : R) :
  PowerLaw.validateTrade this amount true currentSupply
  = Ok (gtb amount 0 && ltb currentSupply (PowerLaw.maxSupply (PowerLaw.config this)))
  /\ PowerLaw.validateTrade this amount false currentSupply
     = Ok (gtb amount 0 && leb amount currentSupply).
Proof.
  split.
  - unfold PowerLaw.validateTrade.
    destruct (leb amount 0) eqn:Ha.
    { apply leb_true in Ha. unfold gtb.
      rewrite (proj2 (ltb_false 0 amount)) by lra. reflexivity. }
    apply leb_false in Ha. unfold gtb at 2.
    rewrite (proj2 (ltb_true 0 amount)) by lra. cbn [andb].
    destruct (calculateBuyAmount_unfold this amount currentSupply)
      as (v & Hv & Hq).
    rewrite Hq. cbn [bind PowerLaw.outputAmount]. f_equal.
    destruct (Rlt_dec currentSupply (PowerLaw.maxSupply (PowerLaw.config this)))
      as [Hlt|Hge].
    + apply solveForSupply_inside in Hv; [|assumption].
      rewrite (proj2 (ltb_true currentSupply _)) by lra.
      unfold gtb. rewrite (proj2 (ltb_true 0 _)) by lra.
      rewrite (proj2 (leb_true _ _)) by lra. reflexivity.
    + apply solveForSupply_at_or_above_max in Hv; [|lra].
      rewrite (proj2 (ltb_false currentSupply _)) by lra.
      unfold gtb. rewrite (proj2 (ltb_false 0 _)) by lra. reflexivity.
  - unfold PowerLaw.validateTrade.
    destruct (leb amount 0) eqn:Ha.
    + apply leb_true in Ha. unfold gtb.
      rewrite (proj2 (ltb_false 0 amount)) by lra. reflexivity.
    + apply leb_false in Ha. unfold gtb.
      rewrite (proj2 (ltb_true 0 amount)) by lra. reflexivity.
Qed.

Section ValidCurve.
Import PowerLaw.
Variable this : BondingCurve.
Hypothesis valid : validateBondingCurveConfig (config this) = true.

Lemma valid_initialPrice : 0 < initialPrice (config this).
Proof. apply (validateBondingCurveConfig_true _ valid). Qed.

Lemma valid_k : 0 < k (config this).
Proof. apply (validateBondingCurveConfig_true _ valid). Qed.

Lemma valid_maxSupply : 0 < maxSupply (config this).
Proof. apply (validateBondingCurveConfig_true _ valid). Qed.

Lemma calculatePrice_pos (s : R) : 0 < calculatePrice this s.
Proof.
  assert (HP := valid_initialPrice). assert (HM := valid_maxSupply).
  destruct (Rle_dec s 0) as [Hs|Hs].
  { now rewrite calculatePrice_nonpos. }
  destruct (Rle_dec (maxSupply (config this)) s) as [Hm|Hm].
  { now rewrite calculatePrice_above. }
  rewrite calculatePrice_inside by lra.
  apply Rmult_lt_0_compat; [assumption|apply exp_pos].
Qed.

Lemma ln_nondecreasing (x y : R) : 0 < x -> x <= y -> ln x <= ln y.
Proof.
  intros Hx [Hlt | Heq].
  - left. now apply ln_increasing.
  - subst y. lra.
Qed.

(** The cost function of either branch does not decrease with the supply,
    from 0 on. *)
Lemma calculateIntegral_nondecreasing (s s' x y : R) :
  0 <= s <= s' -> calculateIntegral this s x <= calculateIntegral this s' y.
Proof.
  intros Hs.
  assert (HP := valid_initialPrice). assert (HM := valid_maxSupply).
  assert (Hk := valid_k).
  destruct (Req_dec_T (k (config this)) 1) as [H1|H1].
  - rewrite !calculateIntegral_log_branch by assumption.
    assert (Hr := ratio_nonneg this HM s ltac:(lra)).
    assert (Hr' := ratio_mono this HM s s' ltac:(lra)).
    assert (Hl : 0 <= ln (s / maxSupply (config this) + 1)).
    { rewrite <- ln_1. apply ln_nondecreasing; lra. }
    assert (Hl' : ln (s / maxSupply (config this) + 1)
                  <= ln (s' / maxSupply (config this) + 1)).
    { apply ln_nondecreasing; lra. }
    rewrite !Rmult_assoc. apply Rmult_le_compat_l; [lra|]. nra.
  - now apply calculateIntegral_mono.
Qed.

Lemma calculateIntegral_nonneg_any (s x : R) :
  0 <= s -> 0 <= calculateIntegral this s x.
Proof.
  intros Hs.
  assert (HP := valid_initialPrice). assert (HM := valid_maxSupply).
  assert (Hk := valid_k).
  destruct (Req_dec_T (k (config this)) 1) as [H1|H1].
  - rewrite calculateIntegral_log_branch by assumption.
    assert (Hr := ratio_nonneg this HM s Hs).
    assert (Hl : 0 <= ln (s / maxSupply (config this) + 1)).
    { rewrite <- ln_1. apply ln_nondecreasing; lra. }
    apply Rmult_le_pos; [nra|assumption].
  - now apply calculateIntegral_nonneg.
Qed.

(** X5: at supply zero a buy is quoted a price after the trade that is
    strictly below the price before it, so its price impact is negative: the
    price before is the clamp value [initialPrice], and every supply the
    bisection can return is priced below that. *)
Theorem buy_from_empty_supply_lowers_price (solAmount : R) :
  exists q,
    calculateBuyAmount this solAmount 0 = Ok q
    /\ priceAfter q < calculatePrice this 0
    /\ priceImpact q < 0.
Proof.
  assert (HP := valid_initialPrice). assert (HM := valid_maxSupply).
  assert (Hk := valid_k).
  destruct (calculateBuyAmount_unfold this solAmount 0) as (v & Hv & Hq).
  apply solveForSupply_inside in Hv; [|lra].
  eexists. split; [exact Hq|]. cbn [priceAfter priceImpact].
  rewrite (calculatePrice_nonpos this 0) by lra.
  assert (Hlt := calculatePrice_lt_initial this HP Hk HM v Hv).
  split; [assumption|].
  assert (Hq' : (calculatePrice this v - initialPrice (config this))
                / initialPrice (config this) < 0).
  { apply Rmult_lt_reg_r with (initialPrice (config this)); [assumption|].
    unfold Rdiv. rewrite Rmult_assoc, Rinv_l by lra. lra. }
  lra.
Qed.

(** X6: at a positive supply below [maxSupply] the price quoted after a buy
    is at least the current price, and the price impact is non-negative. *)
Theorem buy_quote_price_does_not_fall (solAmount currentSupply : R) :
  0 < currentSupply < maxSupply (config this) ->
  exists q,
    calculateBuyAmount this solAmount currentSupply = Ok q
    /\ calculatePrice this currentSupply <= priceAfter q
    /\ priceAfter q <= initialPrice (config this)
    /\ 0 <= priceImpact q.
Proof.
  intros Hs.
  assert (HP := valid_initialPrice). assert (HM := valid_maxSupply).
  assert (Hk := valid_k).
  destruct (calculateBuyAmount_unfold this solAmount currentSupply)
    as (v & Hv & Hq).
  apply solveForSupply_within in Hv; [|lra].
  eexists. split; [exact Hq|]. cbn [priceAfter priceImpact].
  assert (Hmono := calculatePrice_mono_pos this HP Hk HM currentSupply v
                     ltac:(lra) ltac:(lra)).
  assert (Hpos := calculatePrice_pos currentSupply).
  split; [assumption|]. split; [now apply calculatePrice_le_initial|].
  apply Rmult_le_pos; [|lra].
  apply Rmult_le_pos; [lra|]. left. now apply Rinv_0_lt_compat.
Qed.

(** X7: a sell of a positive amount below the supply is quoted a price
    after the trade that is at most the current price, with a price impact
    of at least 0 and less than 100 per cent. *)
Theorem sell_quote_price_does_not_rise (tokenAmount currentSupply : R) :
  0 < tokenAmount < currentSupply ->
  exists q,
    calculateSellAmount this tokenAmount currentSupply = Ok q
    /\ 0 < priceAfter q <= calculatePrice this currentSupply
    /\ 0 <= priceImpact q < 100.
Proof.
  intros Ht.
  assert (HP := valid_initialPrice). assert (HM := valid_maxSupply).
  assert (Hk := valid_k).
  eexists. split; [apply calculateSellAmount_unfold; lra|].
  cbn [priceAfter priceImpact].
  assert (Hmono := calculatePrice_mono_pos this HP Hk HM
                     (currentSupply - tokenAmount) currentSupply
                     ltac:(lra) ltac:(lra)).
  assert (Hnew := calculatePrice_pos (currentSupply - tokenAmount)).
  assert (Hcur := calculatePrice_pos currentSupply).
  split; [lra|].
  set (pc := calculatePrice this currentSupply) in *.
  set (pn := calculatePrice this (currentSupply - tokenAmount)) in *.
  assert (Hq : 0 <= (pc - pn) / pc < 1).
  { split.
    - apply Rmult_le_pos; [lra|]. left. now apply Rinv_0_lt_compat.
    - apply Rmult_lt_reg_r with pc; [assumption|].
      unfold Rdiv. rewrite Rmult_assoc, Rinv_l by lra. lra. }
  lra.
Qed.

(** What a sell below the supply pays out is not negative. *)
Lemma calculateSellAmount_output_nonneg (tokenAmount currentSupply : R) :
  0 < tokenAmount < currentSupply ->
  0 <= feeRate this <= 1 ->
  exists q,
    calculateSellAmount this tokenAmount currentSupply = Ok q
    /\ 0 <= outputAmount q.
Proof.
  intros Ht Hf.
  eexists. split; [apply calculateSellAmount_unfold; lra|].
  cbn [outputAmount].
  assert (Habs := Rabs_pos (calculateIntegral this (currentSupply - tokenAmount) 0
                            - calculateIntegral this currentSupply 0)).
  nra.
Qed.

(** X8: for such a sell the fee and the amount paid out add up to the cost
    difference between the two supplies, which is not negative; with a fee
    rate between 0 and 1 the fee lies between 0 and that difference and the
    amount paid out is not negative. *)
Theorem sell_quote_splits_the_proceeds (tokenAmount currentSupply : R) :
  0 < tokenAmount < currentSupply ->
  0 <= feeRate this <= 1 ->
  exists q,
    calculateSellAmount this tokenAmount currentSupply = Ok q
    /\ fee q + outputAmount q
       = calculateIntegral this currentSupply 0
         - calculateIntegral this (currentSupply - tokenAmount) 0
    /\ 0 <= fee q <= fee q + outputAmount q
    /\ 0 <= outputAmount q
    /\ fee q = feeRate this * (fee q + outputAmount q)
    /\ netAmount q = outputAmount q.
Proof.
  intros Ht Hf.
  eexists. split; [apply calculateSellAmount_unfold; lra|].
  cbn [fee outputAmount netAmount].
  assert (Hmono := calculateIntegral_nondecreasing
                     (currentSupply - tokenAmount) currentSupply 0 0
                     ltac:(lra)).
  rewrite Rabs_left1 by lra.
  set (g := calculateIntegral this (currentSupply - tokenAmount) 0
            - calculateIntegral this currentSupply 0).
  assert (Hg : g <= 0) by (unfold g; lra).
  split; [unfold g; lra|].
  split; [nra|]. split; [nra|]. split; [lra|reflexivity].
Qed.

End ValidCurve.

Lemma buy_from_empty_supply_lowers_price_witness :
  exists q,
    PowerLaw.calculateBuyAmount PowerLaw.createBondingCurve 1 0 = Ok q
    /\ PowerLaw.priceAfter q
       < PowerLaw.calculatePrice PowerLaw.createBondingCurve 0
    /\ PowerLaw.priceImpact q < 0.
Proof.
  apply (buy_from_empty_supply_lowers_price PowerLaw.createBondingCurve
           default_config_valid 1).
Defined.

Lemma buy_quote_price_does_not_fall_witness :
  exists q,
    PowerLaw.calculateBuyAmount Samples.quadratic 1 90 = Ok q
    /\ PowerLaw.calculatePrice Samples.quadratic 90 <= PowerLaw.priceAfter q
    /\ PowerLaw.priceAfter q
       <= PowerLaw.initialPrice (PowerLaw.config Samples.quadratic)
    /\ 0 <= PowerLaw.priceImpact q.
Proof.
  apply (buy_quote_price_does_not_fall Samples.quadratic
           quadratic_config_valid 1 90).
  cbn. lra.
Defined.

Lemma sell_quote_price_does_not_rise_witness :
  exists q,
    PowerLaw.calculateSellAmount Samples.quadratic 10 90 = Ok q
    /\ 0 < PowerLaw.priceAfter q <= PowerLaw.calculatePrice Samples.quadratic 90
    /\ 0 <= PowerLaw.priceImpact q < 100.
Proof.
  apply (sell_quote_price_does_not_rise Samples.quadratic
           quadratic_config_valid 10 90).
  lra.
Defined.

Lemma sell_quote_splits_the_proceeds_witness :
  exists q,
    PowerLaw.calculateSellAmount Samples.scenarioB 10 90 = Ok q
    /\ PowerLaw.fee q + PowerLaw.outputAmount q
       = PowerLaw.calculateIntegral Samples.scenarioB 90 0
         - PowerLaw.calculateIntegral Samples.scenarioB (90 - 10) 0
    /\ 0 <= PowerLaw.fee q <= PowerLaw.fee q + PowerLaw.outputAmount q
    /\ 0 <= PowerLaw.outputAmount q
    /\ PowerLaw.fee q
       = PowerLaw.feeRate Samples.scenarioB
         * (PowerLaw.fee q + PowerLaw.outputAmount q)
    /\ PowerLaw.netAmount q = PowerLaw.outputAmount q.
Proof.
  apply (sell_quote_splits_the_proceeds Samples.scenarioB
           scenarioB_config_valid 10 90).
  - lra.
  - cbn. lra.
Defined.

(** X9: when the target cost is between 0 and the cost of the rest of the
    curve, the inverse computation returns a supply between the current
    supply and [maxSupply]; either its cost is within the tolerance of the
    target, or the loop has run its 100 iterations and the supply is the
    midpoint of the bracket they left, which lies between the current
    supply and [maxSupply] and whose ends cost at most and at least the
    target. *)
Theorem bisection_brackets_reachable_target
  (this : PowerLaw.BondingCurve) (currentSupply targetIntegral : R) :
  currentSupply <= PowerLaw.maxSupply (PowerLaw.config this) ->
  0 <= targetIntegral
  <= PowerLaw.calculateIntegral this (PowerLaw.maxSupply (PowerLaw.config this)) 0
     - PowerLaw.calculateIntegral this currentSupply 0 ->
  exists v,
    PowerLaw.solveForSupply this currentSupply targetIntegral = Ok v
    /\ currentSupply <= v <= PowerLaw.maxSupply (PowerLaw.config this)
    /\ (Rabs (PowerLaw.calculateIntegral this v 0
              - PowerLaw.calculateIntegral this currentSupply 0
              - targetIntegral) < PowerLaw.tolerance
        \/ exists low high,
             PowerLaw.bisect this currentSupply targetIntegral 100
               currentSupply (PowerLaw.maxSupply (PowerLaw.config this))
             = PowerLaw.CapReached low high
             /\ currentSupply <= low /\ low <= high
             /\ high <= PowerLaw.maxSupply (PowerLaw.config this)
             /\ v = (low + high) / 2
             /\ PowerLaw.calculateIntegral this low 0
                - PowerLaw.calculateIntegral this currentSupply 0
                <= targetIntegral
                <= PowerLaw.calculateIntegral this high 0
                   - PowerLaw.calculateIntegral this currentSupply 0).
Proof.
  intros Hle Ht.
  destruct (solveForSupply_shape this currentSupply targetIntegral)
    as [(mid & Hb & Hs & Htol)|(low & high & Hb & Hs)].
  - exists mid. split; [assumption|].
    split; [now apply (solveForSupply_within this currentSupply targetIntegral)|].
    now left.
  - exists ((low + high) / 2). split; [assumption|].
    split; [now apply (solveForSupply_within this currentSupply targetIntegral)|].
    right. exists low, high.
    assert (Hbr := bisect_bracket this currentSupply targetIntegral 100
                     currentSupply (PowerLaw.maxSupply (PowerLaw.config this)) Hle).
    rewrite Hb in Hbr.
    split; [assumption|].
    split; [lra|]. split; [lra|]. split; [lra|]. split; [reflexivity|].
    apply (bisect_keeps_target_bracketed this currentSupply targetIntegral 100
             currentSupply (PowerLaw.maxSupply (PowerLaw.config this)));
      [lra|lra|assumption].
Qed.

Lemma bisection_brackets_reachable_target_witness :
  exists v,
    PowerLaw.solveForSupply Samples.quadratic 10 1 = Ok v
    /\ 10 <= v <= PowerLaw.maxSupply (PowerLaw.config Samples.quadratic)
    /\ (Rabs (PowerLaw.calculateIntegral Samples.quadratic v 0
              - PowerLaw.calculateIntegral Samples.quadratic 10 0 - 1)
        < PowerLaw.tolerance
        \/ exists low high,
             PowerLaw.bisect Samples.quadratic 10 1 100 10
               (PowerLaw.maxSupply (PowerLaw.config Samples.quadratic))
             = PowerLaw.CapReached low high
             /\ 10 <= low /\ low <= high
             /\ high <= PowerLaw.maxSupply (PowerLaw.config Samples.quadratic)
             /\ v = (low + high) / 2
             /\ PowerLaw.calculateIntegral Samples.quadratic low 0
                - PowerLaw.calculateIntegral Samples.quadratic 10 0
                <= 1
                <= PowerLaw.calculateIntegral Samples.quadratic high 0
                   - PowerLaw.calculateIntegral Samples.quadratic 10 0).
Proof.
  apply (bisection_brackets_reachable_target Samples.quadratic 10 1).
  - destruct quadratic_params as (_ & _ & _ & HM & _). rewrite HM. lra.
  - destruct quadratic_params as (_ & _ & _ & HM & _). rewrite HM.
    rewrite !quadratic_integral by lra. lra.
Defined.

Section Metrics.
Import PowerLaw.
Variable this : BondingCurve.
Hypothesis valid : validateBondingCurveConfig (config this) = true.

(** X10: on a validated configuration and for supplies from 0 on, the
    market capitalisation reported by [getTokenMetrics] lies between 0 and
    [supply * initialPrice], and both it and the total reserve do not
    decrease when the supply grows (although the price itself drops right
    after supply 0); the total reserve is never negative. *)
Theorem token_metrics_grow_with_supply (s s' : R) :
  0 <= s <= s' ->
  0 <= TokenMetrics.marketCap (getTokenMetrics this s)
    <= s * initialPrice (config this)
  /\ TokenMetrics.marketCap (getTokenMetrics this s)
     <= TokenMetrics.marketCap (getTokenMetrics this s')
  /\ 0 <= TokenMetrics.totalReserve (getTokenMetrics this s)
       <= TokenMetrics.totalReserve (getTokenMetrics this s').
Proof.
  intros Hs.
  assert (HP := valid_initialPrice this valid).
  assert (HM := valid_maxSupply this valid).
  assert (Hk := valid_k this valid).
  cbn [getTokenMetrics TokenMetrics.marketCap TokenMetrics.totalReserve].
  assert (Hps := calculatePrice_pos this valid s).
  assert (Hps' := calculatePrice_pos this valid s').
  assert (Hle := calculatePrice_le_initial this HP Hk HM s).
  split; [split; nra|]. split.
  - destruct (Req_dec_T s 0) as [->|Hnz]; [nra|].
    assert (Hmono := calculatePrice_mono_pos this HP Hk HM s s'
                       ltac:(lra) ltac:(lra)).
    nra.
  - split.
    + apply calculateIntegral_nonneg_any; [assumption|lra].
    + apply calculateIntegral_nondecreasing; assumption.
Qed.

(** X12: [calculateMaximumInput] throws when the amount is at least the
    supply, as the sell quote it is computed from does; for a positive
    amount below the supply, a fee rate between 0 and 1 and a non-negative
    tolerance, it returns the amount paid out by the sell quote increased by
    the tolerance, which is not negative. *)
Theorem maximum_input_follows_sell_quote
  (tokenAmount currentSupply slippageTolerance tooMuch : R) :
  0 < tokenAmount < currentSupply ->
  0 <= feeRate this <= 1 ->
  0 <= slippageTolerance ->
  currentSupply <= tooMuch ->
  (exists q,
     calculateSellAmount this tokenAmount currentSupply = Ok q
     /\ calculateMaximumInput this tokenAmount currentSupply slippageTolerance
        = Ok (outputAmount q * (1 + slippageTolerance / 100))
     /\ 0 <= outputAmount q <= outputAmount q * (1 + slippageTolerance / 100))
  /\ calculateMaximumInput this tooMuch currentSupply slippageTolerance
     = Throw "Cannot sell more tokens than current supply".
Proof.
  intros Ht Hf Htol Hbig. split.
  - destruct (calculateSellAmount_output_nonneg this tokenAmount
                currentSupply Ht Hf) as (q & Hq & Hout).
    exists q. split; [assumption|].
    unfold calculateMaximumInput. rewrite Hq. cbn [bind].
    split; [reflexivity|]. nra.
  - unfold calculateMaximumInput.
    rewrite calculateSellAmount_throws by assumption. reflexivity.
Qed.

End Metrics.

Lemma token_metrics_grow_with_supply_witness :
  let c := PowerLaw.createBondingCurve in
  0 <= PowerLaw.TokenMetrics.marketCap (PowerLaw.getTokenMetrics c 0)
    <= 0 * PowerLaw.initialPrice (PowerLaw.config c)
  /\ PowerLaw.TokenMetrics.marketCap (PowerLaw.getTokenMetrics c 0)
     <= PowerLaw.TokenMetrics.marketCap (PowerLaw.getTokenMetrics c 1000)
  /\ 0 <= PowerLaw.TokenMetrics.totalReserve (PowerLaw.getTokenMetrics c 0)
       <= PowerLaw.TokenMetrics.totalReserve (PowerLaw.getTokenMetrics c 1000).
Proof.
  apply (token_metrics_grow_with_supply PowerLaw.createBondingCurve
           default_config_valid 0 1000).
  lra.
Defined.

Lemma maximum_input_follows_sell_quote_witness :
  (exists q,
     PowerLaw.calculateSellAmount Samples.quadratic 10 90 = Ok q
     /\ PowerLaw.calculateMaximumInput Samples.quadratic 10 90 1
        = Ok (PowerLaw.outputAmount q * (1 + 1 / 100))
     /\ 0 <= PowerLaw.outputAmount q
          <= PowerLaw.outputAmount q * (1 + 1 / 100))
  /\ PowerLaw.calculateMaximumInput Samples.quadratic 90 90 1
     = Throw "Cannot sell more tokens than current supply".
Proof.
  apply (maximum_input_follows_sell_quote Samples.quadratic 10 90 1 90).
  - lra.
  - cbn. lra.
  - lra.
  - lra.
Defined.

(** X11: below [maxSupply] and for a tolerance between 0 and 100,
    [calculateMinimumOutput] returns an amount between 0 and the tokens
    quoted for the buy, which does not take the supply beyond [maxSupply];
    the amount is the same whatever amount of SOL is offered. *)
Theorem minimum_output_within_quote
  (this : PowerLaw.BondingCurve)
  (solAmount solAmount' currentSupply slippageTolerance : R) :
  currentSupply < PowerLaw.maxSupply (PowerLaw.config this) ->
  0 <= slippageTolerance <= 100 ->
  exists q m,
    PowerLaw.calculateBuyAmount this solAmount currentSupply = Ok q
    /\ PowerLaw.calculateMinimumOutput this solAmount currentSupply
         slippageTolerance = Ok m
    /\ 0 <= m <= PowerLaw.outputAmount q
    /\ currentSupply + m <= PowerLaw.maxSupply (PowerLaw.config this)
    /\ PowerLaw.calculateMinimumOutput this solAmount' currentSupply
         slippageTolerance = Ok m.
Proof.
  intros Hlt Htol.
  destruct (calculateBuyAmount_unfold this solAmount currentSupply)
    as (v & Hv & Hq).
  destruct (calculateBuyAmount_unfold this solAmount' currentSupply)
    as (v' & Hv' & Hq').
  rewrite Hv in Hv'. injection Hv' as <-.
  apply solveForSupply_within in Hv; [|lra].
  eexists. eexists. split; [exact Hq|].
  unfold PowerLaw.calculateMinimumOutput. rewrite Hq, Hq'.
  cbn [bind PowerLaw.outputAmount].
  split; [reflexivity|]. split; [nra|]. split; [nra|reflexivity].
Qed.

Lemma minimum_output_within_quote_witness :
  exists q m,
    PowerLaw.calculateBuyAmount Samples.quadratic 1 90 = Ok q
    /\ PowerLaw.calculateMinimumOutput Samples.quadratic 1 90 5 = Ok m
    /\ 0 <= m <= PowerLaw.outputAmount q
    /\ 90 + m <= PowerLaw.maxSupply (PowerLaw.config Samples.quadratic)
    /\ PowerLaw.calculateMinimumOutput Samples.quadratic 1000 90 5 = Ok m.
Proof.
  apply (minimum_output_within_quote Samples.quadratic 1 1000 90 5).
  - cbn. lra.
  - lra.
Defined.

(** * Further properties of the hook *)

Section HookQuotes.
Import Hook.
Variable st : BondingCurveState.
Hypothesis sol_pos : 0 < virtualSolReserves st.
Hypothesis token_pos : 0 < virtualTokenReserves st.

Lemma sell_slippage (b : R) :
  0 <= b ->
  slippage (calculateSell st b)
  = (1 - virtualTokenReserves st * virtualTokenReserves st
         / ((virtualTokenReserves st + b) * (virtualTokenReserves st + b))) * 100.
Proof.
  intros Hb.
  change (slippage (calculateSell st b))
    with (Rabs (priceImpact (calculateSell st b))).
  rewrite sell_priceImpact by assumption.
  set (t := virtualTokenReserves st) in *.
  assert (Hq : t * t / ((t + b) * (t + b)) <= 1).
  { apply Rmult_le_reg_r with ((t + b) * (t + b)); [nra|].
    unfold Rdiv. rewrite Rmult_assoc, Rinv_l by nra. nra. }
  rewrite Rabs_left1 by lra. lra.
Qed.

Lemma stateAfterSell_sol (b : R) :
  0 <= b ->
  virtualSolReserves (stateAfterSell st b (calculateSell st b))
  = virtualSolReserves st * (virtualTokenReserves st + FEE_RATE * b)
    / (virtualTokenReserves st + b).
Proof. intros Hb. cbn. field. lra. Qed.

Lemma stateAfterSell_reserves_pos (b : R) :
  0 <= b ->
  0 < virtualSolReserves (stateAfterSell st b (calculateSell st b))
  /\ 0 < virtualTokenReserves (stateAfterSell st b (calculateSell st b))
  /\ 0 <= realSolReserves (stateAfterSell st b (calculateSell st b)).
Proof.
  intros Hb. split; [|split].
  - rewrite stateAfterSell_sol by assumption. rewrite FEE_RATE_val.
    apply Rdiv_lt_0_compat; [|lra].
    apply Rmult_lt_0_compat; lra.
  - cbn. lra.
  - cbn. apply Rmax_l.
Qed.

Lemma stateAfterBuy_reserves_pos (a : R) :
  0 <= a -> 0 <= realSolReserves st ->
  0 < virtualSolReserves (stateAfterBuy st a (calculateBuy st a))
  /\ 0 < virtualTokenReserves (stateAfterBuy st a (calculateBuy st a))
  /\ 0 <= realSolReserves (stateAfterBuy st a (calculateBuy st a)).
Proof.
  intros Ha Hr. assert (Hn := buy_newSol_pos st sol_pos a Ha).
  split; [|split].
  - now rewrite stateAfterBuy_sol.
  - rewrite stateAfterBuy_token by assumption.
    apply Rdiv_lt_0_compat; [nra|assumption].
  - cbn. rewrite FEE_RATE_val. lra.
Qed.

(** X13: a trade never drains the pool.  With positive virtual reserves a
    buy of a positive amount is quoted a positive number of tokens, fewer
    than the virtual token reserve, and a sell of a positive amount is
    quoted a positive fee and a positive amount of SOL, less than the
    virtual SOL reserve. *)
Theorem hook_quotes_within_reserves (a b : R) :
  0 < a -> 0 < b ->
  0 < outputAmount (calculateBuy st a) < virtualTokenReserves st
  /\ 0 < fee (calculateSell st b)
  /\ 0 < outputAmount (calculateSell st b) < virtualSolReserves st.
Proof.
  intros Ha Hb.
  assert (Hn := buy_newSol_pos st sol_pos a ltac:(lra)).
  assert (Hnet : 0 < a - a * FEE_RATE) by (rewrite FEE_RATE_val; lra).
  split; [|split].
  - rewrite buy_outputAmount by lra.
    set (n := a - a * FEE_RATE) in *.
    split.
    + apply Rdiv_lt_0_compat; [nra|assumption].
    + apply Rmult_lt_reg_r with (virtualSolReserves st + n); [assumption|].
      unfold Rdiv. rewrite Rmult_assoc, Rinv_l by lra. nra.
  - now apply sell_fee_pos.
  - rewrite sell_outputAmount by lra. rewrite FEE_RATE_val.
    assert (Hg : 0 < virtualSolReserves st * b / (virtualTokenReserves st + b)
                 < virtualSolReserves st).
    { split.
      - apply Rdiv_lt_0_compat; [nra|lra].
      - apply Rmult_lt_reg_r with (virtualTokenReserves st + b); [lra|].
        unfold Rdiv. rewrite Rmult_assoc, Rinv_l by lra. nra. }
    lra.
Qed.

End HookQuotes.

Lemma hook_quotes_within_reserves_witness :
  let st := Hook.initialState in
  0 < Hook.outputAmount (Hook.calculateBuy st 1) < Hook.virtualTokenReserves st
  /\ 0 < Hook.fee (Hook.calculateSell st 1000000)
  /\ 0 < Hook.outputAmount (Hook.calculateSell st 1000000)
       < Hook.virtualSolReserves st.
Proof.
  apply (hook_quotes_within_reserves Hook.initialState);
    rewrite ?initialState_sol, ?initialState_token; lra.
Defined.

Section HookRuns.
Import Hook.
Variable w : Wallet.

Lemma executeBuy_state_cases (h : HookState) (a : R) :
  state (fst (executeBuy w (state h) h a)) = state h
  \/ state (fst (executeBuy w (state h) h a))
     = stateAfterBuy (state h) a (calculateBuy (state h) a).
Proof.
  unfold executeBuy.
  destruct (negb (connected w)); [now left|].
  destruct (gtb _ _); [now left|now right].
Qed.

Lemma executeSell_state_cases (h : HookState) (b : R) :
  state (fst (executeSell w (state h) h b)) = state h
  \/ state (fst (executeSell w (state h) h b))
     = stateAfterSell (state h) b (calculateSell (state h) b).
Proof.
  unfold executeSell.
  destruct (negb (connected w)); [now left|].
  destruct (gtb _ _); [now left|now right].
Qed.

(** The state a refresh installs. *)
Lemma mockState_bounds (d : Draws) :
  valid_draws d ->
  30 <= virtualSolReserves (mockState d) < 40
  /\ 973000000 < virtualTokenReserves (mockState d) <= 1073000000
  /\ 0 <= realSolReserves (mockState d) < 50
  /\ 0 <= realTokenReserves (mockState d) < 500000000
  /\ totalSupply (mockState d) = TOTAL_SUPPLY.
Proof.
  intros (H1 & H2 & H3 & H4).
  cbn [mockState virtualSolReserves virtualTokenReserves realSolReserves
       realTokenReserves totalSupply].
  unfold VIRTUAL_SOL_RESERVES, VIRTUAL_TOKEN_RESERVES.
  repeat split; lra.
Qed.

Lemma step_keeps_reserves_sound (h : HookState) (c : Call) :
  nonneg_call c -> reserves_sound (state h) -> reserves_sound (state (step w h c)).
Proof.
  intros Hc (HS & HT & HR & Htot). destruct c as [a|b|d]; cbn [step nonneg_call] in *.
  - destruct (executeBuy_state_cases h a) as [-> | ->]; [now repeat split|].
    destruct (stateAfterBuy_reserves_pos (state h) HS HT a Hc HR) as (? & ? & ?).
    now repeat split.
  - destruct (executeSell_state_cases h b) as [-> | ->]; [now repeat split|].
    destruct (stateAfterSell_reserves_pos (state h) HS HT b Hc) as (? & ? & ?).
    now repeat split.
  - unfold refreshState. destruct (tokenMint w); [|now repeat split].
    cbn [state].
    destruct (mockState_bounds d Hc) as (? & ? & ? & ? & ?).
    repeat split; try assumption; lra.
Qed.

End HookRuns.

Lemma run_keeps_reserves_sound (w : Hook.Wallet) (cs : list Hook.Call) :
  forall h,
    Forall Hook.nonneg_call cs ->
    Hook.reserves_sound (Hook.state h) ->
    Hook.reserves_sound (Hook.state (Hook.run w h cs)).
Proof.
  induction cs as [|c cs IH]; intros h Hv Hs.
  - exact Hs.
  - rewrite run_cons. inversion Hv as [|c' cs' Hv1 Hv2]; subst.
    apply IH; [assumption|]. now apply step_keeps_reserves_sound.
Qed.

Lemma initialState_reserves_sound : Hook.reserves_sound Hook.initialState.
Proof.
  unfold Hook.reserves_sound. cbn.
  unfold Hook.VIRTUAL_SOL_RESERVES, Hook.VIRTUAL_TOKEN_RESERVES.
  repeat split; lra.
Qed.

(** X14: a client that takes the callbacks of the latest render before
    every call, and lets each call finish before the next, has every quote
    computed from the state it is applied to ([Hook.run]).  After every
    such run of buys and sells of non-negative amounts and of refreshes,
    started from the initial state and whether the calls succeed or not,
    both virtual reserves are positive, the real SOL reserve is not
    negative, the total supply is the constant [TOTAL_SUPPLY], and the
    current price is positive.  The restriction to such clients is needed:
    calls repeated through the callback of one render can drive the virtual
    SOL reserve below zero (X24). *)
Theorem hook_reserves_stay_sound (w : Hook.Wallet) (cs : list Hook.Call) :
  Forall Hook.nonneg_call cs ->
  let st := Hook.state (Hook.run w Hook.initialHook cs) in
  0 < Hook.virtualSolReserves st
  /\ 0 < Hook.virtualTokenReserves st
  /\ 0 <= Hook.realSolReserves st
  /\ Hook.totalSupply st = Hook.TOTAL_SUPPLY
  /\ 0 < Hook.getCurrentPrice st.
Proof.
  intros Hv st.
  destruct (run_keeps_reserves_sound w cs Hook.initialHook Hv
              initialState_reserves_sound) as (HS & HT & HR & Htot).
  fold st in HS, HT, HR, Htot.
  repeat split; try assumption.
  unfold Hook.getCurrentPrice. now apply Rdiv_lt_0_compat.
Qed.

Lemma hook_reserves_stay_sound_witness :
  let cs := Hook.Buy 0.7 :: Hook.Sell 1000000 :: Hook.Refresh Samples.draws
            :: Hook.Sell 2000000000 :: Hook.Buy 100 :: nil in
  let st := Hook.state (Hook.run Samples.wallet Hook.initialHook cs) in
  0 < Hook.virtualSolReserves st
  /\ 0 < Hook.virtualTokenReserves st
  /\ 0 <= Hook.realSolReserves st
  /\ Hook.totalSupply st = Hook.TOTAL_SUPPLY
  /\ 0 < Hook.getCurrentPrice st.
Proof.
  apply (hook_reserves_stay_sound Samples.wallet
           (Hook.Buy 0.7 :: Hook.Sell 1000000 :: Hook.Refresh Samples.draws
            :: Hook.Sell 2000000000 :: Hook.Buy 100 :: nil)).
  repeat constructor; cbn; lra.
Defined.

(** X15: [refreshState] does nothing without a token mint.  With one, and
    for draws in [0, 1), it installs a state with a virtual SOL reserve in
    [30, 40), a virtual token reserve in (973000000, 1073000000], a real SOL
    reserve in [0, 50), a progress below 59 per cent and [isComplete] false,
    whose [marketCap] field is the market capitalisation computed from its
    price; it clears the error and the loading flag. *)
Theorem refreshState_installs_bounded_state
  (w : Hook.Wallet) (h : Hook.HookState) (d : Hook.Draws) :
  Hook.valid_draws d ->
  (Hook.tokenMint w = None -> Hook.refreshState w h d = h)
  /\ (Hook.tokenMint w <> None ->
      let h' := Hook.refreshState w h d in
      30 <= Hook.virtualSolReserves (Hook.state h') < 40
      /\ 973000000 < Hook.virtualTokenReserves (Hook.state h') <= 1073000000
      /\ 0 <= Hook.realSolReserves (Hook.state h') < 50
      /\ 0 <= Hook.progress (Hook.state h') < 59
      /\ Hook.isComplete (Hook.state h') = false
      /\ Hook.marketCap (Hook.state h') = Hook.getMarketCap (Hook.state h')
      /\ Hook.loading h' = false /\ Hook.error h' = None).
Proof.
  intros Hd. split.
  - intros Hm. unfold Hook.refreshState. now rewrite Hm.
  - intros Hm. unfold Hook.refreshState.
    destruct (Hook.tokenMint w) as [m|]; [|contradiction].
    cbv zeta. cbn [Hook.state Hook.loading Hook.error].
    destruct (mockState_bounds d Hd) as (HS & HT & HR & _ & _).
    split; [exact HS|]. split; [exact HT|]. split; [exact HR|].
    split.
    { cbn [Hook.mockState Hook.progress].
      cbn [Hook.mockState Hook.realSolReserves] in HR.
      unfold Hook.REAL_SOL_RESERVES_TARGET. lra. }
    split; [now apply mockState_not_complete|].
    repeat split.
Qed.

Lemma refreshState_installs_bounded_state_witness :
  let h' := Hook.refreshState Samples.wallet Hook.initialHook Samples.draws in
  30 <= Hook.virtualSolReserves (Hook.state h') < 40
  /\ 973000000 < Hook.virtualTokenReserves (Hook.state h') <= 1073000000
  /\ 0 <= Hook.realSolReserves (Hook.state h') < 50
  /\ 0 <= Hook.progress (Hook.state h') < 59
  /\ Hook.isComplete (Hook.state h') = false
  /\ Hook.marketCap (Hook.state h') = Hook.getMarketCap (Hook.state h')
  /\ Hook.loading h' = false /\ Hook.error h' = None.
Proof.
  destruct (refreshState_installs_bounded_state Samples.wallet Hook.initialHook
              Samples.draws) as [_ H].
  - unfold Hook.valid_draws. cbn. lra.
  - apply H. discriminate.
Defined.

Lemma div_le_iff (x d c : R) : 0 < d -> (x / d <= c <-> x <= c * d).
Proof.
  intros Hd. split; intros H.
  - apply Rmult_le_compat_r with (r := d) in H; [|lra].
    unfold Rdiv in H. rewrite Rmult_assoc, Rinv_l in H by lra. lra.
  - apply Rmult_le_reg_r with d; [assumption|].
    unfold Rdiv. rewrite Rmult_assoc, Rinv_l by lra. lra.
Qed.

Section HookGate.
Import Hook.
Variable w : Wallet.
Variable rendered : BondingCurveState.
Variable h : HookState.

Lemma executeBuy_succeeded_iff (a : R) :
  connected w = true ->
  (succeeded (executeBuy w rendered h a)
   <-> slippage (calculateBuy rendered a) <= 5).
Proof.
  intros Hc. split.
  - unfold succeeded, executeBuy. rewrite Hc, SLIPPAGE_LIMIT_val. cbn [negb].
    destruct (gtb _ 5) eqn:Hg; [discriminate|].
    intros _. unfold gtb in Hg. now apply ltb_false in Hg.
  - intros Hs. unfold succeeded. now rewrite executeBuy_ok.
Qed.

Lemma executeSell_succeeded_iff (b : R) :
  connected w = true ->
  (succeeded (executeSell w rendered h b)
   <-> slippage (calculateSell rendered b) <= 5).
Proof.
  intros Hc. split.
  - unfold succeeded, executeSell. rewrite Hc, SLIPPAGE_LIMIT_val. cbn [negb].
    destruct (gtb _ 5) eqn:Hg; [discriminate|].
    intros _. unfold gtb in Hg. now apply ltb_false in Hg.
  - intros Hs. unfold succeeded. now rewrite executeSell_ok.
Qed.

Lemma executeBuy_disconnected (a : R) :
  connected w = false ->
  executeBuy w rendered h a
  = ({| state := state h; loading := loading h;
        error := Some WalletNotConnected |}, None).
Proof. intros Hc. unfold executeBuy. now rewrite Hc. Qed.

Lemma executeSell_disconnected (b : R) :
  connected w = false ->
  executeSell w rendered h b
  = ({| state := state h; loading := loading h;
        error := Some WalletNotConnected |}, None).
Proof. intros Hc. unfold executeSell. now rewrite Hc. Qed.

End HookGate.

(** X16: the slippage gate reads the state captured by the render of the
    callback, whatever state the trade is then applied to.  With a
    connected wallet and positive virtual reserves in that captured state,
    a buy of a non-negative amount executes exactly when it would raise the
    captured virtual SOL reserve by a factor whose square is at most 1.05,
    and a sell of a non-negative amount executes exactly when it would
    raise the captured virtual token reserve by a factor whose square is at
    most 1/0.95. *)
Theorem hook_slippage_gate
  (w : Hook.Wallet) (rendered : Hook.BondingCurveState)
  (h : Hook.HookState) (a b : R) :
  Hook.connected w = true ->
  0 < Hook.virtualSolReserves rendered ->
  0 < Hook.virtualTokenReserves rendered ->
  0 <= a -> 0 <= b ->
  (Hook.succeeded (Hook.executeBuy w rendered h a) <->
   (Hook.virtualSolReserves rendered + (a - a * Hook.FEE_RATE))
   * (Hook.virtualSolReserves rendered + (a - a * Hook.FEE_RATE))
   <= 1.05 * (Hook.virtualSolReserves rendered
              * Hook.virtualSolReserves rendered))
  /\ (Hook.succeeded (Hook.executeSell w rendered h b) <->
      0.95 * ((Hook.virtualTokenReserves rendered + b)
              * (Hook.virtualTokenReserves rendered + b))
      <= Hook.virtualTokenReserves rendered
         * Hook.virtualTokenReserves rendered).
Proof.
  intros Hc HS HT Ha Hb. split.
  - rewrite (executeBuy_succeeded_iff w rendered h a Hc).
    rewrite buy_slippage by assumption.
    set (v := Hook.virtualSolReserves rendered) in *.
    set (n := a - a * Hook.FEE_RATE).
    assert (Hd : 0 < v * v) by nra.
    assert (Hiff := div_le_iff (n * (2 * v + n)) (v * v) (5 / 100) Hd).
    split; intros H.
    + assert (H' : n * (2 * v + n) / (v * v) <= 5 / 100) by lra.
      apply Hiff in H'. nra.
    + assert (H' : n * (2 * v + n) <= 5 / 100 * (v * v)) by nra.
      apply Hiff in H'. lra.
  - rewrite (executeSell_succeeded_iff w rendered h b Hc).
    rewrite sell_slippage by assumption.
    set (t := Hook.virtualTokenReserves rendered) in *.
    assert (Hd : 0 < (t + b) * (t + b)) by nra.
    assert (Hiff := div_le_iff (- (t * t)) ((t + b) * (t + b)) (- (95 / 100)) Hd).
    replace (- (t * t) / ((t + b) * (t + b)))
      with (- (t * t / ((t + b) * (t + b)))) in Hiff by (field; nra).
    split; intros H.
    + assert (H' : - (t * t / ((t + b) * (t + b))) <= - (95 / 100)) by lra.
      apply Hiff in H'. nra.
    + assert (H' : - (t * t) <= - (95 / 100) * ((t + b) * (t + b))) by nra.
      apply Hiff in H'. lra.
Qed.

Lemma hook_slippage_gate_witness :
  let h := Hook.initialHook in
  (Hook.succeeded (Hook.executeBuy Samples.wallet (Hook.state h) h 1) <->
   (Hook.virtualSolReserves (Hook.state h) + (1 - 1 * Hook.FEE_RATE))
   * (Hook.virtualSolReserves (Hook.state h) + (1 - 1 * Hook.FEE_RATE))
   <= 1.05 * (Hook.virtualSolReserves (Hook.state h)
              * Hook.virtualSolReserves (Hook.state h)))
  /\ (Hook.succeeded
        (Hook.executeSell Samples.wallet (Hook.state h) h 1000000) <->
      0.95 * ((Hook.virtualTokenReserves (Hook.state h) + 1000000)
              * (Hook.virtualTokenReserves (Hook.state h) + 1000000))
      <= Hook.virtualTokenReserves (Hook.state h)
         * Hook.virtualTokenReserves (Hook.state h)).
Proof.
  apply (hook_slippage_gate Samples.wallet (Hook.state Hook.initialHook)
           Hook.initialHook 1 1000000);
    try reflexivity;
    change (Hook.state Hook.initialHook) with Hook.initialState;
    rewrite ?initialState_sol, ?initialState_token; lra.
Defined.

(** A buy of 1 SOL from the initial state is rejected: it would move the
    price by more than 5 per cent. *)
Example buy_of_one_sol_is_rejected :
  snd (Hook.executeBuy Samples.wallet Hook.initialState Hook.initialHook 1)
  = None.
Proof.
  assert (HS : 0 < Hook.virtualSolReserves Hook.initialState)
    by (rewrite initialState_sol; lra).
  assert (HT : 0 < Hook.virtualTokenReserves Hook.initialState)
    by (rewrite initialState_token; lra).
  assert (Hs : 5 < Hook.slippage (Hook.calculateBuy Hook.initialState 1)).
  { rewrite (buy_slippage Hook.initialState HS HT 1) by lra.
    rewrite initialState_sol. unfold Hook.FEE_RATE. lra. }
  unfold Hook.executeBuy. cbn [Hook.connected Samples.wallet Hook.publicKey
    Hook.tokenMint Hook.signTransaction negb].
  rewrite SLIPPAGE_LIMIT_val. unfold gtb.
  rewrite (proj2 (ltb_true _ _) Hs). reflexivity.
Qed.

(** X17: a buy or a sell that resolves to [null] leaves the bonding-curve
    state exactly as it was and records an error; it was rejected because
    the wallet is not connected or because the slippage of the quote, taken
    from the state its render captured, exceeds 5 per cent. *)
Theorem rejected_trades_change_nothing
  (w : Hook.Wallet) (rendered : Hook.BondingCurveState)
  (h : Hook.HookState) (a b : R) :
  snd (Hook.executeBuy w rendered h a) = None ->
  snd (Hook.executeSell w rendered h b) = None ->
  (Hook.state (fst (Hook.executeBuy w rendered h a)) = Hook.state h
   /\ Hook.error (fst (Hook.executeBuy w rendered h a)) <> None
   /\ (Hook.connected w = false
       \/ 5 < Hook.slippage (Hook.calculateBuy rendered a)))
  /\ (Hook.state (fst (Hook.executeSell w rendered h b)) = Hook.state h
      /\ Hook.error (fst (Hook.executeSell w rendered h b)) <> None
      /\ (Hook.connected w = false
          \/ 5 < Hook.slippage (Hook.calculateSell rendered b))).
Proof.
  intros Hb Hs. split.
  - split; [now apply executeBuy_failed|].
    revert Hb. unfold Hook.executeBuy.
    destruct (Hook.connected w); cbn [negb].
    + rewrite SLIPPAGE_LIMIT_val.
      destruct (gtb _ 5) eqn:Hg; [|discriminate].
      intros _. cbn [fst Hook.error]. split; [discriminate|].
      right. unfold gtb in Hg. now apply ltb_true in Hg.
    + intros _. cbn [fst Hook.error]. split; [discriminate|now left].
  - split; [now apply executeSell_failed|].
    revert Hs. unfold Hook.executeSell.
    destruct (Hook.connected w); cbn [negb].
    + rewrite SLIPPAGE_LIMIT_val.
      destruct (gtb _ 5) eqn:Hg; [|discriminate].
      intros _. cbn [fst Hook.error]. split; [discriminate|].
      right. unfold gtb in Hg. now apply ltb_true in Hg.
    + intros _. cbn [fst Hook.error]. split; [discriminate|now left].
Qed.

(** A wallet without a public key. *)
Lemma rejected_trades_change_nothing_witness :
  let w := {| Hook.publicKey := None; Hook.signTransaction := true;
              Hook.tokenMint := Some "mint"%string |} in
  let h := Hook.initialHook in
  (Hook.state (fst (Hook.executeBuy w (Hook.state h) h 0.7)) = Hook.state h
   /\ Hook.error (fst (Hook.executeBuy w (Hook.state h) h 0.7)) <> None
   /\ (Hook.connected w = false
       \/ 5 < Hook.slippage (Hook.calculateBuy (Hook.state h) 0.7)))
  /\ (Hook.state (fst (Hook.executeSell w (Hook.state h) h 1000000))
      = Hook.state h
      /\ Hook.error (fst (Hook.executeSell w (Hook.state h) h 1000000)) <> None
      /\ (Hook.connected w = false
          \/ 5 < Hook.slippage (Hook.calculateSell (Hook.state h) 1000000))).
Proof.
  apply (rejected_trades_change_nothing
           {| Hook.publicKey := None; Hook.signTransaction := true;
              Hook.tokenMint := Some "mint"%string |}
           (Hook.state Hook.initialHook) Hook.initialHook 0.7 1000000);
    reflexivity.
Defined.

Section HookStaleness.
Import Hook.
Variable w : Wallet.
Variable h : HookState.
Hypothesis sol_pos : 0 < virtualSolReserves (state h).
Hypothesis token_pos : 0 < virtualTokenReserves (state h).

(** X18: [executeBuy] does not refresh the derived fields.  If the stored
    [marketCap] agrees with the price before an executed buy of a positive
    amount, made through the callback of the render showing that state,
    then afterwards the stored [marketCap] and [progress] are what they
    were, while the market capitalisation computed from the new price is
    strictly larger than the stored one. *)
Theorem executed_buy_leaves_marketCap_stale (a : R) :
  0 < totalSupply (state h) ->
  marketCap (state h) = getMarketCap (state h) ->
  0 < a ->
  succeeded (executeBuy w (state h) h a) ->
  let st' := state (fst (executeBuy w (state h) h a)) in
  marketCap st' = marketCap (state h)
  /\ progress st' = progress (state h)
  /\ marketCap st' < getMarketCap st'.
Proof.
  intros Htot Hcap Ha Hok st'. subst st'.
  rewrite (executeBuy_succeeded w (state h) h a Hok).
  split; [reflexivity|]. split; [reflexivity|].
  change (marketCap (stateAfterBuy (state h) a (calculateBuy (state h) a)))
    with (marketCap (state h)).
  rewrite Hcap. unfold getMarketCap.
  rewrite stateAfterBuy_price by (assumption || lra).
  change (totalSupply (stateAfterBuy (state h) a (calculateBuy (state h) a)))
    with (totalSupply (state h)).
  apply Rmult_lt_compat_r; [assumption|].
  rewrite buy_newPrice by (assumption || lra).
  assert (Hnet : 0 < a - a * FEE_RATE) by (rewrite FEE_RATE_val; lra).
  set (n := a - a * FEE_RATE) in *.
  unfold getCurrentPrice.
  set (s := virtualSolReserves (state h)) in *.
  set (t := virtualTokenReserves (state h)) in *.
  replace (s / t) with (s * s / (s * t)) by (field; lra).
  apply Rmult_lt_compat_r; [|nra].
  apply Rinv_0_lt_compat. nra.
Qed.

(** X20: a sell of a positive amount that is made through the callback of
    the render showing the state it is applied to, and executes, lowers the
    current price, but not as far as the [newPrice] of its quote: the fee
    stays in the virtual SOL reserve, so the price after the sell is
    strictly between the quoted [newPrice] and the price before.  The
    relation to the quote is lost when the same callback is used again: the
    second sell executes as well, on the same quote, and leaves the current
    price strictly below that quote's [newPrice]. *)
Theorem executed_sell_price_above_quote (b : R) :
  0 < b ->
  succeeded (executeSell w (state h) h b) ->
  let h1 := fst (executeSell w (state h) h b) in
  let h2 := fst (executeSell w (state h) h1 b) in
  newPrice (calculateSell (state h) b)
  < getCurrentPrice (state h1)
  < getCurrentPrice (state h)
  /\ succeeded (executeSell w (state h) h1 b)
  /\ getCurrentPrice (state h2) < newPrice (calculateSell (state h) b).
Proof.
  intros Hb Hok h1 h2.
  assert (Hok2 := executeSell_succeeded_any w (state h) h h1 b Hok).
  subst h2. rewrite (executeSell_succeeded w (state h) h1 b Hok2).
  subst h1. rewrite (executeSell_succeeded w (state h) h b Hok).
  split; [|split; [exact Hok2|]].
  - unfold getCurrentPrice.
    rewrite stateAfterSell_sol by (assumption || lra).
    change (virtualTokenReserves
              (stateAfterSell (state h) b (calculateSell (state h) b)))
      with (virtualTokenReserves (state h) + b).
    cbn [newPrice calculateSell]. rewrite FEE_RATE_val.
    set (s := virtualSolReserves (state h)) in *.
    set (t := virtualTokenReserves (state h)) in *.
    assert (Hd : 0 < / ((t + b) * (t + b))) by (apply Rinv_0_lt_compat; nra).
    replace (s * t / (t + b) / (t + b))
      with (s * t * / ((t + b) * (t + b))) by (field; lra).
    replace (s * (t + 1 / 100 * b) / (t + b) / (t + b))
      with (s * (t + 1 / 100 * b) * / ((t + b) * (t + b))) by (field; lra).
    split.
    + apply Rmult_lt_compat_r; [assumption|]. nra.
    + apply Rmult_lt_reg_r with ((t + b) * (t + b)); [nra|].
      rewrite Rmult_assoc, Rinv_l by nra.
      apply Rmult_lt_reg_r with t; [assumption|].
      replace (s / t * ((t + b) * (t + b)) * t)
        with (s * ((t + b) * (t + b))) by (field; lra).
      replace (s * (t + 1 / 100 * b) * 1 * t)
        with (s * ((t + 1 / 100 * b) * t)) by ring.
      apply Rmult_lt_compat_l; [assumption|]. nra.
  - unfold getCurrentPrice.
    cbn [stateAfterSell virtualSolReserves virtualTokenReserves].
    rewrite (sell_outputAmount (state h) token_pos b) by lra.
    cbn [newPrice calculateSell]. rewrite FEE_RATE_val.
    set (s := virtualSolReserves (state h)) in *.
    set (t := virtualTokenReserves (state h)) in *.
    assert (E : s * t / (t + b) / (t + b)
                - (s - (1 - 1 / 100) * (s * b / (t + b))
                   - (1 - 1 / 100) * (s * b / (t + b))) / (t + b + b)
                = s * b * (198 / 100 * t + 98 / 100 * b)
                  / ((t + b) * (t + b) * (t + b + b))) by (field; lra).
    assert (Hpos : 0 < s * b * (198 / 100 * t + 98 / 100 * b)
                       / ((t + b) * (t + b) * (t + b + b))).
    { apply Rdiv_lt_0_compat.
      - apply Rmult_lt_0_compat; [nra|lra].
      - apply Rmult_lt_0_compat; [nra|lra]. }
    lra.
Qed.

End HookStaleness.

Lemma refreshed_hook_state :
  Hook.state (Hook.refreshState Samples.wallet Hook.initialHook Samples.draws)
  = Hook.mockState Samples.draws.
Proof. reflexivity. Qed.

Lemma sample_draws_valid : Hook.valid_draws Samples.draws.
Proof. unfold Hook.valid_draws. cbn. lra. Qed.

Lemma executed_buy_leaves_marketCap_stale_witness :
  let h := Hook.refreshState Samples.wallet Hook.initialHook Samples.draws in
  let st' :=
    Hook.state (fst (Hook.executeBuy Samples.wallet (Hook.state h) h 0.7)) in
  Hook.marketCap st' = Hook.marketCap (Hook.state h)
  /\ Hook.progress st' = Hook.progress (Hook.state h)
  /\ Hook.marketCap st' < Hook.getMarketCap st'.
Proof.
  destruct (mockState_bounds Samples.draws sample_draws_valid)
    as (HS & HT & _ & _ & Htot).
  apply (executed_buy_leaves_marketCap_stale Samples.wallet
           (Hook.refreshState Samples.wallet Hook.initialHook Samples.draws));
    rewrite ?refreshed_hook_state.
  - lra.
  - lra.
  - rewrite Htot. unfold Hook.TOTAL_SUPPLY. lra.
  - reflexivity.
  - lra.
  - unfold Hook.succeeded.
    rewrite executeBuy_ok; [reflexivity|reflexivity|].
    apply small_buy_passes; lra.
Defined.

Lemma executed_sell_price_above_quote_witness :
  let w := Samples.wallet in
  let h := Hook.initialHook in
  let h1 := fst (Hook.executeSell w (Hook.state h) h 10000000) in
  let h2 := fst (Hook.executeSell w (Hook.state h) h1 10000000) in
  Hook.newPrice (Hook.calculateSell (Hook.state h) 10000000)
  < Hook.getCurrentPrice (Hook.state h1)
  < Hook.getCurrentPrice (Hook.state h)
  /\ Hook.succeeded (Hook.executeSell w (Hook.state h) h1 10000000)
  /\ Hook.getCurrentPrice (Hook.state h2)
     < Hook.newPrice (Hook.calculateSell (Hook.state h) 10000000).
Proof.
  assert (HS : 0 < Hook.virtualSolReserves Hook.initialState)
    by (rewrite initialState_sol; lra).
  assert (HT : 0 < Hook.virtualTokenReserves Hook.initialState)
    by (rewrite initialState_token; lra).
  apply (executed_sell_price_above_quote Samples.wallet Hook.initialHook).
  - exact HS.
  - exact HT.
  - lra.
  - change (Hook.state Hook.initialHook) with Hook.initialState.
    unfold Hook.succeeded.
    rewrite executeSell_ok; [reflexivity|reflexivity|].
    rewrite (sell_slippage Hook.initialState HS HT) by lra.
    rewrite initialState_token. lra.
Defined.

(** Sells made one after another through the callback of one render: every
    one applies the same quote, that of the captured state, to the state
    left by the one before. *)
Lemma sellsThrough_reserves
  (w : Hook.Wallet) (rendered : Hook.BondingCurveState) (b : R) (n : nat) :
  Hook.connected w = true ->
  Hook.slippage (Hook.calculateSell rendered b) <= 5 ->
  forall h,
    Hook.virtualSolReserves (Hook.state (Hook.sellsThrough w rendered h b n))
    = Hook.virtualSolReserves (Hook.state h)
      - INR n * Hook.outputAmount (Hook.calculateSell rendered b)
    /\ Hook.virtualTokenReserves
         (Hook.state (Hook.sellsThrough w rendered h b n))
       = Hook.virtualTokenReserves (Hook.state h) + INR n * b.
Proof.
  intros Hc Hs. induction n as [|n IH]; intros h.
  - cbn [Hook.sellsThrough INR]. split; ring.
  - cbn [Hook.sellsThrough]. rewrite S_INR.
    destruct (IH (fst (Hook.executeSell w rendered h b))) as [IH1 IH2].
    rewrite IH1, IH2.
    rewrite (executeSell_ok w rendered h b Hc Hs).
    cbn [fst Hook.state Hook.stateAfterSell Hook.virtualSolReserves
         Hook.virtualTokenReserves].
    split; ring.
Qed.

(** X24: sells repeated through the callback of one render.  With a
    connected wallet, if the quote taken from the state that render captured
    passes the slippage check, then every one of [n] successive calls
    executes, whatever the state has become, and each subtracts the same
    quoted [outputAmount]: after [n] calls the virtual SOL reserve is the
    one at the start less [n] times that amount, and the virtual token
    reserve is the one at the start plus [n] times the amount sold.
    Nothing bounds the virtual SOL reserve from below. *)
Theorem sells_through_one_callback_repeat_the_quote
  (w : Hook.Wallet) (rendered : Hook.BondingCurveState)
  (h : Hook.HookState) (b : R) (n : nat) :
  Hook.connected w = true ->
  Hook.slippage (Hook.calculateSell rendered b) <= 5 ->
  (forall m, (m < n)%nat ->
     Hook.succeeded
       (Hook.executeSell w rendered (Hook.sellsThrough w rendered h b m) b))
  /\ Hook.virtualSolReserves (Hook.state (Hook.sellsThrough w rendered h b n))
     = Hook.virtualSolReserves (Hook.state h)
       - INR n * Hook.outputAmount (Hook.calculateSell rendered b)
  /\ Hook.virtualTokenReserves
       (Hook.state (Hook.sellsThrough w rendered h b n))
     = Hook.virtualTokenReserves (Hook.state h) + INR n * b.
Proof.
  intros Hc Hs. split.
  - intros m _. unfold Hook.succeeded.
    now rewrite (executeSell_ok w rendered _ b Hc Hs).
  - exact (sellsThrough_reserves w rendered b n Hc Hs h).
Qed.

(** Forty-two sells of 27000000 tokens through the callback of the first
    render all execute and leave a negative virtual SOL reserve. *)
Lemma sells_through_one_callback_repeat_the_quote_witness :
  let w := Samples.wallet in
  let h := Hook.initialHook in
  let q := Hook.calculateSell Hook.initialState 27000000 in
  let h' := Hook.sellsThrough w Hook.initialState h 27000000 42 in
  ((forall m, (m < 42)%nat ->
      Hook.succeeded
        (Hook.executeSell w Hook.initialState
           (Hook.sellsThrough w Hook.initialState h 27000000 m) 27000000))
   /\ Hook.virtualSolReserves (Hook.state h')
      = Hook.virtualSolReserves (Hook.state h) - INR 42 * Hook.outputAmount q
   /\ Hook.virtualTokenReserves (Hook.state h')
      = Hook.virtualTokenReserves (Hook.state h) + INR 42 * 27000000)
  /\ Hook.virtualSolReserves (Hook.state h') < 0.
Proof.
  intros w h q h'.
  assert (HS : 0 < Hook.virtualSolReserves Hook.initialState)
    by (rewrite initialState_sol; lra).
  assert (HT : 0 < Hook.virtualTokenReserves Hook.initialState)
    by (rewrite initialState_token; lra).
  assert (Hgate : Hook.slippage (Hook.calculateSell Hook.initialState 27000000)
                  <= 5).
  { rewrite (sell_slippage Hook.initialState HS HT) by lra.
    rewrite initialState_token. lra. }
  assert (H := sells_through_one_callback_repeat_the_quote
                 Samples.wallet Hook.initialState Hook.initialHook
                 27000000 42 eq_refl Hgate).
  split; [exact H|].
  destruct H as (_ & Hsol & _).
  unfold h', w, h. rewrite Hsol.
  rewrite (sell_outputAmount Hook.initialState HT) by lra.
  change (Hook.state Hook.initialHook) with Hook.initialState.
  rewrite initialState_sol, initialState_token, FEE_RATE_val.
  replace (INR 42) with 42 by (cbn [INR]; lra).
  lra.
Defined.

Section HookCompose.
Import Hook.
Variable st : BondingCurveState.
Hypothesis sol_pos : 0 < virtualSolReserves st.
Hypothesis token_pos : 0 < virtualTokenReserves st.

(** Applying the quotes of two buys in a row gives the state reached by
    the quote of one buy of the sum. *)
Lemma stateAfterBuy_compose (a1 a2 : R) :
  0 <= a1 -> 0 <= a2 ->
  let st1 := stateAfterBuy st a1 (calculateBuy st a1) in
  stateAfterBuy st1 a2 (calculateBuy st1 a2)
  = stateAfterBuy st (a1 + a2) (calculateBuy st (a1 + a2))
  /\ outputAmount (calculateBuy st a1) + outputAmount (calculateBuy st1 a2)
     = outputAmount (calculateBuy st (a1 + a2)).
Proof.
  intros H1 H2 st1.
  assert (Hn1 := buy_newSol_pos st sol_pos a1 H1).
  assert (Hn := buy_newSol_pos st sol_pos (a1 + a2) ltac:(lra)).
  assert (Hn2 : 0 < virtualSolReserves st + (a1 - a1 * FEE_RATE)
                    + (a2 - a2 * FEE_RATE)).
  { rewrite FEE_RATE_val in *. lra. }
  assert (Hne : virtualSolReserves st + (a1 + a2 - (a1 + a2) * FEE_RATE) <> 0)
    by lra.
  split.
  - subst st1. unfold stateAfterBuy. f_equal; cbn; try (field; lra); lra.
  - subst st1. cbn. field. lra.
Qed.

(** The sale, right after a buy of 0.7 SOL, of the tokens it gave passes
    the slippage check when the SOL reserve was at least 30. *)
Lemma sell_back_passes :
  30 <= virtualSolReserves st ->
  let q := calculateBuy st 0.7 in
  slippage (calculateSell (stateAfterBuy st 0.7 q) (outputAmount q)) <= 5.
Proof.
  intros HS q.
  assert (HS1 : 0 < virtualSolReserves (stateAfterBuy st 0.7 q)).
  { subst q. rewrite stateAfterBuy_sol, FEE_RATE_val. lra. }
  assert (HT1 : 0 < virtualTokenReserves (stateAfterBuy st 0.7 q)).
  { subst q. rewrite stateAfterBuy_token by (assumption || lra).
    rewrite FEE_RATE_val. apply Rdiv_lt_0_compat; [nra|lra]. }
  assert (Ho : 0 < outputAmount q).
  { subst q. rewrite buy_outputAmount by (assumption || lra).
    rewrite FEE_RATE_val. apply Rdiv_lt_0_compat; [nra|lra]. }
  rewrite sell_slippage by (assumption || lra).
  replace (virtualTokenReserves (stateAfterBuy st 0.7 q) + outputAmount q)
    with (virtualTokenReserves st) by (subst q; cbn; lra).
  subst q. rewrite stateAfterBuy_token by (assumption || lra).
  rewrite FEE_RATE_val.
  set (s := virtualSolReserves st) in *.
  set (t := virtualTokenReserves st) in *.
  replace 0.7 with (7 / 10) by lra.
  replace (s * t / (s + (7 / 10 - 7 / 10 * (1 / 100)))
           * (s * t / (s + (7 / 10 - 7 / 10 * (1 / 100)))) / (t * t))
    with (s * s / ((s + 693 / 1000) * (s + 693 / 1000))) by (field; lra).
  assert (Hd : 0 < (s + 693 / 1000) * (s + 693 / 1000)) by nra.
  assert (Hiff := div_le_iff (- (s * s)) ((s + 693 / 1000) * (s + 693 / 1000))
                    (- (95 / 100)) Hd).
  replace (- (s * s) / ((s + 693 / 1000) * (s + 693 / 1000)))
    with (- (s * s / ((s + 693 / 1000) * (s + 693 / 1000)))) in Hiff
    by (field; lra).
  assert (H' : - (s * s)
               <= - (95 / 100) * ((s + 693 / 1000) * (s + 693 / 1000))) by nra.
  apply Hiff in H'. lra.
Qed.

End HookCompose.

Lemma modest_buy_executes
      (rendered : Hook.BondingCurveState) (h : Hook.HookState) (a : R) :
  0 <= a <= 0.7 ->
  30 <= Hook.virtualSolReserves rendered ->
  0 < Hook.virtualTokenReserves rendered ->
  Hook.succeeded (Hook.executeBuy Samples.wallet rendered h a).
Proof.
  intros Ha HS HT. unfold Hook.succeeded.
  rewrite executeBuy_ok; [reflexivity|reflexivity|].
  rewrite buy_slippage by lra. rewrite FEE_RATE_val.
  set (v := Hook.virtualSolReserves rendered) in *.
  set (n := a - a * (1 / 100)).
  assert (Hn : 0 <= n <= 693 / 1000) by (unfold n; lra).
  assert (Hd : 0 < v * v) by nra.
  assert (Hiff := div_le_iff (n * (2 * v + n)) (v * v) (5 / 100) Hd).
  assert (H1 : n * (2 * v + n) <= 693 / 1000 * (2 * v + 693 / 1000)) by nra.
  assert (H' : n * (2 * v + n) <= 5 / 100 * (v * v)) by nra.
  apply Hiff in H'. lra.
Qed.

(** Two buys quoted from the same state give more tokens in total than one
    buy of the sum quoted from that state. *)
Lemma buy_outputs_superadditive (st : Hook.BondingCurveState) (a1 a2 : R) :
  0 < Hook.virtualSolReserves st -> 0 < Hook.virtualTokenReserves st ->
  0 < a1 -> 0 < a2 ->
  Hook.outputAmount (Hook.calculateBuy st (a1 + a2))
  < Hook.outputAmount (Hook.calculateBuy st a1)
    + Hook.outputAmount (Hook.calculateBuy st a2).
Proof.
  intros HS HT H1 H2.
  rewrite !buy_outputAmount by (assumption || lra).
  rewrite FEE_RATE_val.
  set (s := Hook.virtualSolReserves st) in *.
  set (t := Hook.virtualTokenReserves st) in *.
  set (n1 := a1 - a1 * (1 / 100)).
  set (n2 := a2 - a2 * (1 / 100)).
  replace (a1 + a2 - (a1 + a2) * (1 / 100)) with (n1 + n2)
    by (unfold n1, n2; lra).
  assert (Hn1 : 0 < n1) by (unfold n1; lra).
  assert (Hn2 : 0 < n2) by (unfold n2; lra).
  assert (I1 : / (s + (n1 + n2)) < / (s + n1))
    by (apply Rinv_lt_contravar; nra).
  assert (I2 : / (s + (n1 + n2)) < / (s + n2))
    by (apply Rinv_lt_contravar; nra).
  assert (P1 : 0 < t * n1 * (/ (s + n1) - / (s + (n1 + n2))))
    by (apply Rmult_lt_0_compat; nra).
  assert (P2 : 0 < t * n2 * (/ (s + n2) - / (s + (n1 + n2))))
    by (apply Rmult_lt_0_compat; nra).
  unfold Rdiv. lra.
Qed.

(** X19: buys compose when each is quoted from the state it is applied to,
    and only then.  Take a buy of [a1] through the callback of the render
    showing the state, followed by a buy of [a2], all executed.  If the
    second buy is made through the callback of the render that follows the
    first buy, the two leave the same bonding-curve state as a single buy
    of [a1 + a2] and give the same number of tokens in total.  If the
    second buy is made through the callback of the first render, the SOL
    reserves are again those of the single buy, but its quote is the one of
    the first state and the virtual token reserve ends strictly lower. *)
Theorem consecutive_buys_compose
  (w : Hook.Wallet) (h : Hook.HookState) (a1 a2 : R) :
  0 < Hook.virtualSolReserves (Hook.state h) ->
  0 < Hook.virtualTokenReserves (Hook.state h) ->
  0 < a1 -> 0 < a2 ->
  let h1 := fst (Hook.executeBuy w (Hook.state h) h a1) in
  Hook.succeeded (Hook.executeBuy w (Hook.state h) h a1) ->
  Hook.succeeded (Hook.executeBuy w (Hook.state h1) h1 a2) ->
  Hook.succeeded (Hook.executeBuy w (Hook.state h) h1 a2) ->
  Hook.succeeded (Hook.executeBuy w (Hook.state h) h (a1 + a2)) ->
  let single := Hook.state (fst (Hook.executeBuy w (Hook.state h) h (a1 + a2))) in
  let latest := Hook.state (fst (Hook.executeBuy w (Hook.state h1) h1 a2)) in
  let kept := Hook.state (fst (Hook.executeBuy w (Hook.state h) h1 a2)) in
  latest = single
  /\ Hook.outputAmount (Hook.calculateBuy (Hook.state h) a1)
     + Hook.outputAmount (Hook.calculateBuy (Hook.state h1) a2)
     = Hook.outputAmount (Hook.calculateBuy (Hook.state h) (a1 + a2))
  /\ Hook.virtualSolReserves kept = Hook.virtualSolReserves single
  /\ Hook.realSolReserves kept = Hook.realSolReserves single
  /\ Hook.virtualTokenReserves kept < Hook.virtualTokenReserves single.
Proof.
  intros HS HT H1 H2 h1 Hok1 Hok2 Hok2' Hok single latest kept.
  subst single latest kept.
  rewrite (executeBuy_succeeded w (Hook.state h1) h1 a2 Hok2).
  rewrite (executeBuy_succeeded w (Hook.state h) h1 a2 Hok2').
  rewrite (executeBuy_succeeded w (Hook.state h) h (a1 + a2) Hok).
  subst h1. rewrite (executeBuy_succeeded w (Hook.state h) h a1 Hok1).
  destruct (stateAfterBuy_compose (Hook.state h) HS a1 a2 ltac:(lra) ltac:(lra))
    as [Hst Hout].
  split; [exact Hst|]. split; [exact Hout|].
  assert (Hsup := buy_outputs_superadditive (Hook.state h) a1 a2 HS HT H1 H2).
  cbn [Hook.stateAfterBuy Hook.virtualSolReserves Hook.realSolReserves
       Hook.virtualTokenReserves].
  rewrite !buy_fee.
  split; [lra|]. split; [lra|]. lra.
Qed.

Lemma consecutive_buys_compose_witness :
  let h := Hook.initialHook in
  let h1 := fst (Hook.executeBuy Samples.wallet (Hook.state h) h 0.3) in
  let single :=
    Hook.state (fst (Hook.executeBuy Samples.wallet (Hook.state h) h (0.3 + 0.4))) in
  let latest :=
    Hook.state (fst (Hook.executeBuy Samples.wallet (Hook.state h1) h1 0.4)) in
  let kept :=
    Hook.state (fst (Hook.executeBuy Samples.wallet (Hook.state h) h1 0.4)) in
  latest = single
  /\ Hook.outputAmount (Hook.calculateBuy (Hook.state h) 0.3)
     + Hook.outputAmount (Hook.calculateBuy (Hook.state h1) 0.4)
     = Hook.outputAmount (Hook.calculateBuy (Hook.state h) (0.3 + 0.4))
  /\ Hook.virtualSolReserves kept = Hook.virtualSolReserves single
  /\ Hook.realSolReserves kept = Hook.realSolReserves single
  /\ Hook.virtualTokenReserves kept < Hook.virtualTokenReserves single.
Proof.
  assert (HS : 30 <= Hook.virtualSolReserves (Hook.state Hook.initialHook)).
  { change (Hook.state Hook.initialHook) with Hook.initialState.
    rewrite initialState_sol. lra. }
  assert (HT : 0 < Hook.virtualTokenReserves (Hook.state Hook.initialHook)).
  { change (Hook.state Hook.initialHook) with Hook.initialState.
    rewrite initialState_token. lra. }
  assert (Hok1 := modest_buy_executes (Hook.state Hook.initialHook)
                    Hook.initialHook 0.3 ltac:(lra) HS HT).
  apply (consecutive_buys_compose Samples.wallet Hook.initialHook 0.3 0.4).
  - lra.
  - exact HT.
  - lra.
  - lra.
  - exact Hok1.
  - apply modest_buy_executes; [lra| |];
      rewrite (executeBuy_succeeded _ _ _ _ Hok1).
    + rewrite stateAfterBuy_sol, FEE_RATE_val. lra.
    + rewrite stateAfterBuy_token by lra. rewrite FEE_RATE_val.
      apply Rdiv_lt_0_compat; [nra|lra].
  - apply modest_buy_executes; [lra|exact HS|exact HT].
  - apply modest_buy_executes; [lra|exact HS|exact HT].
Defined.

(** X21: a buy made through the callback of the render showing the state,
    followed at once by the sale of the tokens it gave, made through the
    callback of the render that follows the buy, both executed.  The
    virtual token reserve is back at its value before the buy; the seller
    receives the amount paid minus the fees of the two trades, both
    positive; the fee of the sell, and nothing else, remains in the virtual
    and in the real SOL reserves.  The render matters: the [calculateSell]
    of the render before the buy, which is what the [executeSell] of that
    render pays, quotes strictly less for the same sale. *)
Theorem executed_round_trip_keeps_sell_fee
  (w : Hook.Wallet) (h : Hook.HookState) (a : R) :
  0 < Hook.virtualSolReserves (Hook.state h) ->
  0 < Hook.virtualTokenReserves (Hook.state h) ->
  0 <= Hook.realSolReserves (Hook.state h) ->
  0 < a ->
  let q := Hook.calculateBuy (Hook.state h) a in
  let h1 := fst (Hook.executeBuy w (Hook.state h) h a) in
  let r := Hook.calculateSell (Hook.state h1) (Hook.outputAmount q) in
  let h2 :=
    fst (Hook.executeSell w (Hook.state h1) h1 (Hook.outputAmount q)) in
  Hook.succeeded (Hook.executeBuy w (Hook.state h) h a) ->
  Hook.succeeded
    (Hook.executeSell w (Hook.state h1) h1 (Hook.outputAmount q)) ->
  Hook.outputAmount r = a - Hook.fee q - Hook.fee r
  /\ 0 < Hook.fee q /\ 0 < Hook.fee r
  /\ Hook.virtualTokenReserves (Hook.state h2)
     = Hook.virtualTokenReserves (Hook.state h)
  /\ Hook.virtualSolReserves (Hook.state h2)
     = Hook.virtualSolReserves (Hook.state h) + Hook.fee r
  /\ Hook.realSolReserves (Hook.state h2)
     = Hook.realSolReserves (Hook.state h) + Hook.fee r
  /\ Hook.outputAmount
       (Hook.calculateSell (Hook.state h) (Hook.outputAmount q))
     < Hook.outputAmount r.
Proof.
  intros HS HT HR Ha q h1 r h2 Hok1 Hok2.
  subst h2 r. rewrite (executeSell_succeeded w (Hook.state h1) h1 _ Hok2).
  subst h1. rewrite (executeBuy_succeeded w (Hook.state h) h a Hok1).
  destruct (hook_round_trip (Hook.state h) HS HT HR a Ha)
    as (H1 & H2 & H3 & H4 & H5 & H6 & _).
  assert (H7 := sell_quoted_before_buy_pays_less (Hook.state h) HS HT a Ha).
  subst q. repeat split; assumption.
Qed.

Lemma executed_round_trip_keeps_sell_fee_witness :
  let h := Hook.initialHook in
  let q := Hook.calculateBuy (Hook.state h) 0.7 in
  let h1 := fst (Hook.executeBuy Samples.wallet (Hook.state h) h 0.7) in
  let r := Hook.calculateSell (Hook.state h1) (Hook.outputAmount q) in
  let h2 :=
    fst (Hook.executeSell Samples.wallet (Hook.state h1) h1 (Hook.outputAmount q)) in
  Hook.outputAmount r = 0.7 - Hook.fee q - Hook.fee r
  /\ 0 < Hook.fee q /\ 0 < Hook.fee r
  /\ Hook.virtualTokenReserves (Hook.state h2)
     = Hook.virtualTokenReserves (Hook.state h)
  /\ Hook.virtualSolReserves (Hook.state h2)
     = Hook.virtualSolReserves (Hook.state h) + Hook.fee r
  /\ Hook.realSolReserves (Hook.state h2)
     = Hook.realSolReserves (Hook.state h) + Hook.fee r
  /\ Hook.outputAmount
       (Hook.calculateSell (Hook.state h) (Hook.outputAmount q))
     < Hook.outputAmount r.
Proof.
  assert (HS : 30 <= Hook.virtualSolReserves (Hook.state Hook.initialHook)).
  { change (Hook.state Hook.initialHook) with Hook.initialState.
    rewrite initialState_sol. lra. }
  assert (HT : 0 < Hook.virtualTokenReserves (Hook.state Hook.initialHook)).
  { change (Hook.state Hook.initialHook) with Hook.initialState.
    rewrite initialState_token. lra. }
  apply (executed_round_trip_keeps_sell_fee Samples.wallet Hook.initialHook 0.7).
  - lra.
  - exact HT.
  - cbn. lra.
  - lra.
  - unfold Hook.succeeded. rewrite small_buy_executes by assumption.
    reflexivity.
  - rewrite small_buy_executes by assumption. cbn [fst].
    unfold Hook.succeeded. rewrite executeSell_ok; [reflexivity|reflexivity|].
    cbn [Hook.state].
    apply (sell_back_passes (Hook.state Hook.initialHook)); [lra|exact HT|exact HS].
Defined.

(** X22: the hook does not check a sell against the real reserves.  An
    executed sell of a positive amount pays out a positive amount of SOL
    even when the real SOL reserve holds less than that; the real reserve
    is then set to 0.  This holds whichever render the sell was quoted
    from. *)
Theorem sell_beyond_real_reserves_executes_to_zero
  (w : Hook.Wallet) (rendered : Hook.BondingCurveState)
  (h : Hook.HookState) (b : R) :
  0 < Hook.virtualSolReserves rendered ->
  0 < Hook.virtualTokenReserves rendered ->
  0 < b ->
  Hook.realSolReserves (Hook.state h)
  <= Hook.outputAmount (Hook.calculateSell rendered b) ->
  Hook.succeeded (Hook.executeSell w rendered h b) ->
  0 < Hook.outputAmount (Hook.calculateSell rendered b)
  /\ Hook.realSolReserves (Hook.state (fst (Hook.executeSell w rendered h b))) = 0.
Proof.
  intros HS HT Hb Hreal Hok.
  rewrite (executeSell_succeeded w rendered h b Hok). split.
  - rewrite sell_outputAmount by (assumption || lra). rewrite FEE_RATE_val.
    apply Rmult_lt_0_compat; [lra|].
    apply Rdiv_lt_0_compat; [nra|lra].
  - cbn [Hook.stateAfterSell Hook.realSolReserves]. unfold Math_max.
    apply Rmax_left. lra.
Qed.

Lemma sell_beyond_real_reserves_executes_to_zero_witness :
  0 < Hook.outputAmount (Hook.calculateSell Hook.initialState 1000000)
  /\ Hook.realSolReserves
       (Hook.state (fst (Hook.executeSell Samples.wallet Hook.initialState
                           Hook.initialHook 1000000)))
     = 0.
Proof.
  assert (HS : 0 < Hook.virtualSolReserves Hook.initialState).
  { rewrite initialState_sol. lra. }
  assert (HT : 0 < Hook.virtualTokenReserves Hook.initialState).
  { rewrite initialState_token. lra. }
  apply (sell_beyond_real_reserves_executes_to_zero Samples.wallet
           Hook.initialState Hook.initialHook 1000000 HS HT).
  - lra.
  - change (Hook.realSolReserves (Hook.state Hook.initialHook)) with 0.
    rewrite sell_outputAmount by (assumption || lra). rewrite FEE_RATE_val.
    apply Rmult_le_pos; [lra|]. left.
    apply Rdiv_lt_0_compat; [nra|lra].
  - unfold Hook.succeeded. rewrite initial_sell_executes. reflexivity.
Defined.

(** X23: at or above [maxSupply] a buy is still quoted, never refused: the
    quote gives no tokens or a negative number of them, and its price after
    the trade is [initialPrice]. *)
Theorem buy_at_exhausted_curve_is_quoted
  (this : PowerLaw.BondingCurve) (solAmount currentSupply : R) :
  PowerLaw.maxSupply (PowerLaw.config this) <= currentSupply ->
  exists q,
    PowerLaw.calculateBuyAmount this solAmount currentSupply = Ok q
    /\ PowerLaw.outputAmount q <= 0
    /\ PowerLaw.maxSupply (PowerLaw.config this)
       <= currentSupply + PowerLaw.outputAmount q
    /\ PowerLaw.priceAfter q = PowerLaw.initialPrice (PowerLaw.config this).
Proof.
  intros Hge.
  destruct (calculateBuyAmount_unfold this solAmount currentSupply)
    as (v & Hv & Hq).
  apply solveForSupply_at_or_above_max in Hv; [|assumption].
  eexists. split; [exact Hq|].
  cbn [PowerLaw.outputAmount PowerLaw.priceAfter].
  split; [lra|]. split; [lra|].
  apply calculatePrice_above. lra.
Qed.

Lemma buy_at_exhausted_curve_is_quoted_witness :
  exists q,
    PowerLaw.calculateBuyAmount Samples.quadratic 1 100 = Ok q
    /\ PowerLaw.outputAmount q <= 0
    /\ PowerLaw.maxSupply (PowerLaw.config Samples.quadratic)
       <= 100 + PowerLaw.outputAmount q
    /\ PowerLaw.priceAfter q
       = PowerLaw.initialPrice (PowerLaw.config Samples.quadratic).
Proof.
  apply (buy_at_exhausted_curve_is_quoted Samples.quadratic 1 100).
  cbn. lra.
Defined.
